(** * Mondial Relay client library: parcel-shop selector and shipment creation

    A shallow embedding of
      - [src/browser/ParcelShopSelector/utils.ts]  (brand and delivery-mode checks),
      - [src/browser/ParcelShopSelector/index.tsx] (the React component that loads
        jQuery and the Mondial Relay widget script and attaches the widget),
      - the server-side [createShipment] function,
    followed by the properties established about them.

    Modelling choices.
      - JavaScript strings are sequences of UTF-16 code units: lists of [N].
      - A thrown exception is a [Throw] completion.
      - The browser (the window flags, [window.$], the script elements of
        [document.body], the zone element, promises, the console) is an explicit
        [World] record threaded through every function.  The world also keeps a
        [trace] of the calls made, which the code does not have; it is only
        read by the statements that count calls or name the last mount that
        attached the widget.
      - A component instance is a [Session] record holding its [useState]
        cells and its ref.  React's scheduling ([useEffect] with a dependency
        list: cleanup of the previous run, then the new run; a state setter
        causes a new render) is written out in [mountComponent], [changeProps],
        [settleSession] and [unmountComponent].
      - The third-party widget call, the zod schemas, the XML builder and the
        HTTP endpoint are parameters of the sections that use them. *)

From Stdlib Require Import NArith ZArith List String Ascii Lia DecimalString Bool.
From stdpp Require Import base list.

Import ListNotations.
Open Scope nat_scope.
Set Warnings "-register-all".

(* ===================================================================== *)
(** ** JavaScript strings and exceptions *)
(* ===================================================================== *)

Definition code_unit := N.
Definition jsstring := list code_unit.

(** An ASCII literal read as a JavaScript string. *)
Definition js (s : string) : jsstring := map N_of_ascii (list_ascii_of_string s).

Definition SPACE : code_unit := 32%N.
Definition DQUOTE : code_unit := 34%N.

(** [String(n)] for a natural number (as used for [trimmed.length]). *)
Definition decimal (n : nat) : jsstring := js (NilEmpty.string_of_uint (Nat.to_uint n)).

(** ECMAScript [WhiteSpace] and [LineTerminator] code units: what
    [String.prototype.trim] strips. *)
Definition is_white_space (c : code_unit) : bool :=
  existsb (N.eqb c)
    [9; 10; 11; 12; 13; 32; 160; 5760; 8232; 8233; 8239; 8287; 12288; 65279]%N
  || (N.leb 8192 c && N.leb c 8202).

Fixpoint trimStart (s : jsstring) : jsstring :=
  match s with
  | [] => []
  | c :: s' => if is_white_space c then trimStart s' else s
  end.

Definition trimEnd (s : jsstring) : jsstring := rev (trimStart (rev s)).

(** [s.trim()] *)
Definition trim (s : jsstring) : jsstring := trimEnd (trimStart s).

(** A string with no white space at its start (resp. end). *)
Definition starts_clean (s : jsstring) : Prop :=
  match s with
  | [] => True
  | c :: _ => is_white_space c = false
  end.

Definition ends_clean (s : jsstring) : Prop := starts_clean (rev s).

(** [s.padEnd(maxLength, fillString)]: the filler is [fillString] repeated and
    truncated to the missing length; nothing happens when [s] is long enough or
    the filler is empty. *)
Definition padEnd (s : jsstring) (maxLength : nat) (fillString : jsstring) : jsstring :=
  if Nat.leb maxLength (length s) then s
  else match fillString with
       | [] => s
       | _ => let fillLen := maxLength - length s in
              s ++ firstn fillLen (concat (repeat fillString fillLen))
       end.

(** [validModes.includes(mode)] and the like. *)
Definition jsstring_eqb (a b : jsstring) : bool := bool_decide (a = b).
Definition includes (l : list jsstring) (x : jsstring) : bool := existsb (jsstring_eqb x) l.

(** A string is falsy exactly when it is empty. *)
Definition truthy_string (s : jsstring) : bool :=
  match s with [] => false | _ => true end.

(** Thrown values: an [Error] object with its message, or some other value. *)
Inductive exn : Type :=
  | JsError (message : jsstring)
  | JsNonError.

Inductive completion (A : Type) : Type :=
  | Normal (a : A)
  | Throw (e : exn).
Arguments Normal {A} a.
Arguments Throw {A} e.

(* ===================================================================== *)
(** ** utils.ts *)
(* ===================================================================== *)

Definition MSG_BRAND_REQUIRED : jsstring :=
  js "[ParcelShopSelector] brandIdAPI is required and must be a string".

Definition MSG_BRAND_EMPTY : jsstring :=
  js "[ParcelShopSelector] brandIdAPI cannot be empty".

Definition MSG_BRAND_TOO_LONG (trimmed : jsstring) : jsstring :=
  js "[ParcelShopSelector] brandIdAPI must be at most 8 characters (got "
  ++ decimal (length trimmed) ++ js "). "
  ++ js "Received: " ++ [DQUOTE] ++ trimmed ++ [DQUOTE].

Definition normalizeBrandId (brand : jsstring) : completion jsstring :=
  if negb (truthy_string brand) then Throw (JsError MSG_BRAND_REQUIRED)
  else
    let trimmed := trim brand in
    if Nat.ltb 8 (length trimmed) then Throw (JsError (MSG_BRAND_TOO_LONG trimmed))
    else if Nat.eqb (length trimmed) 0 then Throw (JsError MSG_BRAND_EMPTY)
    else Normal (padEnd trimmed 8 [SPACE]).

(** The two error classes the specification names for brand identifiers.
    The code has two messages for a missing identifier: one for the empty
    string (caught by [!brand]) and one for a blank string. *)
Inductive brand_error : Type := EmptyIdentifier | IdentifierTooLong.

Definition TOO_LONG_PREFIX : jsstring :=
  js "[ParcelShopSelector] brandIdAPI must be at most 8 characters (got ".

Definition classify_brand_error (e : exn) : option brand_error :=
  match e with
  | JsError m =>
      if jsstring_eqb m MSG_BRAND_REQUIRED then Some EmptyIdentifier
      else if jsstring_eqb m MSG_BRAND_EMPTY then Some EmptyIdentifier
      else if jsstring_eqb (firstn (length TOO_LONG_PREFIX) m) TOO_LONG_PREFIX
           then Some IdentifierTooLong
      else None
  | JsNonError => None
  end.

Definition validModes : list jsstring :=
  [js "LCC"; js "HOM"; js "24R"; js "24L"; js "XOH"].

(** [l.join(sep)] *)
Fixpoint join (sep : jsstring) (l : list jsstring) : jsstring :=
  match l with
  | [] => []
  | [x] => x
  | x :: rest => x ++ sep ++ join sep rest
  end.

Definition MSG_INVALID_MODE (mode : jsstring) : jsstring :=
  js "[ParcelShopSelector] Invalid deliveryMode: " ++ [DQUOTE] ++ mode ++ [DQUOTE] ++ js ". "
  ++ js "Valid modes are: " ++ join (js ", ") validModes
  ++ js ". Defaulting to " ++ [DQUOTE] ++ js "24R" ++ [DQUOTE] ++ js ".".

(** [validateDeliveryMode(mode?)]: never throws; returns the console output
    it produces (at most one [console.error] line). *)
Definition validateDeliveryMode (mode : option jsstring) : list jsstring :=
  match mode with
  | Some m =>
      if truthy_string m && negb (includes validModes m) then [MSG_INVALID_MODE m] else []
  | None => []
  end.


(* ===================================================================== *)
(** ** The browser: window, document, promises, console *)
(* ===================================================================== *)

(** [window.$]: absent, a truthy value that is not a function, or a function
    (jQuery's entry point). *)
Inductive dollar_t : Type := DollarUndefined | DollarNotCallable | DollarFunction.

Definition truthy_dollar (d : dollar_t) : bool :=
  match d with DollarUndefined => false | _ => true end.

Definition is_function (d : dollar_t) : bool :=
  match d with DollarFunction => true | _ => false end.

(** The two remote scripts, in dependency order. *)
Inductive script_src : Type :=
  | JQUERY_URL      (* https://ajax.googleapis.com/ajax/libs/jquery/2.2.4/jquery.min.js *)
  | MR_WIDGET_URL.  (* https://widget.mondialrelay.com/parcelshop-picker/jquery.plugin... *)

Inductive load_status : Type := InFlight | LoadFired | ErrorFired.

#[global] Instance script_src_eq_dec : EqDecision script_src.
Proof. solve_decision. Defined.

#[global] Instance load_status_eq_dec : EqDecision load_status.
Proof. solve_decision. Defined.

(** A [<script>] element appended to [document.body].  Its [onload] and
    [onerror] handlers close over the [resolve]/[reject] pair of one promise,
    recorded in [settles]. *)
Record script : Type := mkScript {
  src : script_src;
  settles : nat;
  status : load_status
}.

Inductive promise_state : Type :=
  | Pending
  | Fulfilled
  | Rejected (reason : exn).

(** The object literal passed to [MR_ParcelShopPicker].  The selection
    callback is a closure of one mounted component; it is represented by that
    mount's identifier. *)
Record MRWidgetConfig : Type := mkConfig {
  Target : jsstring;
  Brand : jsstring;
  Country : jsstring;
  PostCode : jsstring;
  ColLivMod : jsstring;
  NbResults : jsstring;
  ShowResultsOnMap : bool;
  DisplayMapInfo : bool;
  AllowedCountries : jsstring;
  CSS : jsstring;
  Weight : option Z;
  OnParcelShopSelected : nat
}.

Inductive console_arg : Type :=
  | CStr (s : jsstring)
  | CExn (e : exn).

(** Observable calls, in order of occurrence (most recent last). *)
Inductive event : Type :=
  | EvLoadScripts (mount : nat) (promise : nat)
  | EvAppendScript (s : script_src)
  | EvScriptLoad (index : nat)
  | EvScriptError (index : nat)
  | EvPickerCall (cfg : MRWidgetConfig)
  | EvAttached (mount : nat).

Record World : Type := mkWorld {
  in_browser : bool;                       (* typeof window/document !== 'undefined' *)
  dollar : dollar_t;                       (* window.$ *)
  __MR_WIDGET_SCRIPTS_LOADED__ : bool;     (* window flag; undefined counts as false *)
  __MR_WIDGET_INITIALIZED__ : bool;        (* window flag; undefined counts as false *)
  mr_widget_style : bool;                  (* <style id="mr-widget-style"> is in head *)
  body : list script;                      (* script children of document.body *)
  Zone_Widget : option jsstring;           (* innerHTML of the element found by id *)
  promises : list promise_state;
  console : list (list console_arg);
  trace : list event
}.

Definition isBrowser (w : World) : bool := in_browser w.

Definition set_dollar (d : dollar_t) (w : World) : World :=
  mkWorld (in_browser w) d (__MR_WIDGET_SCRIPTS_LOADED__ w) (__MR_WIDGET_INITIALIZED__ w)
          (mr_widget_style w) (body w) (Zone_Widget w) (promises w) (console w) (trace w).

Definition set_scripts_loaded (b : bool) (w : World) : World :=
  mkWorld (in_browser w) (dollar w) b (__MR_WIDGET_INITIALIZED__ w)
          (mr_widget_style w) (body w) (Zone_Widget w) (promises w) (console w) (trace w).

Definition set_initialized (b : bool) (w : World) : World :=
  mkWorld (in_browser w) (dollar w) (__MR_WIDGET_SCRIPTS_LOADED__ w) b
          (mr_widget_style w) (body w) (Zone_Widget w) (promises w) (console w) (trace w).

Definition set_style (b : bool) (w : World) : World :=
  mkWorld (in_browser w) (dollar w) (__MR_WIDGET_SCRIPTS_LOADED__ w) (__MR_WIDGET_INITIALIZED__ w)
          b (body w) (Zone_Widget w) (promises w) (console w) (trace w).

Definition set_body (l : list script) (w : World) : World :=
  mkWorld (in_browser w) (dollar w) (__MR_WIDGET_SCRIPTS_LOADED__ w) (__MR_WIDGET_INITIALIZED__ w)
          (mr_widget_style w) l (Zone_Widget w) (promises w) (console w) (trace w).

Definition set_zone (z : option jsstring) (w : World) : World :=
  mkWorld (in_browser w) (dollar w) (__MR_WIDGET_SCRIPTS_LOADED__ w) (__MR_WIDGET_INITIALIZED__ w)
          (mr_widget_style w) (body w) z (promises w) (console w) (trace w).

Definition set_promises (l : list promise_state) (w : World) : World :=
  mkWorld (in_browser w) (dollar w) (__MR_WIDGET_SCRIPTS_LOADED__ w) (__MR_WIDGET_INITIALIZED__ w)
          (mr_widget_style w) (body w) (Zone_Widget w) l (console w) (trace w).

Definition console_error (args : list console_arg) (w : World) : World :=
  mkWorld (in_browser w) (dollar w) (__MR_WIDGET_SCRIPTS_LOADED__ w) (__MR_WIDGET_INITIALIZED__ w)
          (mr_widget_style w) (body w) (Zone_Widget w) (promises w) (console w ++ [args]) (trace w).

Definition emit (e : event) (w : World) : World :=
  mkWorld (in_browser w) (dollar w) (__MR_WIDGET_SCRIPTS_LOADED__ w) (__MR_WIDGET_INITIALIZED__ w)
          (mr_widget_style w) (body w) (Zone_Widget w) (promises w) (console w) (trace w ++ [e]).

(** [new Promise(...)]: a fresh pending promise; its identifier is its index. *)
Definition new_promise (w : World) : nat * World :=
  (length (promises w), set_promises (promises w ++ [Pending]) w).

(** [resolve()] / [reject(e)]: settle the promise unless it is settled already. *)
Definition settle (p : nat) (st : promise_state) (w : World) : World :=
  match promises w !! p with
  | Some Pending => set_promises (<[p := st]> (promises w)) w
  | _ => w
  end.

Definition resolve (p : nat) (w : World) : World := settle p Fulfilled w.
Definition reject (p : nat) (e : exn) (w : World) : World := settle p (Rejected e) w.

(** [document.body.appendChild(script)]: the browser starts fetching it. *)
Definition appendChild (sc : script) (w : World) : World :=
  emit (EvAppendScript (src sc)) (set_body (body w ++ [sc]) w).

(** [zone.innerHTML = ''] when [document.getElementById('Zone_Widget')] finds
    an element. *)
Definition clear_zone (w : World) : World :=
  match Zone_Widget w with
  | Some _ => set_zone (Some []) w
  | None => w
  end.

(* ===================================================================== *)
(** ** index.tsx: the ParcelShopSelector component *)
(* ===================================================================== *)

(** Numbers are restricted to integers ([weight] in grams, [nbResults]). *)
Record Props : Type := mkProps {
  weight : option Z;
  nbResults : option Z;
  brandIdAPI : option jsstring;
  defaultCountry : option jsstring;
  defaultPostcode : option jsstring;
  allowedCountries : option jsstring;
  deliveryMode : option jsstring
}.

(** Destructuring defaults ([nbResults = 7], [brandIdAPI = 'BDTEST'], ...). *)
Definition the_nbResults (p : Props) : Z := default 7%Z (nbResults p).
Definition the_brandIdAPI (p : Props) : jsstring := default (js "BDTEST") (brandIdAPI p).
Definition the_deliveryMode (p : Props) : jsstring := default (js "24R") (deliveryMode p).
Definition the_defaultCountry (p : Props) : jsstring := default (js "FR") (defaultCountry p).
Definition the_defaultPostcode (p : Props) : jsstring := default (js "59000") (defaultPostcode p).
Definition the_allowedCountries (p : Props) : jsstring := default (js "FR") (allowedCountries p).

(** [String(n)] for an integer. *)
Definition String_of_Z (n : Z) : jsstring :=
  match n with
  | Z0 => js "0"
  | Zpos q => decimal (Pos.to_nat q)
  | Zneg q => js "-" ++ decimal (Pos.to_nat q)
  end.

(** [...(weight && { Weight: weight })]: the key is present for a truthy weight. *)
Definition spread_weight (wt : option Z) : option Z :=
  match wt with
  | Some 0%Z => None
  | Some n => Some n
  | None => None
  end.

(** The component's own state: [useState] cells, the [widgetInitialized] ref,
    whether the last run of the second effect returned its cleanup function,
    and the promises its [initializeWidget] calls are awaiting (each with the
    props its closure captured). *)
Record Session : Type := mkSession {
  mount : nat;
  props : Props;
  isReady : bool;
  error : option jsstring;
  widgetInitialized : bool;
  hasCleanup : bool;
  awaiting : list (nat * Props)
}.

Definition set_isReady (b : bool) (s : Session) : Session :=
  mkSession (mount s) (props s) b (error s) (widgetInitialized s) (hasCleanup s) (awaiting s).
Definition set_error (e : option jsstring) (s : Session) : Session :=
  mkSession (mount s) (props s) (isReady s) e (widgetInitialized s) (hasCleanup s) (awaiting s).
Definition set_widgetInitialized (b : bool) (s : Session) : Session :=
  mkSession (mount s) (props s) (isReady s) (error s) b (hasCleanup s) (awaiting s).
Definition set_hasCleanup (b : bool) (s : Session) : Session :=
  mkSession (mount s) (props s) (isReady s) (error s) (widgetInitialized s) b (awaiting s).
Definition set_props (p : Props) (s : Session) : Session :=
  mkSession (mount s) p (isReady s) (error s) (widgetInitialized s) (hasCleanup s) (awaiting s).
Definition add_awaiting (p : nat) (pr : Props) (s : Session) : Session :=
  mkSession (mount s) (props s) (isReady s) (error s) (widgetInitialized s) (hasCleanup s)
            (awaiting s ++ [(p, pr)]).

(** [error] is [string | null]; it is truthy when it is a non-empty string. *)
Definition truthy_error (e : option jsstring) : bool :=
  match e with Some m => truthy_string m | None => false end.

(** [err instanceof Error ? err.message : fallback] *)
Definition error_message (e : exn) (fallback : jsstring) : jsstring :=
  match e with JsError m => m | JsNonError => fallback end.

Definition MSG_JQUERY_FAILED : jsstring := js "Failed to load jQuery".
Definition MSG_MR_FAILED : jsstring := js "Failed to load Mondial Relay widget".
Definition MSG_NO_JQUERY : jsstring := js "[ParcelShopSelector] jQuery not available".
Definition MSG_INIT_FAILED : jsstring := js "[ParcelShopSelector] Failed to initialize widget:".

Section Component.

(** The third-party call [window.$('#Zone_Widget').MR_ParcelShopPicker(cfg)]:
    given the configuration and the current world it either returns or
    throws, and leaves some content in the zone element. *)
Variable MR_ParcelShopPicker : MRWidgetConfig -> World -> completion unit * option jsstring.

Definition injectCSS (w : World) : World :=
  if mr_widget_style w then w else set_style true w.

Definition loadMRWidget (p : nat) (w : World) : World :=
  if __MR_WIDGET_SCRIPTS_LOADED__ w then resolve p w
  else appendChild (mkScript MR_WIDGET_URL p InFlight) w.

(** [loadScripts()], called by the component instance [m]: creates the
    promise and runs its executor. *)
Definition loadScripts (m : nat) (w : World) : nat * World :=
  let (p, w) := new_promise w in
  let w := emit (EvLoadScripts m p) w in
  if __MR_WIDGET_SCRIPTS_LOADED__ w && truthy_dollar (dollar w) then (p, resolve p w)
  else if truthy_dollar (dollar w) then (p, loadMRWidget p w)
  else (p, appendChild (mkScript JQUERY_URL p InFlight) w).

(** The [onload] and [onerror] handlers installed on a script element. *)
Definition onload (sc : script) (w : World) : World :=
  match src sc with
  | JQUERY_URL => loadMRWidget (settles sc) w
  | MR_WIDGET_URL => resolve (settles sc) (set_scripts_loaded true w)
  end.

Definition onerror (sc : script) (w : World) : World :=
  match src sc with
  | JQUERY_URL => reject (settles sc) (JsError MSG_JQUERY_FAILED) w
  | MR_WIDGET_URL => reject (settles sc) (JsError MSG_MR_FAILED) w
  end.

(** The object literal built by [initWidget] for the component instance [m]. *)
Definition widgetConfig (m : nat) (pr : Props) (normalizedBrand : jsstring) : MRWidgetConfig :=
  {| Target := js "#Target_Widget";
     Brand := normalizedBrand;
     Country := the_defaultCountry pr;
     PostCode := the_defaultPostcode pr;
     ColLivMod := the_deliveryMode pr;
     NbResults := String_of_Z (the_nbResults pr);
     ShowResultsOnMap := true;
     DisplayMapInfo := true;
     AllowedCountries := the_allowedCountries pr;
     CSS := js "1";
     Weight := spread_weight (weight pr);
     OnParcelShopSelected := m |}.

(** "Prevent multiple initializations": a previous widget instance is cleared. *)
Definition clear_previous (w : World) : World :=
  if __MR_WIDGET_INITIALIZED__ w then clear_zone w else w.

Definition initWidget (m : nat) (pr : Props) (w : World) : completion unit * World :=
  if negb (truthy_dollar (dollar w)) || negb (is_function (dollar w)) then
    (Normal tt, console_error [CStr MSG_NO_JQUERY] w)
  else
    let w := clear_previous w in
    match normalizeBrandId (the_brandIdAPI pr) with
    | Throw e => (Throw e, console_error [CStr MSG_INIT_FAILED; CExn e] w)
    | Normal normalizedBrand =>
        let cfg := widgetConfig m pr normalizedBrand in
        let w := emit (EvPickerCall cfg) w in
        match MR_ParcelShopPicker cfg w with
        | (Normal _, z) => (Normal tt, emit (EvAttached m) (set_initialized true (set_zone z w)))
        | (Throw e, z) =>
            (Throw e, console_error [CStr MSG_INIT_FAILED; CExn e] (set_zone z w))
        end
    end.

(** *** The two effects *)

Inductive state_update : Type :=
  | NoUpdate
  | SetIsReady
  | SetError (msg : jsstring).

(** First effect: "Validate configuration on mount". *)
Definition validateEffect (pr : Props) (w : World) : state_update * World :=
  if negb (isBrowser w) then (NoUpdate, w)
  else
    match normalizeBrandId (the_brandIdAPI pr) with
    | Normal _ =>
        let lines := validateDeliveryMode (Some (the_deliveryMode pr)) in
        (SetIsReady, fold_left (fun w l => console_error [CStr l] w) lines w)
    | Throw e =>
        let errorMessage := error_message e (js "Unknown error") in
        (SetError errorMessage, console_error [CStr errorMessage] w)
    end.

(** [initializeWidget()] up to its [await]: the CSS is injected, the promise of
    [loadScripts()] is created, and the rest of the function waits for it. *)
Definition initializeWidget (s : Session) (w : World) : Session * World :=
  let w := injectCSS w in
  let (p, w) := loadScripts (mount s) w in
  (add_awaiting p (props s) s, w).

(** Second effect.  A run that passes the guard returns the cleanup function;
    a run that returns early returns none. *)
Definition initEffect (s : Session) (w : World) : Session * World :=
  if negb (isBrowser w) || negb (isReady s) || widgetInitialized s || truthy_error (error s)
  then (set_hasCleanup false s, w)
  else
    let s := set_widgetInitialized true s in
    let (s, w) := initializeWidget s w in
    (set_hasCleanup true s, w).

(** The cleanup function returned by the second effect. *)
Definition effectCleanup (s : Session) (w : World) : Session * World :=
  if isBrowser w then (set_widgetInitialized false s, clear_zone w)
  else (s, w).

(** The [catch] block of [initializeWidget]: [setError], [console.error], and
    the flag is reset. *)
Definition initializeWidget_catch (e : exn) (s : Session) (w : World) : Session * World :=
  let errorMessage := error_message e (js "Failed to initialize widget") in
  (set_widgetInitialized false (set_error (Some errorMessage) s),
   console_error [CStr (js "[ParcelShopSelector]"); CStr errorMessage] w).

(** [initializeWidget] after the [await]: the promise [p] has settled and the
    closure that captured [pr] continues. *)
Definition initializeWidget_resume (s : Session) (p : nat) (pr : Props) (w : World)
  : Session * World :=
  match promises w !! p with
  | Some Fulfilled =>
      match initWidget (mount s) pr w with
      | (Normal _, w') => (s, w')
      | (Throw e, w') => initializeWidget_catch e s w'
      end
  | Some (Rejected e) => initializeWidget_catch e s w
  | _ => (s, w)
  end.

(** *** React's scheduling of the effects

    An effect whose dependencies changed in a committed render first has the
    cleanup of its previous run executed (when that run returned one) and is
    then run again. *)
Definition rerunInitEffect (s : Session) (w : World) : Session * World :=
  let (s, w) := if hasCleanup s then effectCleanup s w else (s, w) in
  initEffect s w.

(** A state setter called with a new value triggers a render in which the
    second effect's dependencies [isReady]/[error] have changed. *)
Definition applyUpdate (u : state_update) (s : Session) (w : World) : Session * World :=
  match u with
  | NoUpdate => (s, w)
  | SetIsReady => if isReady s then (s, w) else rerunInitEffect (set_isReady true s) w
  | SetError msg =>
      if bool_decide (error s = Some msg) then (s, w)
      else rerunInitEffect (set_error (Some msg) s) w
  end.

Definition mountComponent (id : nat) (pr : Props) (w : World) : Session * World :=
  let s := mkSession id pr false None false false [] in
  let (u, w) := validateEffect pr w in
  let (s, w) := initEffect s w in
  applyUpdate u s w.

Definition deps1_changed (a b : Props) : bool :=
  negb (bool_decide (the_brandIdAPI a = the_brandIdAPI b
                     /\ the_deliveryMode a = the_deliveryMode b)).

Definition deps2_changed (a b : Props) : bool :=
  negb (bool_decide (weight a = weight b /\ the_nbResults a = the_nbResults b
                     /\ the_brandIdAPI a = the_brandIdAPI b
                     /\ the_deliveryMode a = the_deliveryMode b
                     /\ the_defaultCountry a = the_defaultCountry b
                     /\ the_defaultPostcode a = the_defaultPostcode b
                     /\ the_allowedCountries a = the_allowedCountries b)).

(** The parent re-renders the component with new props. *)
Definition changeProps (pr' : Props) (s : Session) (w : World) : Session * World :=
  let d1 := deps1_changed (props s) pr' in
  let d2 := deps2_changed (props s) pr' in
  let s := set_props pr' s in
  let (s, w) := if d2 && hasCleanup s then effectCleanup s w else (s, w) in
  let (u, w) := if d1 then validateEffect pr' w else (NoUpdate, w) in
  let (s, w) := if d2 then initEffect s w else (s, w) in
  applyUpdate u s w.

(** A failed [initializeWidget] calls [setError]: the resulting render re-runs
    the second effect. *)
Definition settleSession (s : Session) (p : nat) (pr : Props) (w : World) : Session * World :=
  let e0 := error s in
  let (s', w') := initializeWidget_resume s p pr w in
  if bool_decide (error s' = e0) then (s', w') else rerunInitEffect s' w'.

Definition unmountComponent (s : Session) (w : World) : Session * World :=
  if hasCleanup s then effectCleanup s w else (s, w).

(** *** The browser's script events

    The fetch of the [i]-th script of [document.body] completes: a jQuery
    script defines [window.$] when it is executed; then [onload] runs. *)
Definition execute_script (u : script_src) (w : World) : World :=
  match u with
  | JQUERY_URL => set_dollar DollarFunction w
  | MR_WIDGET_URL => w
  end.

Definition mark_script (i : nat) (st : load_status) (w : World) : World :=
  match body w !! i with
  | Some sc => set_body (<[i := mkScript (src sc) (settles sc) st]> (body w)) w
  | None => w
  end.

Definition fireLoad (i : nat) (w : World) : World :=
  match body w !! i with
  | Some (mkScript u p InFlight) =>
      onload (mkScript u p InFlight)
             (execute_script u (emit (EvScriptLoad i) (mark_script i LoadFired w)))
  | _ => w
  end.

Definition fireError (i : nat) (w : World) : World :=
  match body w !! i with
  | Some (mkScript u p InFlight) =>
      onerror (mkScript u p InFlight) (emit (EvScriptError i) (mark_script i ErrorFired w))
  | _ => w
  end.

(** Every way the component, React and the browser change the world: the
    component's own functions, React rendering or removing the zone element,
    and the load and error events of the script elements. *)
Inductive step : World -> World -> Prop :=
  | step_injectCSS w : step w (injectCSS w)
  | step_loadScripts m w : step w (snd (loadScripts m w))
  | step_initWidget m pr w : step w (snd (initWidget m pr w))
  | step_clear_zone w : step w (clear_zone w)
  | step_console args w : step w (console_error args w)
  | step_render z w : step w (set_zone z w)
  | step_fireLoad i w : step w (fireLoad i w)
  | step_fireError i w : step w (fireError i w).

Inductive steps : World -> World -> Prop :=
  | steps_refl w : steps w w
  | steps_snoc w1 w2 w3 : steps w1 w2 -> step w2 w3 -> steps w1 w3.

End Component.

(** A page on which nothing has been loaded yet. *)
Definition fresh_page : World :=
  mkWorld true DollarUndefined false false false [] (Some []) [] [] [].

(** Counting script elements and events. *)
Definition count_scripts (u : script_src) (l : list script) : nat :=
  length (List.filter (fun sc => bool_decide (src sc = u)) l).

Definition in_flight (u : script_src) (sc : script) : bool :=
  bool_decide (src sc = u) && bool_decide (status sc = InFlight).

Definition chain_starts (m : nat) (t : list event) : nat :=
  length (List.filter (fun e => match e with EvLoadScripts m' _ => bool_decide (m' = m) | _ => false end) t).

(** The mount whose [initWidget] call attached the widget last. *)
Fixpoint attachment_owner (t : list event) : option nat :=
  match t with
  | [] => None
  | e :: t' =>
      match attachment_owner t' with
      | Some m => Some m
      | None => match e with EvAttached m => Some m | _ => None end
      end
  end.

(* ===================================================================== *)
(** ** createShipment *)
(* ===================================================================== *)

(** Sequencing of computations that may throw. *)
Definition bind {A B : Type} (c : completion A) (k : A -> completion B) : completion B :=
  match c with
  | Normal a => k a
  | Throw e => Throw e
  end.

Notation "x <- c ;; k" := (bind c (fun x => k))
  (at level 100, c at next level, right associativity).

(** Untyped JavaScript values: the request and response objects.  An object is
    its list of own properties in insertion order. *)
Inductive JsVal : Type :=
  | VUndefined
  | VNull
  | VBool (b : bool)
  | VNum (n : Z)
  | VStr (s : jsstring)
  | VArr (items : list JsVal)
  | VObj (fields : list (jsstring * JsVal)).

Definition TYPE_ERROR : exn := JsError (js "TypeError").

Definition truthy (v : JsVal) : bool :=
  match v with
  | VUndefined | VNull => false
  | VBool b => b
  | VNum n => negb (Z.eqb n 0)
  | VStr s => truthy_string s
  | VArr _ | VObj _ => true
  end.

Definition nullish (v : JsVal) : bool :=
  match v with VUndefined | VNull => true | _ => false end.

Fixpoint lookup_field (k : jsstring) (fields : list (jsstring * JsVal)) : JsVal :=
  match fields with
  | [] => VUndefined
  | (k', v) :: rest => if jsstring_eqb k k' then v else lookup_field k rest
  end.

(** [v.k]: a [TypeError] on [undefined] and [null]; own properties of objects;
    built-in properties of primitives and arrays are not modelled. *)
Definition get (v : JsVal) (k : string) : completion JsVal :=
  match v with
  | VUndefined | VNull => Throw TYPE_ERROR
  | VObj fields => Normal (lookup_field (js k) fields)
  | _ => Normal VUndefined
  end.

(** [v?.k] *)
Definition get_opt (v : JsVal) (k : string) : completion JsVal :=
  if nullish v then Normal VUndefined else get v k.

(** [a || b] on values. *)
Definition or_else (a b : JsVal) : JsVal := if truthy a then a else b.

(** Writing property [k]: an existing key keeps its position. *)
Fixpoint set_field (k : jsstring) (v : JsVal) (fields : list (jsstring * JsVal))
  : list (jsstring * JsVal) :=
  match fields with
  | [] => [(k, v)]
  | (k', v') :: rest =>
      if jsstring_eqb k k' then (k', v) :: rest else (k', v') :: set_field k v rest
  end.

(** [{ ...acc, ...v }]: own properties of an object are copied; [undefined],
    [null], booleans and numbers contribute nothing (spreading strings and
    arrays, which yields index keys, is not modelled). *)
Definition spread (v : JsVal) (acc : list (jsstring * JsVal)) : list (jsstring * JsVal) :=
  match v with
  | VObj fields => fold_left (fun a kv => set_field (fst kv) (snd kv) a) fields acc
  | _ => acc
  end.

Definition prop (k : string) (v : JsVal) (acc : list (jsstring * JsVal))
  : list (jsstring * JsVal) := set_field (js k) v acc.

(** [{ $: { ...v } }] *)
Definition attrs (v : JsVal) : JsVal := VObj [(js "$", VObj (spread v []))].

Record ShipParams : Type := mkShipParams {
  context : JsVal;
  shipment : JsVal;
  outputOptions : JsVal;
  apiVersion : option jsstring;
  apiUrl : option jsstring
}.

Record HttpRequest : Type := mkRequest {
  url : jsstring;
  payload : jsstring;
  content_type : jsstring
}.

Record CreateShipmentResponse : Type := mkResponse {
  sendingNumber : JsVal;
  etiquetteLink : JsVal;
  rawResponse : JsVal
}.

Definition LOGIN_PLACEHOLDER : jsstring := js "fill in your login here".
Definition PASSWORD_PLACEHOLDER : jsstring := js "fill in your password here".
Definition MSG_CREDENTIALS : jsstring := js "Login or Password is missing, please fill them in.".
Definition V1_URL : jsstring := js "https://api.mondialrelay.com/WebService".
Definition V2_URL : jsstring := js "https://connect-api.mondialrelay.com/api/shipment".

(** [a === 'literal'] *)
Definition strict_eq_str (v : JsVal) (s : jsstring) : bool :=
  match v with VStr s' => jsstring_eqb s' s | _ => false end.

(** [s.toLowerCase()] on the ASCII letters (other code units are kept). *)
Definition toLowerCase (s : jsstring) : jsstring :=
  map (fun c => if (N.leb 65 c && N.leb c 90)%bool then (c + 32)%N else c) s.

Fixpoint starts_with (prefix s : jsstring) : bool :=
  match prefix, s with
  | [], _ => true
  | _ :: _, [] => false
  | a :: prefix', b :: s' => N.eqb a b && starts_with prefix' s'
  end.

(** [s.includes(needle)] *)
Fixpoint str_includes (needle s : jsstring) : bool :=
  starts_with needle s ||
  match s with
  | [] => false
  | _ :: s' => str_includes needle s'
  end.

(** [`${v}`] for the values an error message can hold; arrays and objects are
    rendered as JavaScript renders a plain object. *)
Definition display (v : JsVal) : jsstring :=
  match v with
  | VUndefined => js "undefined"
  | VNull => js "null"
  | VBool true => js "true"
  | VBool false => js "false"
  | VNum n => String_of_Z n
  | VStr s => s
  | VArr _ | VObj _ => js "[object Object]"
  end.

(** The callback of [statusListField?.find(...)]:
    [e => e.levelField?.toLowerCase().includes('error')]. *)
Definition is_error_status (e : JsVal) : completion bool :=
  level <- get e "levelField" ;;
  match level with
  | VUndefined | VNull => Normal false
  | VStr s => Normal (str_includes (js "error") (toLowerCase s))
  | _ => Throw TYPE_ERROR
  end.

Fixpoint find_status (items : list JsVal) : completion JsVal :=
  match items with
  | [] => Normal VUndefined
  | e :: rest =>
      b <- is_error_status e ;;
      if b then Normal e else find_status rest
  end.

(** [v[0]] *)
Definition first_item (v : JsVal) : completion JsVal :=
  match v with
  | VUndefined | VNull => Throw TYPE_ERROR
  | VArr items => Normal (List.hd VUndefined items)
  | VObj fields => Normal (lookup_field (js "0") fields)
  | VStr (c :: _) => Normal (VStr [c])
  | _ => Normal VUndefined
  end.

Section CreateShipment.

(** The zod schemas of [./schemas] ([parse] throws on invalid input), the XML
    builder of [../lib], and the remote endpoint behind [axios.post] (which
    yields the response object or rejects). *)
Variables ShipContextSchema ShipmentSchema ShipOutputOptionsSchema : JsVal -> completion JsVal.
Variable generateXML : JsVal -> completion jsstring.
Variable endpoint : HttpRequest -> completion JsVal.

(** The request object literal, evaluated in source order. *)
Definition requestData (context shipment outputOptions : JsVal) : completion JsVal :=
  login <- get context "Login" ;;
  password <- get context "Password" ;;
  customerId <- get context "CustomerId" ;;
  culture <- get context "Culture" ;;
  versionAPI <- get context "VersionAPI" ;;
  outputFormat <- get_opt outputOptions "OutputFormat" ;;
  outputType <- get_opt outputOptions "OutputType" ;;
  deliveryMode <- get shipment "DeliveryMode" ;;
  collectionMode <- get shipment "CollectionMode" ;;
  parcels <- get shipment "Parcels" ;;
  parcel <- get parcels "Parcel" ;;
  parcelWeight <- get parcel "Weight" ;;
  depth <- get parcel "Depth" ;;
  length_ <- get parcel "Length" ;;
  sender <- get shipment "Sender" ;;
  recipient <- get shipment "Recipient" ;;
  let parcelObj :=
    let o := spread parcel [] in
    let o := prop "Weight" (attrs parcelWeight) o in
    let o := if truthy depth then prop "Depth" (attrs depth) o else o in
    let o := if truthy length_ then prop "Length" (attrs length_) o else o in
    VObj o in
  let shipmentObj :=
    let o := spread shipment [] in
    let o := prop "DeliveryMode" (attrs deliveryMode) o in
    let o := prop "CollectionMode" (attrs collectionMode) o in
    let o := prop "Parcels" (VObj [(js "Parcel", parcelObj)]) o in
    let o := prop "Sender" (VObj [(js "Address", VObj (spread sender []))]) o in
    let o := prop "Recipient" (VObj [(js "Address", VObj (spread recipient []))]) o in
    VObj o in
  Normal (VObj [(js "ShipmentCreationRequest", VObj [
    (js "$", VObj [
       (js "xmlns", VStr (js "http://www.example.org/Request"));
       (js "xmlns:xsd", VStr (js "http://www.w3.org/2001/XMLSchema"));
       (js "xmlns:xsi", VStr (js "http://www.w3.org/2001/XMLSchema-instance"))]);
    (js "Context", VObj [
       (js "Login", login);
       (js "Password", password);
       (js "CustomerId", customerId);
       (js "Culture", or_else culture (VStr (js "fr-FR")));
       (js "VersionAPI", or_else versionAPI (VStr (js "1.0")))]);
    (js "OutputOptions", VObj [
       (js "OutputFormat", or_else outputFormat (VStr (js "A4")));
       (js "OutputType", or_else outputType (VStr (js "PdfUrl")))]);
    (js "ShipmentsList", VObj [(js "Shipment", shipmentObj)])])]).

(** The check of the credentials placeholders (the [||] evaluates
    [context.Password] only when the first comparison is false). *)
Definition credentials_missing (context : JsVal) : completion bool :=
  login <- get context "Login" ;;
  if strict_eq_str login LOGIN_PLACEHOLDER then Normal true
  else
    password <- get context "Password" ;;
    Normal (strict_eq_str password PASSWORD_PLACEHOLDER).

Definition API_URL (p : ShipParams) : jsstring :=
  match apiUrl p with
  | Some (c :: u) => c :: u
  | _ =>
      if jsstring_eqb (default (js "V2") (apiVersion p)) (js "V1") then V1_URL else V2_URL
  end.

(** What follows [await axios.post(...)]. *)
Definition readResponse (response : JsVal) : completion CreateShipmentResponse :=
  data <- get response "data" ;;
  statusList <- get data "statusListField" ;;
  eventualError <-
    match statusList with
    | VUndefined | VNull => Normal VUndefined
    | VArr items => find_status items
    | _ => Throw TYPE_ERROR
    end ;;
  if truthy eventualError then
    messageField <- get eventualError "messageField" ;;
    Throw (JsError (js "An error happened: " ++ [DQUOTE] ++ display messageField
                    ++ [DQUOTE] ++ js "."))
  else
    shipments <- get data "shipmentsListField" ;;
    first <- first_item shipments ;;
    sendingNumber <- get first "shipmentNumberField" ;;
    first' <- first_item shipments ;;
    labelList <- get first' "labelListField" ;;
    label <- get labelList "labelField" ;;
    etiquetteLink <- get label "outputField" ;;
    Normal (mkResponse sendingNumber etiquetteLink data).

(** [createShipment(params)]: the outcome of the returned promise together
    with the HTTP requests issued, in order. *)
Definition createShipment (p : ShipParams) : completion CreateShipmentResponse * list HttpRequest :=
  match ShipContextSchema (context p) with
  | Throw e => (Throw e, [])
  | Normal _ =>
  match ShipmentSchema (shipment p) with
  | Throw e => (Throw e, [])
  | Normal _ =>
  match ShipOutputOptionsSchema (outputOptions p) with
  | Throw e => (Throw e, [])
  | Normal _ =>
  match credentials_missing (context p) with
  | Throw e => (Throw e, [])
  | Normal true => (Throw (JsError MSG_CREDENTIALS), [])
  | Normal false =>
  match requestData (context p) (shipment p) (outputOptions p) with
  | Throw e => (Throw e, [])
  | Normal data =>
  match generateXML data with
  | Throw e => (Throw e, [])
  | Normal xml =>
      let request := mkRequest (API_URL p) xml (js "application/xml") in
      match endpoint request with
      | Throw e => (Throw e, [request])
      | Normal response => (readResponse response, [request])
      end
  end end end end end end.

End CreateShipment.


(** *** Invariants of the script elements

    Every element belongs to a promise that exists; one call appends at most
    one element per script; and the widget script of a call is present only
    once the jQuery element of that call has fired its load event. *)
Definition settles_known (w : World) : Prop :=
  forall i sc, body w !! i = Some sc -> settles sc < length (promises w).

Definition one_element_per_call (w : World) : Prop :=
  forall i j a b,
    body w !! i = Some a -> body w !! j = Some b ->
    src a = src b -> settles a = settles b -> i = j.

Definition widget_after_jquery (w : World) : Prop :=
  forall i j a b,
    body w !! i = Some a -> body w !! j = Some b ->
    src a = JQUERY_URL -> src b = MR_WIDGET_URL -> settles a = settles b ->
    status a = LoadFired.

Definition loader_invariant (w : World) : Prop :=
  settles_known w /\ one_element_per_call w /\ widget_after_jquery w.

(** How one step can change the script elements and the number of promises. *)
Inductive body_change (w w' : World) : Prop :=
  | bc_same :
      body w' = body w -> length (promises w) <= length (promises w') -> body_change w w'
  | bc_call (u : script_src) :
      body w' = body w ++ [mkScript u (length (promises w)) InFlight] ->
      length (promises w') = S (length (promises w)) -> body_change w w'
  | bc_jquery_loaded (i p : nat) :
      body w !! i = Some (mkScript JQUERY_URL p InFlight) ->
      body w' = <[i := mkScript JQUERY_URL p LoadFired]> (body w)
                ++ [mkScript MR_WIDGET_URL p InFlight] ->
      length (promises w') = length (promises w) -> body_change w w'
  | bc_marked (i : nat) (sc : script) (st : load_status) :
      body w !! i = Some sc -> status sc = InFlight ->
      body w' = <[i := mkScript (src sc) (settles sc) st]> (body w) ->
      length (promises w') = length (promises w) -> body_change w w'.

(* ===================================================================== *)
(** ** Concrete pages, widgets and requests used in examples *)
(* ===================================================================== *)

(** A widget library that renders some markup naming the brand. *)
Definition rendering_picker (cfg : MRWidgetConfig) (w : World) : completion unit * option jsstring :=
  (Normal tt, Some (js "widget for " ++ Brand cfg)).

(** A widget library whose entry point throws. *)
Definition throwing_picker (cfg : MRWidgetConfig) (w : World) : completion unit * option jsstring :=
  (Throw (JsError (js "MR_ParcelShopPicker is not a function")), Zone_Widget w).

Definition default_props : Props := mkProps None None None None None None None.
Definition heavier_props : Props := mkProps (Some 500%Z) None None None None None None.
Definition zzz_props : Props := mkProps None None None None None None (Some (js "ZZZ")).

(** Two component instances call [loadScripts] before any script has loaded. *)
Definition two_pending_calls : World :=
  snd (loadScripts 2 (snd (loadScripts 1 fresh_page))).

(** A page on which both scripts have been loaded by a single call. *)
Definition loaded_page : World :=
  fireLoad 1 (fireLoad 0 (snd (loadScripts 1 fresh_page))).

(** A host page that already defines [window.$] as something that is not a
    function. *)
Definition page_with_foreign_dollar : World :=
  mkWorld true DollarNotCallable false false false [] (Some []) [] [] [].

(** Several component instances call [loadScripts] one after the other while
    nothing has loaded yet. *)
Fixpoint overlapping_calls (ms : list nat) (w : World) : World :=
  match ms with
  | [] => w
  | m :: rest => overlapping_calls rest (snd (loadScripts m w))
  end.

(** Mount 1 on a fresh page, both scripts load, the widget is attached. *)
Definition first_attached : Session * World :=
  let (s, w) := mountComponent 1 default_props fresh_page in
  settleSession rendering_picker s 0 default_props (fireLoad 1 (fireLoad 0 w)).

(** Then mount 2 on the same page: its widget replaces the first one. *)
Definition second_attached : Session * World :=
  let (s, w) := mountComponent 2 default_props (snd first_attached) in
  settleSession rendering_picker s 1 default_props w.

(** The reading of the unmount cleanup that gates it on ownership: the zone is
    touched only by the owner of the attachment, and the load flag is kept. *)
Definition cleanup_respects_ownership (s : Session) (w : World) : Prop :=
  let w' := snd (effectCleanup s w) in
  (Zone_Widget w' <> Zone_Widget w -> attachment_owner (trace w) = Some (mount s))
  /\ __MR_WIDGET_SCRIPTS_LOADED__ w' = __MR_WIDGET_SCRIPTS_LOADED__ w.

(** Mount 1 on a page with a foreign [window.$]; the widget script loads. *)
Definition foreign_dollar_loaded : Session * World :=
  let (s, w) := mountComponent 1 default_props page_with_foreign_dollar in
  (s, fireLoad 0 w).

(** Mount 1 on a fresh page, then one prop change while jQuery is loading. *)
Definition mounted_then_changed : Session * World :=
  let (s, w) := mountComponent 1 default_props fresh_page in
  changeProps heavier_props s w.

(** Schemas that accept everything, an XML builder and an endpoint that
    answer with fixed values, and a request that still carries the login
    placeholder. *)
Definition accept_all (v : JsVal) : completion JsVal := Normal v.
Definition constant_xml (data : JsVal) : completion jsstring := Normal (js "<xml/>").
Definition silent_endpoint (r : HttpRequest) : completion JsVal := Normal (VObj []).

Definition placeholder_params : ShipParams :=
  mkShipParams
    (VObj [(js "Login", VStr LOGIN_PLACEHOLDER); (js "Password", VStr (js "secret"))])
    (VObj []) VUndefined None None.

Definition filled_params : ShipParams :=
  mkShipParams
    (VObj [(js "Login", VStr (js "user")); (js "Password", VStr (js "secret"))])
    (VObj [(js "Parcels", VObj [(js "Parcel", VObj [(js "Weight", VObj [])])])])
    VUndefined None None.

(** A sequence of prop changes applied to a session, and the condition that
    each one alters a dependency of the second effect but neither the brand nor
    the delivery mode. *)
Fixpoint churn (prs : list Props) (sw : Session * World) : Session * World :=
  match prs with
  | [] => sw
  | pr :: rest => churn rest (changeProps pr (fst sw) (snd sw))
  end.

Fixpoint each_alters_effect (p : Props) (prs : list Props) : Prop :=
  match prs with
  | [] => True
  | q :: rest =>
      deps1_changed p q = false /\ deps2_changed p q = true /\ each_alters_effect q rest
  end.

(* ===================================================================== *)
(** ** Rendering, the selection callback, and invariants of executions *)
(* ===================================================================== *)

(** What the component function returns: [null] outside a browser, the error
    panel showing [error] when it is truthy, otherwise the zone element and
    the target input. *)
Inductive rendered : Type :=
  | RenderNull
  | RenderErrorPanel (message : jsstring)
  | RenderWidget.

Definition render (s : Session) (w : World) : rendered :=
  if negb (isBrowser w) then RenderNull
  else if truthy_error (error s) then RenderErrorPanel (default [] (error s))
  else RenderWidget.

(** The argument the [OnParcelShopSelected] closure hands to the
    [onParcelShopSelected] prop:
    [{ ...data, ParcelShopID: targetRef.current?.value ?? '' }], where
    [current] is the value of the target input when the ref is set. *)
Definition selectionPayload (data : JsVal) (current : option jsstring) : JsVal :=
  VObj (prop "ParcelShopID" (VStr (default [] current)) (spread data [])).

(** The keys of an object literal are pairwise distinct. *)
Definition distinct_keys (fields : list (jsstring * JsVal)) : Prop :=
  List.NoDup (map fst fields).

(** The load state is sound: a widget script element exists only when
    [window.$] is set, the loaded flag is set only when a widget script element
    has fired its load event, a promise is fulfilled only when the flag is set,
    and a promise is rejected only with one of the two load-failure errors. *)
Definition load_state_sound (w : World) : Prop :=
  (forall i sc, body w !! i = Some sc -> src sc = MR_WIDGET_URL ->
                truthy_dollar (dollar w) = true)
  /\ (__MR_WIDGET_SCRIPTS_LOADED__ w = true ->
      exists i p, body w !! i = Some (mkScript MR_WIDGET_URL p LoadFired))
  /\ (forall p, promises w !! p = Some Fulfilled -> __MR_WIDGET_SCRIPTS_LOADED__ w = true)
  /\ (forall p e, promises w !! p = Some (Rejected e) ->
                  e = JsError MSG_JQUERY_FAILED \/ e = JsError MSG_MR_FAILED).

(** Every recorded call of the widget carries an 8-unit brand and the fixed
    target selector. *)
Definition picker_calls_well_formed (w : World) : Prop :=
  forall cfg, In (EvPickerCall cfg) (trace w) ->
              length (Brand cfg) = 8 /\ Target cfg = js "#Target_Widget".

(** All the code units of a string are white space. *)
Definition blank (s : jsstring) : Prop := forallb is_white_space s = true.

(** Field [k] of the object found under the path [ks]. *)
Fixpoint at_path (ks : list string) (v : JsVal) : completion JsVal :=
  match ks with
  | [] => Normal v
  | k :: rest => bind (get v k) (at_path rest)
  end.

(** The error with which the [onerror] handler of a script rejects. *)
Definition load_failure (u : script_src) : exn :=
  match u with
  | JQUERY_URL => JsError MSG_JQUERY_FAILED
  | MR_WIDGET_URL => JsError MSG_MR_FAILED
  end.

(** How one step can change the load state ([window.$], the loaded flag, the
    script elements, the promises): not at all; a [loadScripts] call, which
    adds one promise and at most one element; the load event of a jQuery
    element; the load event of a widget element; an error event. *)
Inductive load_change (w w' : World) : Prop :=
  | lc_quiet :
      dollar w' = dollar w ->
      __MR_WIDGET_SCRIPTS_LOADED__ w' = __MR_WIDGET_SCRIPTS_LOADED__ w ->
      body w' = body w -> promises w' = promises w -> load_change w w'
  | lc_call (added : list script) (st : promise_state) :
      dollar w' = dollar w ->
      __MR_WIDGET_SCRIPTS_LOADED__ w' = __MR_WIDGET_SCRIPTS_LOADED__ w ->
      body w' = body w ++ added -> promises w' = promises w ++ [st] ->
      (st = Fulfilled /\ added = [] /\ __MR_WIDGET_SCRIPTS_LOADED__ w = true
       /\ truthy_dollar (dollar w) = true)
      \/ (st = Pending /\ added = [mkScript MR_WIDGET_URL (length (promises w)) InFlight]
          /\ __MR_WIDGET_SCRIPTS_LOADED__ w = false /\ truthy_dollar (dollar w) = true)
      \/ (st = Pending /\ added = [mkScript JQUERY_URL (length (promises w)) InFlight]
          /\ truthy_dollar (dollar w) = false) ->
      load_change w w'
  | lc_jquery_loaded (i p : nat) :
      body w !! i = Some (mkScript JQUERY_URL p InFlight) ->
      dollar w' = DollarFunction ->
      __MR_WIDGET_SCRIPTS_LOADED__ w' = __MR_WIDGET_SCRIPTS_LOADED__ w ->
      (__MR_WIDGET_SCRIPTS_LOADED__ w = true
       /\ body w' = <[i := mkScript JQUERY_URL p LoadFired]> (body w)
       /\ promises w' = promises (settle p Fulfilled w))
      \/ (__MR_WIDGET_SCRIPTS_LOADED__ w = false
          /\ body w' = <[i := mkScript JQUERY_URL p LoadFired]> (body w)
                       ++ [mkScript MR_WIDGET_URL p InFlight]
          /\ promises w' = promises w) ->
      load_change w w'
  | lc_widget_loaded (i p : nat) :
      body w !! i = Some (mkScript MR_WIDGET_URL p InFlight) ->
      dollar w' = dollar w -> __MR_WIDGET_SCRIPTS_LOADED__ w' = true ->
      body w' = <[i := mkScript MR_WIDGET_URL p LoadFired]> (body w) ->
      promises w' = promises (settle p Fulfilled w) ->
      load_change w w'
  | lc_failed (i : nat) (u : script_src) (p : nat) :
      body w !! i = Some (mkScript u p InFlight) ->
      dollar w' = dollar w ->
      __MR_WIDGET_SCRIPTS_LOADED__ w' = __MR_WIDGET_SCRIPTS_LOADED__ w ->
      body w' = <[i := mkScript u p ErrorFired]> (body w) ->
      promises w' = promises (settle p (Rejected (load_failure u)) w) ->
      load_change w w'.

(* ===================================================================== *)
(** * Properties *)
(* ===================================================================== *)

(** ** Trimming and padding *)

Lemma trimStart_starts_clean (s : jsstring) : starts_clean (trimStart s).
Proof.
  induction s as [|c s IH]; simpl; [exact I|].
  destruct (is_white_space c) eqn:Hc; [exact IH | simpl; exact Hc].
Qed.

Lemma trimStart_clean_id (s : jsstring) : starts_clean s -> trimStart s = s.
Proof.
  destruct s as [|c s]; simpl; [reflexivity|].
  intros Hc. rewrite Hc. reflexivity.
Qed.

Lemma trimStart_skips_blanks (p s : jsstring) :
  forallb is_white_space p = true -> trimStart (p ++ s) = trimStart s.
Proof.
  induction p as [|c p IH]; simpl; [reflexivity|].
  intros H. apply andb_true_iff in H as [Hc Hp].
  rewrite Hc. apply IH, Hp.
Qed.

Lemma trimStart_is_suffix (s : jsstring) : exists p, s = p ++ trimStart s.
Proof.
  induction s as [|c s [p Hp]]; simpl.
  - exists []. reflexivity.
  - destruct (is_white_space c).
    + exists (c :: p). simpl. rewrite <- Hp. reflexivity.
    + exists []. reflexivity.
Qed.

Lemma starts_clean_app (s r : jsstring) : s <> [] -> starts_clean (s ++ r) <-> starts_clean s.
Proof. destruct s; [congruence | simpl; tauto]. Qed.

Lemma trim_nil : trim [] = [].
Proof. reflexivity. Qed.

Lemma trim_clean (b : jsstring) : starts_clean (trim b) /\ ends_clean (trim b).
Proof.
  unfold trim, trimEnd, ends_clean.
  set (u := trimStart b).
  split.
  - destruct (trimStart_is_suffix (rev u)) as [p Hp].
    assert (Hu : u = rev (trimStart (rev u)) ++ rev p).
    { rewrite <- rev_app_distr, <- Hp, rev_involutive. reflexivity. }
    destruct (rev (trimStart (rev u))) as [|c t] eqn:Ht; [exact I|].
    pose proof (trimStart_starts_clean b) as Hc. fold u in Hc.
    rewrite Hu in Hc. simpl in Hc. simpl. exact Hc.
  - rewrite rev_involutive. apply trimStart_starts_clean.
Qed.

Lemma trim_padded (t : jsstring) (k : nat) :
  t <> [] -> starts_clean t -> ends_clean t -> trim (t ++ repeat SPACE k) = t.
Proof.
  intros Hne Hs He. unfold trim, trimEnd.
  rewrite (trimStart_clean_id (t ++ repeat SPACE k)).
  2:{ apply starts_clean_app; assumption. }
  rewrite rev_app_distr, trimStart_skips_blanks.
  - rewrite trimStart_clean_id by exact He. apply rev_involutive.
  - rewrite forallb_forall. intros c Hc. apply in_rev in Hc.
    apply repeat_spec in Hc. subst c. reflexivity.
Qed.

Lemma concat_repeat_singleton (c : code_unit) (k : nat) :
  concat (repeat [c] k) = repeat c k.
Proof. induction k as [|k IH]; simpl; [reflexivity | rewrite IH; reflexivity]. Qed.

Lemma padEnd_spaces (t : jsstring) :
  length t <= 8 -> padEnd t 8 [SPACE] = t ++ repeat SPACE (8 - length t).
Proof.
  intros Hlen. unfold padEnd.
  destruct (Nat.leb_spec 8 (length t)) as [H8|H8].
  - replace (8 - length t) with 0 by lia. simpl. rewrite app_nil_r. reflexivity.
  - rewrite concat_repeat_singleton, firstn_all2; [reflexivity|].
    rewrite repeat_length. lia.
Qed.

Lemma padded_length (t : jsstring) :
  length t <= 8 -> length (t ++ repeat SPACE (8 - length t)) = 8.
Proof. intros H. rewrite length_app, repeat_length. lia. Qed.

Lemma trim_nonempty_source (b : jsstring) : trim b <> [] -> truthy_string b = true.
Proof. destruct b; [intros H; exfalso; apply H; reflexivity | reflexivity]. Qed.

Lemma normalizeBrandId_in_range (brand : jsstring) :
  1 <= length (trim brand) <= 8 ->
  normalizeBrandId brand = Normal (trim brand ++ repeat SPACE (8 - length (trim brand))).
Proof.
  intros [H1 H8]. unfold normalizeBrandId.
  rewrite trim_nonempty_source by (intros E; rewrite E in H1; simpl in H1; lia).
  simpl negb. cbv iota.
  destruct (Nat.ltb_spec 8 (length (trim brand))); [lia|].
  destruct (Nat.eqb_spec (length (trim brand)) 0); [lia|].
  rewrite padEnd_spaces by lia. reflexivity.
Qed.

Lemma too_long_message_class (t : jsstring) :
  classify_brand_error (JsError (MSG_BRAND_TOO_LONG t)) = Some IdentifierTooLong.
Proof.
  unfold classify_brand_error, jsstring_eqb.
  assert (Hpre : firstn (length TOO_LONG_PREFIX) (MSG_BRAND_TOO_LONG t) = TOO_LONG_PREFIX).
  { unfold MSG_BRAND_TOO_LONG. fold TOO_LONG_PREFIX.
    apply take_app_length. }
  rewrite bool_decide_eq_false_2.
  2:{ intros E. apply (f_equal (firstn (length TOO_LONG_PREFIX))) in E.
      rewrite Hpre in E. vm_compute in E. discriminate E. }
  rewrite bool_decide_eq_false_2.
  2:{ intros E. apply (f_equal (firstn (length TOO_LONG_PREFIX))) in E.
      rewrite Hpre in E. vm_compute in E. discriminate E. }
  rewrite Hpre, bool_decide_eq_true_2; reflexivity.
Qed.

(** C4. For a brand identifier whose trimmed length is between 1 and 8,
    [normalizeBrandId] returns the trimmed input right-padded with spaces, a
    string of exactly 8 code units; when the trimmed length exceeds 8 it throws
    the identifier-too-long error; for an empty or blank input it throws an
    empty-identifier error (the "required" message for the empty string, the
    "cannot be empty" message for a blank one). *)
Theorem normalizeBrandId_spec (brand : jsstring) :
  (1 <= length (trim brand) <= 8 ->
     normalizeBrandId brand = Normal (trim brand ++ repeat SPACE (8 - length (trim brand)))
     /\ length (trim brand ++ repeat SPACE (8 - length (trim brand))) = 8)
  /\ (8 < length (trim brand) ->
     normalizeBrandId brand = Throw (JsError (MSG_BRAND_TOO_LONG (trim brand)))
     /\ classify_brand_error (JsError (MSG_BRAND_TOO_LONG (trim brand))) = Some IdentifierTooLong)
  /\ (length (trim brand) = 0 ->
     exists e, normalizeBrandId brand = Throw e
               /\ classify_brand_error e = Some EmptyIdentifier
               /\ e = JsError (if truthy_string brand then MSG_BRAND_EMPTY else MSG_BRAND_REQUIRED)).
Proof.
  split; [|split].
  - intros H. split; [apply normalizeBrandId_in_range, H | apply padded_length; lia].
  - intros H. split; [|apply too_long_message_class].
    unfold normalizeBrandId.
    rewrite trim_nonempty_source by (intros E; rewrite E in H; simpl in H; lia).
    simpl negb. cbv iota.
    destruct (Nat.ltb_spec 8 (length (trim brand))); [reflexivity | lia].
  - intros H. unfold normalizeBrandId.
    destruct (truthy_string brand); simpl negb; cbv iota.
    + rewrite H. simpl. eexists. split; [reflexivity|]. split; [|reflexivity].
      vm_compute. reflexivity.
    + eexists. split; [reflexivity|]. split; [|reflexivity]. vm_compute. reflexivity.
Qed.

Lemma normalizeBrandId_spec_witness :
  (normalizeBrandId (js "BDTEST") = Normal (js "BDTEST  ")
   /\ length (js "BDTEST  ") = 8)
  /\ normalizeBrandId (js "TOOLONGID") = Throw (JsError (MSG_BRAND_TOO_LONG (js "TOOLONGID")))
  /\ (exists e, normalizeBrandId (js "   ") = Throw e /\ classify_brand_error e = Some EmptyIdentifier)
  /\ (exists e, normalizeBrandId [] = Throw e /\ classify_brand_error e = Some EmptyIdentifier).
Proof.
  split; [|split; [|split]].
  - apply (proj1 (normalizeBrandId_spec (js "BDTEST"))). vm_compute. split; lia.
  - apply (proj1 (proj2 (normalizeBrandId_spec (js "TOOLONGID")))). vm_compute. lia.
  - destruct (proj2 (proj2 (normalizeBrandId_spec (js "   "))) eq_refl) as (e & H1 & H2 & _).
    exists e. split; assumption.
  - destruct (proj2 (proj2 (normalizeBrandId_spec [])) eq_refl) as (e & H1 & H2 & _).
    exists e. split; assumption.
Defined.

(** C5. Brand-identifier normalization is idempotent: when
    [normalizeBrandId x] succeeds with [y], normalizing [y] yields [y] again. *)
Theorem normalizeBrandId_idempotent (x y : jsstring) :
  normalizeBrandId x = Normal y -> normalizeBrandId y = Normal y.
Proof.
  unfold normalizeBrandId at 1.
  destruct (truthy_string x) eqn:Hx; simpl negb; cbv iota; [|discriminate].
  destruct (Nat.ltb_spec 8 (length (trim x))) as [|H8]; [discriminate|].
  destruct (Nat.eqb_spec (length (trim x)) 0) as [|H0]; [discriminate|].
  rewrite padEnd_spaces by exact H8.
  intros E. injection E as <-.
  destruct (trim_clean x) as [Hs He].
  assert (Hne : trim x <> []) by (intros E; apply H0; rewrite E; reflexivity).
  assert (Ht : trim (trim x ++ repeat SPACE (8 - length (trim x))) = trim x)
    by (apply trim_padded; assumption).
  rewrite normalizeBrandId_in_range; rewrite Ht; [reflexivity|].
  destruct (trim x); [congruence | simpl in *; lia].
Qed.

Lemma normalizeBrandId_idempotent_witness :
  normalizeBrandId (js "BDTEST  ") = Normal (js "BDTEST  ").
Proof.
  apply (normalizeBrandId_idempotent (js "BDTEST")). vm_compute. reflexivity.
Defined.

(** ** Script loading *)

Lemma loadScripts_without_jquery (m : nat) (w : World) :
  dollar w = DollarUndefined ->
  body (snd (loadScripts m w)) = body w ++ [mkScript JQUERY_URL (length (promises w)) InFlight]
  /\ dollar (snd (loadScripts m w)) = DollarUndefined.
Proof.
  intros Hd. unfold loadScripts, new_promise. simpl. rewrite Hd. simpl.
  rewrite andb_false_r. simpl. split; [reflexivity | exact Hd].
Qed.

Lemma count_scripts_app (u : script_src) (l1 l2 : list script) :
  count_scripts u (l1 ++ l2) = count_scripts u l1 + count_scripts u l2.
Proof. unfold count_scripts. rewrite List.filter_app, length_app. reflexivity. Qed.

(** Every call made before jQuery is available appends one more jQuery
    script element. *)
Lemma overlapping_calls_append_jquery (ms : list nat) (w : World) :
  dollar w = DollarUndefined ->
  count_scripts JQUERY_URL (body (overlapping_calls ms w))
  = count_scripts JQUERY_URL (body w) + length ms.
Proof.
  revert w. induction ms as [|m ms IH]; intros w Hd; simpl.
  - lia.
  - destruct (loadScripts_without_jquery m w Hd) as [Hb Hd'].
    rewrite IH by exact Hd'. rewrite Hb, count_scripts_app.
    change (count_scripts JQUERY_URL [mkScript JQUERY_URL (length (promises w)) InFlight])
      with 1.
    lia.
Qed.

(** Once both scripts are loaded, a further call appends nothing and its promise
    is fulfilled at once. *)
Lemma loadScripts_after_load (m : nat) (w : World) :
  __MR_WIDGET_SCRIPTS_LOADED__ w = true -> truthy_dollar (dollar w) = true ->
  body (snd (loadScripts m w)) = body w
  /\ promises (snd (loadScripts m w)) = promises w ++ [Fulfilled].
Proof.
  intros Hl Hd. unfold loadScripts, new_promise, resolve, settle. simpl.
  rewrite Hl, Hd. simpl.
  rewrite lookup_app_r by lia. rewrite Nat.sub_diag. simpl.
  split; [reflexivity|].
  rewrite insert_app_r_alt by lia. rewrite Nat.sub_diag. reflexivity.
Qed.

(** C1 (evaluated at the failing input). Two component instances call
    [loadScripts] on a fresh page before any script has loaded: two jQuery
    script elements are appended; when both load, two widget script elements
    are appended; and the two promises settle apart, one rejected and the other
    fulfilled when only the first jQuery element fails.  A single mount whose
    [weight] prop changes while jQuery is loading appends two jQuery elements
    as well. *)
Theorem overlapping_loadScripts_duplicate_loads :
  count_scripts JQUERY_URL (body two_pending_calls) = 2
  /\ count_scripts MR_WIDGET_URL (body (fireLoad 1 (fireLoad 0 two_pending_calls))) = 2
  /\ promises (fireLoad 3 (fireLoad 2 (fireLoad 1 (fireLoad 0 two_pending_calls))))
     = [Fulfilled; Fulfilled]
  /\ promises (fireLoad 2 (fireLoad 1 (fireError 0 two_pending_calls)))
     = [Rejected (JsError MSG_JQUERY_FAILED); Fulfilled]
  /\ count_scripts JQUERY_URL (body (snd mounted_then_changed)) = 2.
Proof. vm_compute. repeat split. Qed.

(** C7 (evaluated at the failing input). After two overlapping [loadScripts]
    calls, the load of the first jQuery element starts the widget script while
    the second jQuery element is still in flight: in this execution from a
    fresh page a jQuery load and a widget load are in flight together. *)
Theorem overlapping_calls_loads_in_flight_together :
  steps rendering_picker fresh_page (fireLoad 0 two_pending_calls)
  /\ existsb (in_flight JQUERY_URL) (body (fireLoad 0 two_pending_calls)) = true
  /\ existsb (in_flight MR_WIDGET_URL) (body (fireLoad 0 two_pending_calls)) = true.
Proof.
  split; [|vm_compute; split; reflexivity].
  unfold two_pending_calls.
  eapply steps_snoc; [|apply step_fireLoad].
  eapply steps_snoc; [|apply step_loadScripts].
  eapply steps_snoc; [|apply step_loadScripts].
  apply steps_refl.
Qed.

(** ** Delivery mode *)

(** C6 (evaluated at the failing input). With [deliveryMode="ZZZ"] the
    validation effect does not fail: it marks the session ready and logs the
    message announcing the default.  The widget is nevertheless called with
    [ColLivMod = "ZZZ"], not with ["24R"]. *)
Theorem invalid_delivery_mode_is_passed_through :
  validateEffect zzz_props fresh_page
    = (SetIsReady, console_error [CStr (MSG_INVALID_MODE (js "ZZZ"))] fresh_page)
  /\ (exists w', initWidget rendering_picker 1 zzz_props loaded_page = (Normal tt, w')
        /\ In (EvPickerCall (widgetConfig 1 zzz_props (js "BDTEST  "))) (trace w'))
  /\ ColLivMod (widgetConfig 1 zzz_props (js "BDTEST  ")) = js "ZZZ"
  /\ js "ZZZ" <> js "24R".
Proof.
  split; [vm_compute; reflexivity|].
  split; [|split; [vm_compute; reflexivity | vm_compute; discriminate]].
  eexists. split; [vm_compute; reflexivity|].
  vm_compute. repeat ((left; reflexivity) || right).
Qed.

(** ** Attaching the widget *)

Section Attach.

Variable picker : MRWidgetConfig -> World -> completion unit * option jsstring.

Lemma attachment_owner_app_other (t : list event) (e : event) :
  (forall m, e <> EvAttached m) -> attachment_owner (t ++ [e]) = attachment_owner t.
Proof.
  intros He. induction t as [|x t IH]; simpl.
  - destruct e; try reflexivity. exfalso. eapply He. reflexivity.
  - rewrite IH. reflexivity.
Qed.

Lemma clear_previous_frame (w : World) :
  __MR_WIDGET_INITIALIZED__ (clear_previous w) = __MR_WIDGET_INITIALIZED__ w
  /\ __MR_WIDGET_SCRIPTS_LOADED__ (clear_previous w) = __MR_WIDGET_SCRIPTS_LOADED__ w
  /\ trace (clear_previous w) = trace w
  /\ body (clear_previous w) = body w
  /\ promises (clear_previous w) = promises w
  /\ dollar (clear_previous w) = dollar w.
Proof.
  unfold clear_previous, clear_zone.
  destruct (__MR_WIDGET_INITIALIZED__ w) eqn:Hi; destruct (Zone_Widget w);
    simpl; rewrite ?Hi; repeat split; reflexivity.
Qed.

(** C9. When an attach attempt fails, that is when [initWidget] throws, the
    thrown value reaches the caller and [__MR_WIDGET_INITIALIZED__] keeps its
    prior value (as does the owner of the attachment); in particular, when the
    underlying [MR_ParcelShopPicker] call throws [e], [initWidget] throws that
    same [e]. *)
Theorem initWidget_failure_keeps_attachment_state (m : nat) (pr : Props) (w : World) :
  (forall e w', initWidget picker m pr w = (Throw e, w') ->
     __MR_WIDGET_INITIALIZED__ w' = __MR_WIDGET_INITIALIZED__ w
     /\ attachment_owner (trace w') = attachment_owner (trace w))
  /\ (forall b e z,
        is_function (dollar w) = true ->
        normalizeBrandId (the_brandIdAPI pr) = Normal b ->
        picker (widgetConfig m pr b) (emit (EvPickerCall (widgetConfig m pr b)) (clear_previous w))
          = (Throw e, z) ->
        exists w', initWidget picker m pr w = (Throw e, w')
                   /\ __MR_WIDGET_INITIALIZED__ w' = __MR_WIDGET_INITIALIZED__ w).
Proof.
  destruct (clear_previous_frame w) as (Hi & _ & Ht & _).
  split.
  - intros e w'. unfold initWidget.
    destruct (negb (truthy_dollar (dollar w)) || negb (is_function (dollar w)));
      [discriminate|].
    destruct (normalizeBrandId (the_brandIdAPI pr)) as [b|e0].
    + destruct (picker _ _) as [[u|e1] z]; [discriminate|].
      intros E. injection E as <- <-. simpl. rewrite Hi, Ht. split; [reflexivity|].
      apply attachment_owner_app_other. discriminate.
    + intros E. injection E as <- <-. simpl. rewrite Hi, Ht. split; reflexivity.
  - intros b e z Hf Hb Hp. unfold initWidget.
    destruct (dollar w); try discriminate Hf. simpl.
    rewrite Hb, Hp. eexists. split; [reflexivity|]. simpl. exact Hi.
Qed.

(** C8 (as amended). When [window.$] is not callable, [initWidget] logs
    "jQuery not available" and returns normally without calling the widget:
    nothing is thrown, the world changes by that console line only, and the
    session resumed on a fulfilled load keeps its state, so it does not enter
    the error phase. *)
Theorem initWidget_without_entry_point (m : nat) (pr : Props) (w : World) :
  is_function (dollar w) = false ->
  initWidget picker m pr w = (Normal tt, console_error [CStr MSG_NO_JQUERY] w)
  /\ (forall s p, promises w !! p = Some Fulfilled -> mount s = m ->
        settleSession picker s p pr w = (s, console_error [CStr MSG_NO_JQUERY] w)).
Proof.
  intros Hf.
  assert (Hi : initWidget picker m pr w = (Normal tt, console_error [CStr MSG_NO_JQUERY] w)).
  { unfold initWidget. rewrite Hf. simpl. rewrite orb_true_r. reflexivity. }
  split; [exact Hi|].
  intros s p Hp Hm. unfold settleSession, initializeWidget_resume.
  rewrite Hp, Hm, Hi. rewrite bool_decide_eq_true_2; reflexivity.
Qed.

End Attach.

Lemma initWidget_failure_keeps_attachment_state_witness :
  __MR_WIDGET_INITIALIZED__ (snd (initWidget throwing_picker 1 default_props loaded_page))
  = __MR_WIDGET_INITIALIZED__ loaded_page
  /\ (exists w', initWidget throwing_picker 1 default_props loaded_page
                 = (Throw (JsError (js "MR_ParcelShopPicker is not a function")), w')).
Proof.
  split.
  - apply (proj1 (initWidget_failure_keeps_attachment_state throwing_picker 1 default_props
                    loaded_page)
             (JsError (js "MR_ParcelShopPicker is not a function"))
             (snd (initWidget throwing_picker 1 default_props loaded_page))).
    vm_compute. reflexivity.
  - destruct (proj2 (initWidget_failure_keeps_attachment_state throwing_picker 1 default_props
                       loaded_page)
                (js "BDTEST  ") (JsError (js "MR_ParcelShopPicker is not a function"))
                (Some []))
      as (w' & Hw & _).
    + vm_compute. reflexivity.
    + vm_compute. reflexivity.
    + vm_compute. reflexivity.
    + exists w'. exact Hw.
Defined.

(** C8 (counterexample). On a page whose [window.$] is not a function and
    whose widget script has loaded, the attach attempt returns normally and the
    session resumed after the load has no error. *)
Lemma missing_entry_point_is_not_surfaced :
  __MR_WIDGET_SCRIPTS_LOADED__ (snd foreign_dollar_loaded) = true
  /\ is_function (dollar (snd foreign_dollar_loaded)) = false
  /\ fst (initWidget rendering_picker 1 default_props (snd foreign_dollar_loaded)) = Normal tt
  /\ error (fst (settleSession rendering_picker (fst foreign_dollar_loaded) 0 default_props
                   (snd foreign_dollar_loaded))) = None.
Proof. vm_compute. repeat split. Qed.

Lemma initWidget_without_entry_point_witness :
  initWidget rendering_picker 1 default_props (snd foreign_dollar_loaded)
  = (Normal tt, console_error [CStr MSG_NO_JQUERY] (snd foreign_dollar_loaded)).
Proof.
  apply (initWidget_without_entry_point rendering_picker 1 default_props
           (snd foreign_dollar_loaded)).
  vm_compute. reflexivity.
Defined.

(** ** Unmounting *)

(** C2 (counterexample). Mount 1 attaches, mount 2 attaches after it and owns
    the attachment; the cleanup of mount 1 then empties the zone that holds
    mount 2's widget.  The cleanup of the owner itself leaves
    [__MR_WIDGET_INITIALIZED__] set. *)
Lemma cleanup_clears_foreign_widget :
  attachment_owner (trace (snd second_attached)) = Some 2
  /\ mount (fst first_attached) = 1
  /\ Zone_Widget (snd second_attached) = Some (js "widget for BDTEST  ")
  /\ Zone_Widget (snd (effectCleanup (fst first_attached) (snd second_attached))) = Some []
  /\ ~ cleanup_respects_ownership (fst first_attached) (snd second_attached)
  /\ __MR_WIDGET_INITIALIZED__
       (snd (effectCleanup (fst second_attached) (snd second_attached))) = true.
Proof.
  repeat split; try (vm_compute; reflexivity).
  intros [H _]. vm_compute in H.
  assert (E : Some 2 = Some 1) by (apply H; discriminate).
  discriminate E.
Qed.

(** C2 (as amended). In a browser the cleanup empties the element found under
    the id [Zone_Widget] whenever it exists, whichever session attached the
    widget in it, and resets the session's [widgetInitialized] flag; it releases
    nothing: [__MR_WIDGET_INITIALIZED__] and the owner of the attachment are as
    before.  In every case the load state ([__MR_WIDGET_SCRIPTS_LOADED__],
    [window.$], the script elements and the promises) is unchanged. *)
Theorem effectCleanup_effect (s : Session) (w : World) :
  __MR_WIDGET_SCRIPTS_LOADED__ (snd (effectCleanup s w)) = __MR_WIDGET_SCRIPTS_LOADED__ w
  /\ dollar (snd (effectCleanup s w)) = dollar w
  /\ body (snd (effectCleanup s w)) = body w
  /\ promises (snd (effectCleanup s w)) = promises w
  /\ __MR_WIDGET_INITIALIZED__ (snd (effectCleanup s w)) = __MR_WIDGET_INITIALIZED__ w
  /\ attachment_owner (trace (snd (effectCleanup s w))) = attachment_owner (trace w)
  /\ (if isBrowser w
      then Zone_Widget (snd (effectCleanup s w))
             = match Zone_Widget w with Some _ => Some [] | None => None end
           /\ widgetInitialized (fst (effectCleanup s w)) = false
      else effectCleanup s w = (s, w)).
Proof.
  unfold effectCleanup, clear_zone.
  destruct (isBrowser w); destruct (Zone_Widget w) eqn:Hz; simpl;
    rewrite ?Hz; repeat split; reflexivity.
Qed.

(** ** The effect chain of one session *)

Lemma chain_starts_app (m : nat) (t1 t2 : list event) :
  chain_starts m (t1 ++ t2) = chain_starts m t1 + chain_starts m t2.
Proof. unfold chain_starts. rewrite List.filter_app, length_app. reflexivity. Qed.

Lemma chain_starts_own (m p : nat) : chain_starts m [EvLoadScripts m p] = 1.
Proof. unfold chain_starts. simpl. rewrite bool_decide_eq_true_2; reflexivity. Qed.

Lemma chain_starts_append (m : nat) (u : script_src) : chain_starts m [EvAppendScript u] = 0.
Proof. reflexivity. Qed.

Lemma settle_frame (p : nat) (st : promise_state) (w : World) :
  trace (settle p st w) = trace w /\ in_browser (settle p st w) = in_browser w
  /\ body (settle p st w) = body w /\ dollar (settle p st w) = dollar w.
Proof.
  unfold settle. destruct (promises w !! p) as [[| |]|]; simpl; repeat split; reflexivity.
Qed.

Lemma loadScripts_starts_chain (m : nat) (w : World) :
  chain_starts m (trace (snd (loadScripts m w))) = S (chain_starts m (trace w))
  /\ in_browser (snd (loadScripts m w)) = in_browser w.
Proof.
  unfold loadScripts, new_promise, loadMRWidget, resolve, appendChild. simpl.
  destruct (__MR_WIDGET_SCRIPTS_LOADED__ w); destruct (truthy_dollar (dollar w)); simpl;
    try (destruct (settle_frame (length (promises w)) Fulfilled
                     (emit (EvLoadScripts m (length (promises w)))
                        (set_promises (promises w ++ [Pending]) w))) as (-> & -> & _));
    simpl; rewrite ?chain_starts_app, ?chain_starts_own, ?chain_starts_append;
    split; (lia || reflexivity).
Qed.

Lemma injectCSS_frame (w : World) :
  trace (injectCSS w) = trace w /\ in_browser (injectCSS w) = in_browser w.
Proof. unfold injectCSS. destruct (mr_widget_style w); split; reflexivity. Qed.

Lemma clear_zone_frame (w : World) :
  trace (clear_zone w) = trace w /\ in_browser (clear_zone w) = in_browser w.
Proof. unfold clear_zone. destruct (Zone_Widget w); split; reflexivity. Qed.

Lemma console_lines_frame (lines : list jsstring) (w : World) :
  trace (fold_left (fun w l => console_error [CStr l] w) lines w) = trace w
  /\ in_browser (fold_left (fun w l => console_error [CStr l] w) lines w) = in_browser w.
Proof.
  revert w. induction lines as [|l lines IH]; intros w; simpl; [split; reflexivity|].
  destruct (IH (console_error [CStr l] w)) as [-> ->]. split; reflexivity.
Qed.

Lemma normalizeBrandId_error_message (brand : jsstring) (e : exn) :
  normalizeBrandId brand = Throw e ->
  truthy_string (error_message e (js "Unknown error")) = true.
Proof.
  unfold normalizeBrandId.
  destruct (negb (truthy_string brand)); [intros E; injection E as <-; reflexivity|].
  destruct (Nat.ltb 8 (length (trim brand))); [intros E; injection E as <-; reflexivity|].
  destruct (Nat.eqb (length (trim brand)) 0); [intros E; injection E as <-; reflexivity|].
  discriminate.
Qed.

Lemma validateEffect_frame (pr : Props) (w : World) :
  trace (snd (validateEffect pr w)) = trace w
  /\ in_browser (snd (validateEffect pr w)) = in_browser w
  /\ (forall msg, fst (validateEffect pr w) = SetError msg -> truthy_string msg = true).
Proof.
  unfold validateEffect.
  destruct (negb (isBrowser w)); [simpl; repeat split; discriminate|].
  destruct (normalizeBrandId (the_brandIdAPI pr)) as [b|e] eqn:Hn; cbn [fst snd].
  - destruct (console_lines_frame (validateDeliveryMode (Some (the_deliveryMode pr))) w)
      as [-> ->].
    repeat split. discriminate.
  - repeat split. intros msg E. injection E as <-.
    eapply normalizeBrandId_error_message, Hn.
Qed.

(** The guard of the second effect: a run that finds the flag set, or the
    session not ready or in error, starts nothing. *)
Lemma initEffect_blocked (s : Session) (w : World) :
  negb (isBrowser w) || negb (isReady s) || widgetInitialized s || truthy_error (error s) = true ->
  initEffect s w = (set_hasCleanup false s, w).
Proof. intros H. unfold initEffect. rewrite H. reflexivity. Qed.

Lemma initEffect_starts (s : Session) (w : World) :
  isBrowser w = true -> isReady s = true -> widgetInitialized s = false ->
  truthy_error (error s) = false ->
  chain_starts (mount s) (trace (snd (initEffect s w))) = S (chain_starts (mount s) (trace w))
  /\ isBrowser (snd (initEffect s w)) = true
  /\ widgetInitialized (fst (initEffect s w)) = true
  /\ hasCleanup (fst (initEffect s w)) = true
  /\ isReady (fst (initEffect s w)) = true
  /\ error (fst (initEffect s w)) = error s
  /\ mount (fst (initEffect s w)) = mount s
  /\ props (fst (initEffect s w)) = props s.
Proof.
  intros Hb Hr Hf He. unfold initEffect, initializeWidget. rewrite Hb, Hr, Hf, He. simpl.
  destruct (loadScripts (mount s) (injectCSS w)) as [p w'] eqn:Hl. simpl.
  destruct (loadScripts_starts_chain (mount s) (injectCSS w)) as [Hc Hbr].
  rewrite Hl in Hc, Hbr. simpl in Hc, Hbr.
  destruct (injectCSS_frame w) as [Ht Hb'].
  rewrite Ht in Hc. unfold isBrowser in *. rewrite Hbr, Hb', Hb.
  repeat split; assumption.
Qed.

Lemma changeProps_starts_once (pr' : Props) (s : Session) (w : World) :
  isBrowser w = true -> isReady s = true -> truthy_error (error s) = false ->
  hasCleanup s = true -> deps2_changed (props s) pr' = true ->
  chain_starts (mount s) (trace (snd (changeProps pr' s w)))
  = S (chain_starts (mount s) (trace w)).
Proof.
  intros Hb Hr He Hc Hd.
  unfold changeProps. rewrite Hd. simpl hasCleanup. rewrite Hc. simpl andb. cbv iota.
  unfold effectCleanup. rewrite Hb.
  set (s1 := set_widgetInitialized false (set_props pr' s)).
  destruct (clear_zone_frame w) as [Ht1 Hb1].
  set (uw := if deps1_changed (props s) pr' then validateEffect pr' (clear_zone w)
             else (NoUpdate, clear_zone w)).
  assert (Huw : trace (snd uw) = trace w /\ in_browser (snd uw) = true
                /\ (forall msg, fst uw = SetError msg -> truthy_string msg = true)).
  { subst uw. destruct (deps1_changed (props s) pr').
    - destruct (validateEffect_frame pr' (clear_zone w)) as (-> & -> & Hm).
      rewrite Ht1, Hb1. repeat split; [exact Hb | exact Hm].
    - simpl. rewrite Ht1, Hb1. repeat split; [exact Hb | discriminate]. }
  destruct uw as [u w2]. simpl in Huw. destruct Huw as (Ht2 & Hb2 & Hmsg).
  destruct (initEffect_starts s1 w2 Hb2 Hr eq_refl He)
    as (Hs & Hb3 & Hf3 & Hc3 & Hr3 & He3 & Hm3 & _).
  destruct (initEffect s1 w2) as [s3 w3]. simpl in *.
  rewrite Ht2 in Hs.
  destruct u as [| |msg]; simpl.
  - exact Hs.
  - rewrite Hr3. exact Hs.
  - destruct (bool_decide (error s3 = Some msg)); [exact Hs|].
    unfold rerunInitEffect. simpl hasCleanup. rewrite Hc3.
    unfold effectCleanup. rewrite Hb3.
    rewrite initEffect_blocked.
    + simpl. destruct (clear_zone_frame w3) as [-> _]. exact Hs.
    + simpl. rewrite (Hmsg msg eq_refl). apply orb_true_r.
Qed.

(** C3 (as amended). A run of the second effect never starts the chain while
    [widgetInitialized] is set, so one run starts it at most once; but the flag
    is not monotonic: the cleanup resets it, and React runs the cleanup before
    every re-run of the effect.  Hence, for a session that is ready, free of
    error and has started, every prop change that alters a dependency of the
    effect starts the chain exactly once more. *)
Theorem prop_change_restarts_chain (pr' : Props) (s : Session) (w : World) :
  isBrowser w = true -> isReady s = true -> truthy_error (error s) = false ->
  hasCleanup s = true -> deps2_changed (props s) pr' = true ->
  (widgetInitialized s = true -> initEffect s w = (set_hasCleanup false s, w))
  /\ widgetInitialized (fst (effectCleanup s w)) = false
  /\ chain_starts (mount s) (trace (snd (changeProps pr' s w)))
     = S (chain_starts (mount s) (trace w)).
Proof.
  intros Hb Hr He Hc Hd.
  split; [|split].
  - intros Hf. apply initEffect_blocked. rewrite Hf, orb_true_r. reflexivity.
  - unfold effectCleanup. rewrite Hb. reflexivity.
  - apply changeProps_starts_once; assumption.
Qed.

Lemma prop_change_restarts_chain_witness :
  chain_starts 1 (trace (snd mounted_then_changed))
  = S (chain_starts 1 (trace (snd (mountComponent 1 default_props fresh_page)))).
Proof.
  apply (proj2 (proj2 (prop_change_restarts_chain heavier_props
                         (fst (mountComponent 1 default_props fresh_page))
                         (snd (mountComponent 1 default_props fresh_page))
                         eq_refl eq_refl eq_refl eq_refl eq_refl))).
Defined.

(** After such a change the session is again ready, free of error and started,
    so the next change restarts the chain as well. *)
Lemma changeProps_keeps_running (pr' : Props) (s : Session) (w : World) :
  isBrowser w = true -> isReady s = true -> truthy_error (error s) = false ->
  hasCleanup s = true ->
  deps1_changed (props s) pr' = false -> deps2_changed (props s) pr' = true ->
  isBrowser (snd (changeProps pr' s w)) = true
  /\ isReady (fst (changeProps pr' s w)) = true
  /\ truthy_error (error (fst (changeProps pr' s w))) = false
  /\ hasCleanup (fst (changeProps pr' s w)) = true
  /\ props (fst (changeProps pr' s w)) = pr'
  /\ mount (fst (changeProps pr' s w)) = mount s.
Proof.
  intros Hb Hr He Hc Hd1 Hd2.
  unfold changeProps. rewrite Hd1, Hd2. simpl hasCleanup. rewrite Hc. simpl andb. cbv iota.
  unfold effectCleanup. rewrite Hb.
  destruct (clear_zone_frame w) as [_ Hb1]. unfold isBrowser in *.
  assert (Hb2 : in_browser (clear_zone w) = true) by (rewrite Hb1; exact Hb).
  destruct (initEffect_starts (set_widgetInitialized false (set_props pr' s)) (clear_zone w)
              Hb2 Hr eq_refl He)
    as (_ & Hb3 & _ & Hc3 & Hr3 & He3 & Hm3 & Hp3).
  destruct (initEffect _ _) as [s3 w3]. simpl in *.
  rewrite He3. repeat split; assumption.
Qed.

Lemma prop_churn_restarts_each_time (prs : list Props) (s : Session) (w : World) :
  isBrowser w = true -> isReady s = true -> truthy_error (error s) = false ->
  hasCleanup s = true -> each_alters_effect (props s) prs ->
  chain_starts (mount s) (trace (snd (churn prs (s, w))))
  = chain_starts (mount s) (trace w) + length prs.
Proof.
  revert s w. induction prs as [|pr prs IH]; intros s w Hb Hr He Hc Ha; simpl.
  - lia.
  - destruct Ha as (Hd1 & Hd2 & Ha).
    destruct (changeProps_keeps_running pr s w Hb Hr He Hc Hd1 Hd2)
      as (Hb' & Hr' & He' & Hc' & Hp' & Hm').
    pose proof (changeProps_starts_once pr s w Hb Hr He Hc Hd2) as Hs.
    destruct (changeProps pr s w) as [s' w']. simpl in *.
    rewrite <- Hm', IH; try assumption.
    + rewrite Hm', Hs. lia.
    + rewrite Hp'. exact Ha.
Qed.

(** C3 (counterexample). One mount on a fresh page followed by one change of
    the [weight] prop: the chain is started twice for the same mount, and the
    flag that was set after the mount is reset by the cleanup in between. *)
Lemma prop_change_starts_chain_twice :
  chain_starts 1 (trace (snd (mountComponent 1 default_props fresh_page))) = 1
  /\ widgetInitialized (fst (mountComponent 1 default_props fresh_page)) = true
  /\ widgetInitialized (fst (effectCleanup (fst (mountComponent 1 default_props fresh_page))
                               (snd (mountComponent 1 default_props fresh_page)))) = false
  /\ chain_starts 1 (trace (snd mounted_then_changed)) = 2
  /\ ~ chain_starts 1 (trace (snd mounted_then_changed)) <= 1.
Proof.
  repeat split; try (vm_compute; reflexivity).
  assert (E : chain_starts 1 (trace (snd mounted_then_changed)) = 2)
    by (vm_compute; reflexivity).
  rewrite E. lia.
Qed.

(** ** Order of the two script loads *)

Lemma settle_length (p : nat) (st : promise_state) (w : World) :
  length (promises (settle p st w)) = length (promises w).
Proof.
  unfold settle. destruct (promises w !! p) as [[| |]|]; simpl;
    rewrite ?length_insert; reflexivity.
Qed.

Lemma settle_body (p : nat) (st : promise_state) (w : World) :
  body (settle p st w) = body w.
Proof. apply settle_frame. Qed.

Lemma mark_script_found (i : nat) (sc : script) (st : load_status) (w : World) :
  body w !! i = Some sc ->
  body (mark_script i st w) = <[i := mkScript (src sc) (settles sc) st]> (body w)
  /\ promises (mark_script i st w) = promises w.
Proof. intros H. unfold mark_script. rewrite H. split; reflexivity. Qed.

Section LoadOrder.

Variable picker : MRWidgetConfig -> World -> completion unit * option jsstring.

Lemma initWidget_loader_frame (m : nat) (pr : Props) (w : World) :
  body (snd (initWidget picker m pr w)) = body w
  /\ promises (snd (initWidget picker m pr w)) = promises w
  /\ dollar (snd (initWidget picker m pr w)) = dollar w
  /\ __MR_WIDGET_SCRIPTS_LOADED__ (snd (initWidget picker m pr w))
     = __MR_WIDGET_SCRIPTS_LOADED__ w.
Proof.
  destruct (clear_previous_frame w) as (_ & Hl & _ & Hb & Hp & Hd).
  unfold initWidget.
  destruct (negb (truthy_dollar (dollar w)) || negb (is_function (dollar w)));
    [repeat split|].
  destruct (normalizeBrandId (the_brandIdAPI pr)) as [b|e]; [|simpl; auto].
  destruct (picker _ _) as [[u|e] z]; simpl; auto.
Qed.

Lemma step_body_change (w w' : World) : step picker w w' -> body_change w w'.
Proof.
  intros H. destruct H as [w|m w|m pr w|w|args w|z w|i w|i w].
  - apply bc_same; unfold injectCSS; destruct (mr_widget_style w); simpl; auto.
  - unfold loadScripts, new_promise, loadMRWidget, resolve, appendChild. simpl.
    destruct (__MR_WIDGET_SCRIPTS_LOADED__ w); destruct (truthy_dollar (dollar w)); simpl.
    + apply bc_same.
      * rewrite settle_body. reflexivity.
      * rewrite settle_length. simpl. rewrite length_app. simpl. lia.
    + apply (bc_call _ _ JQUERY_URL); simpl; [reflexivity | rewrite length_app; simpl; lia].
    + apply (bc_call _ _ MR_WIDGET_URL); simpl; [reflexivity | rewrite length_app; simpl; lia].
    + apply (bc_call _ _ JQUERY_URL); simpl; [reflexivity | rewrite length_app; simpl; lia].
  - destruct (initWidget_loader_frame m pr w) as (Hb & Hp & _).
    apply bc_same; [exact Hb | rewrite Hp; lia].
  - apply bc_same; unfold clear_zone; destruct (Zone_Widget w); simpl; auto.
  - apply bc_same; simpl; auto.
  - apply bc_same; simpl; auto.
  - unfold fireLoad. destruct (body w !! i) as [[u p st]|] eqn:Hi; [|apply bc_same; auto].
    destruct st; [|apply bc_same; auto|apply bc_same; auto].
    destruct (mark_script_found i _ LoadFired w Hi) as [Hb Hp]. simpl in Hb.
    destruct u; unfold onload, execute_script, loadMRWidget, resolve, appendChild; simpl.
    + destruct (__MR_WIDGET_SCRIPTS_LOADED__ (mark_script i LoadFired w)) eqn:Hl.
      * eapply (bc_marked _ _ i _ LoadFired); [exact Hi | reflexivity | |].
        -- rewrite settle_body. simpl. exact Hb.
        -- rewrite settle_length. simpl. rewrite Hp. reflexivity.
      * eapply (bc_jquery_loaded _ _ i p); [exact Hi | simpl; rewrite Hb; reflexivity |].
        simpl. rewrite Hp. reflexivity.
    + eapply (bc_marked _ _ i _ LoadFired); [exact Hi | reflexivity | |].
      * rewrite settle_body. simpl. exact Hb.
      * rewrite settle_length. simpl. rewrite Hp. reflexivity.
  - unfold fireError. destruct (body w !! i) as [[u p st]|] eqn:Hi; [|apply bc_same; auto].
    destruct st; [|apply bc_same; auto|apply bc_same; auto].
    destruct (mark_script_found i _ ErrorFired w Hi) as [Hb Hp]. simpl in Hb.
    eapply (bc_marked _ _ i _ ErrorFired); [exact Hi | reflexivity | |].
    + destruct u; unfold onerror, reject; simpl; rewrite settle_body; simpl; exact Hb.
    + destruct u; unfold onerror, reject; simpl; rewrite settle_length; simpl;
        rewrite Hp; reflexivity.
Qed.

End LoadOrder.

Lemma lookup_marked (l : list script) (i j : nat) (sc b : script) (st : load_status) :
  l !! i = Some sc ->
  <[i := mkScript (src sc) (settles sc) st]> l !! j = Some b ->
  exists b0, l !! j = Some b0 /\ src b = src b0 /\ settles b = settles b0
             /\ ((j = i /\ b0 = sc /\ status b = st) \/ (j <> i /\ b = b0)).
Proof.
  intros Hi Hj. apply list_lookup_insert_Some in Hj as [(-> & <- & _)|(Hne & Hj)].
  - exists sc. simpl. repeat split; auto.
  - exists b. repeat split; auto.
Qed.

Lemma count_scripts_marked (u : script_src) (l : list script) (i : nat) (sc : script)
    (st : load_status) :
  l !! i = Some sc ->
  count_scripts u (<[i := mkScript (src sc) (settles sc) st]> l) = count_scripts u l.
Proof.
  revert i. induction l as [|x l IH]; intros [|i] H; simpl in *; try discriminate.
  - injection H as ->. unfold count_scripts. simpl.
    destruct (bool_decide (src sc = u)); reflexivity.
  - unfold count_scripts in *. simpl.
    destruct (bool_decide (src x = u)); simpl; rewrite (IH i H); reflexivity.
Qed.

Lemma lookup_appended (l : list script) (x b : script) (j : nat) :
  (l ++ [x]) !! j = Some b -> l !! j = Some b \/ (j = length l /\ b = x).
Proof.
  intros H. apply lookup_app_Some in H as [H|[Hle H]]; [left; exact H|].
  apply list_lookup_singleton_Some in H as [H0 <-]. right. split; [lia | reflexivity].
Qed.

Lemma body_change_invariant (w w' : World) :
  loader_invariant w -> body_change w w' -> loader_invariant w'.
Proof.
  intros (Hk & Hu & Ho) Hc. destruct Hc as [Hb Hp|u Hb Hp|i p Hi Hb Hp|i sc st Hi Hs Hb Hp].
  - unfold loader_invariant, settles_known, one_element_per_call, widget_after_jquery.
    rewrite Hb. repeat split; [|exact Hu|exact Ho].
    intros i sc H. specialize (Hk i sc H). lia.
  - assert (Hfresh : forall j b, body w !! j = Some b -> settles b <> length (promises w)).
    { intros j b H. specialize (Hk j b H). lia. }
    unfold loader_invariant, settles_known, one_element_per_call, widget_after_jquery.
    rewrite Hb, Hp. repeat split.
    + intros j b H. apply lookup_appended in H as [H|[_ ->]].
      * specialize (Hk j b H). lia.
      * simpl. lia.
    + intros j1 j2 a b Ha Hb' Hsrc Hset.
      apply lookup_appended in Ha as [Ha|[-> ->]];
        apply lookup_appended in Hb' as [Hb'|[-> ->]]; simpl in *.
      * eapply Hu; eassumption.
      * exfalso. eapply Hfresh; eassumption.
      * exfalso. eapply Hfresh; [eassumption | symmetry; assumption].
      * reflexivity.
    + intros j1 j2 a b Ha Hb' Hsa Hsb Hset.
      apply lookup_appended in Ha as [Ha|[-> ->]];
        apply lookup_appended in Hb' as [Hb'|[-> ->]]; simpl in *.
      * eapply Ho; eassumption.
      * exfalso. eapply Hfresh; eassumption.
      * exfalso. eapply Hfresh; [eassumption | symmetry; assumption].
      * congruence.
  - assert (Hnone : forall j b, body w !! j = Some b -> src b = MR_WIDGET_URL ->
                               settles b <> p).
    { intros j b H Hsrc Hset.
      specialize (Ho i j _ b Hi H eq_refl Hsrc (eq_sym Hset)). discriminate Ho. }
    unfold loader_invariant, settles_known, one_element_per_call, widget_after_jquery.
    rewrite Hb, Hp. repeat split.
    + intros j b H. apply lookup_appended in H as [H|[_ ->]].
      * apply (lookup_marked _ _ _ _ _ LoadFired Hi) in H as (b0 & H0 & _ & -> & _).
        eapply Hk, H0.
      * simpl. apply (Hk i _ Hi).
    + intros j1 j2 a b Ha Hb' Hsrc Hset.
      apply lookup_appended in Ha as [Ha|[-> ->]];
        apply lookup_appended in Hb' as [Hb'|[-> ->]]; simpl in *.
      * apply (lookup_marked _ _ _ _ _ LoadFired Hi) in Ha as (a0 & Ha0 & Es & Et & _).
        apply (lookup_marked _ _ _ _ _ LoadFired Hi) in Hb' as (b0 & Hb0 & Es' & Et' & _).
        eapply Hu; [exact Ha0 | exact Hb0 | congruence | congruence].
      * apply (lookup_marked _ _ _ _ _ LoadFired Hi) in Ha as (a0 & Ha0 & Es & Et & _).
        exfalso. eapply (Hnone j1 a0 Ha0); congruence.
      * apply (lookup_marked _ _ _ _ _ LoadFired Hi) in Hb' as (b0 & Hb0 & Es & Et & _).
        exfalso. eapply (Hnone j2 b0 Hb0); congruence.
      * reflexivity.
    + intros j1 j2 a b Ha Hb' Hsa Hsb Hset.
      apply lookup_appended in Ha as [Ha|[-> ->]]; [|discriminate Hsa].
      apply (lookup_marked _ _ _ _ _ LoadFired Hi) in Ha
        as (a0 & Ha0 & Es & Et & [(-> & -> & Hst)|(Hne & ->)]); [exact Hst|].
      apply lookup_appended in Hb' as [Hb'|[-> ->]]; simpl in *.
      * apply (lookup_marked _ _ _ _ _ LoadFired Hi) in Hb'
          as (b0 & Hb0 & Es' & Et' & _).
        eapply Ho; [exact Ha0 | exact Hb0 | assumption | congruence | congruence].
      * exfalso. apply Hne. eapply Hu; [exact Ha0 | exact Hi | | ]; simpl; congruence.
  - unfold loader_invariant, settles_known, one_element_per_call, widget_after_jquery.
    rewrite Hb, Hp. repeat split.
    + intros j b H.
      apply (lookup_marked _ _ _ _ _ st Hi) in H as (b0 & H0 & _ & -> & _).
      eapply Hk, H0.
    + intros j1 j2 a b Ha Hb' Hsrc Hset.
      apply (lookup_marked _ _ _ _ _ st Hi) in Ha as (a0 & Ha0 & Es & Et & _).
      apply (lookup_marked _ _ _ _ _ st Hi) in Hb' as (b0 & Hb0 & Es' & Et' & _).
      eapply Hu; [exact Ha0 | exact Hb0 | congruence | congruence].
    + intros j1 j2 a b Ha Hb' Hsa Hsb Hset.
      apply (lookup_marked _ _ _ _ _ st Hi) in Ha
        as (a0 & Ha0 & Es & Et & Hcase).
      apply (lookup_marked _ _ _ _ _ st Hi) in Hb' as (b0 & Hb0 & Es' & Et' & _).
      assert (Hold : status a0 = LoadFired)
        by (eapply Ho; [exact Ha0 | exact Hb0 | congruence | congruence | congruence]).
      destruct Hcase as [(-> & -> & _)|(_ & ->)]; [congruence | exact Hold].
Qed.

Lemma fresh_page_invariant : loader_invariant fresh_page.
Proof.
  unfold loader_invariant, settles_known, one_element_per_call, widget_after_jquery.
  simpl. repeat split; intros; discriminate.
Qed.

Section Executions.

Variable picker : MRWidgetConfig -> World -> completion unit * option jsstring.

(** *** The session-level operations are executions of the step relation *)

Lemma steps_trans (w1 w2 w3 : World) :
  steps picker w1 w2 -> steps picker w2 w3 -> steps picker w1 w3.
Proof.
  intros H12 H23. induction H23 as [w|w2 w3 w4 H23 IH H34]; [exact H12|].
  eapply steps_snoc; [apply IH, H12 | exact H34].
Qed.

Lemma steps_one (w w' : World) : step picker w w' -> steps picker w w'.
Proof. intros H. eapply steps_snoc; [apply steps_refl | exact H]. Qed.

Lemma console_lines_steps (lines : list jsstring) (w : World) :
  steps picker w (fold_left (fun w l => console_error [CStr l] w) lines w).
Proof.
  revert w. induction lines as [|l lines IH]; intros w; simpl; [apply steps_refl|].
  eapply steps_trans; [apply steps_one, step_console | apply IH].
Qed.

Lemma validateEffect_steps (pr : Props) (w : World) :
  steps picker w (snd (validateEffect pr w)).
Proof.
  unfold validateEffect. destruct (negb (isBrowser w)); [apply steps_refl|].
  destruct (normalizeBrandId (the_brandIdAPI pr)); simpl.
  - apply console_lines_steps.
  - apply steps_one, step_console.
Qed.

Lemma initEffect_steps (s : Session) (w : World) : steps picker w (snd (initEffect s w)).
Proof.
  unfold initEffect, initializeWidget.
  destruct (negb (isBrowser w) || negb (isReady s) || widgetInitialized s
            || truthy_error (error s)); [apply steps_refl|].
  simpl mount.
  pose proof (step_loadScripts picker (mount s) (injectCSS w)) as Hl.
  destruct (loadScripts (mount s) (injectCSS w)) as [p w']. simpl in *.
  eapply steps_snoc; [apply steps_one, step_injectCSS | exact Hl].
Qed.

Lemma effectCleanup_steps (s : Session) (w : World) :
  steps picker w (snd (effectCleanup s w)).
Proof.
  unfold effectCleanup. destruct (isBrowser w); [|apply steps_refl].
  apply steps_one, step_clear_zone.
Qed.

Lemma rerunInitEffect_steps (s : Session) (w : World) :
  steps picker w (snd (rerunInitEffect s w)).
Proof.
  unfold rerunInitEffect. destruct (hasCleanup s).
  - pose proof (effectCleanup_steps s w) as Hc.
    destruct (effectCleanup s w) as [s1 w1]. simpl in Hc.
    eapply steps_trans; [exact Hc | apply initEffect_steps].
  - apply initEffect_steps.
Qed.

Lemma applyUpdate_steps (u : state_update) (s : Session) (w : World) :
  steps picker w (snd (applyUpdate u s w)).
Proof.
  destruct u as [| |msg]; simpl.
  - apply steps_refl.
  - destruct (isReady s); [apply steps_refl | apply rerunInitEffect_steps].
  - destruct (bool_decide (error s = Some msg)); [apply steps_refl | apply rerunInitEffect_steps].
Qed.

Lemma mountComponent_steps (id : nat) (pr : Props) (w : World) :
  steps picker w (snd (mountComponent id pr w)).
Proof.
  unfold mountComponent.
  pose proof (validateEffect_steps pr w) as H1.
  destruct (validateEffect pr w) as [u w1]. simpl in H1.
  pose proof (initEffect_steps (mkSession id pr false None false false []) w1) as H2.
  destruct (initEffect _ w1) as [s2 w2]. simpl in H2.
  eapply steps_trans; [exact H1|]. eapply steps_trans; [exact H2 | apply applyUpdate_steps].
Qed.

Lemma changeProps_steps (pr' : Props) (s : Session) (w : World) :
  steps picker w (snd (changeProps pr' s w)).
Proof.
  unfold changeProps.
  set (s0 := set_props pr' s).
  assert (H1 : steps picker w
                 (snd (if deps2_changed (props s) pr' && hasCleanup s0
                       then effectCleanup s0 w else (s0, w)))).
  { destruct (deps2_changed (props s) pr' && hasCleanup s0);
      [apply effectCleanup_steps | apply steps_refl]. }
  destruct (if deps2_changed (props s) pr' && hasCleanup s0
            then effectCleanup s0 w else (s0, w)) as [s1 w1]. simpl in H1.
  assert (H2 : steps picker w1
                 (snd (if deps1_changed (props s) pr' then validateEffect pr' w1
                       else (NoUpdate, w1)))).
  { destruct (deps1_changed (props s) pr'); [apply validateEffect_steps | apply steps_refl]. }
  destruct (if deps1_changed (props s) pr' then validateEffect pr' w1 else (NoUpdate, w1))
    as [u w2]. simpl in H2.
  assert (H3 : steps picker w2
                 (snd (if deps2_changed (props s) pr' then initEffect s1 w2 else (s1, w2)))).
  { destruct (deps2_changed (props s) pr'); [apply initEffect_steps | apply steps_refl]. }
  destruct (if deps2_changed (props s) pr' then initEffect s1 w2 else (s1, w2)) as [s3 w3].
  simpl in H3.
  eapply steps_trans; [exact H1|]. eapply steps_trans; [exact H2|].
  eapply steps_trans; [exact H3 | apply applyUpdate_steps].
Qed.

Lemma settleSession_steps (s : Session) (p : nat) (pr : Props) (w : World) :
  steps picker w (snd (settleSession picker s p pr w)).
Proof.
  unfold settleSession.
  assert (H1 : steps picker w (snd (initializeWidget_resume picker s p pr w))).
  { unfold initializeWidget_resume, initializeWidget_catch.
    destruct (promises w !! p) as [[| |e]|]; simpl; try apply steps_refl.
    - pose proof (step_initWidget picker (mount s) pr w) as Hi.
      destruct (initWidget picker (mount s) pr w) as [[u|e] w1]; simpl in *.
      + apply steps_one, Hi.
      + eapply steps_snoc; [apply steps_one, Hi | apply step_console].
    - apply steps_one, step_console. }
  destruct (initializeWidget_resume picker s p pr w) as [s1 w1]. simpl in H1.
  destruct (bool_decide (error s1 = error s)); [exact H1|].
  eapply steps_trans; [exact H1 | apply rerunInitEffect_steps].
Qed.

Lemma unmountComponent_steps (s : Session) (w : World) :
  steps picker w (snd (unmountComponent s w)).
Proof.
  unfold unmountComponent. destruct (hasCleanup s); [apply effectCleanup_steps | apply steps_refl].
Qed.

Lemma loader_invariant_reachable (w0 w : World) :
  loader_invariant w0 -> steps picker w0 w -> loader_invariant w.
Proof.
  intros H0 Hs. induction Hs as [w|w1 w2 w3 Hs IH Hstep]; [exact H0|].
  eapply body_change_invariant; [apply IH, H0 | eapply step_body_change, Hstep].
Qed.

(** Within one [loadScripts] call the two loads are never in flight together:
    in every execution from a fresh page, when the widget script element of a
    call is present, the jQuery element of that call has fired its load
    event. *)
Lemma same_call_loads_in_order (w : World) (i j : nat) (a b : script) :
  steps picker fresh_page w ->
  body w !! i = Some a -> body w !! j = Some b ->
  src a = JQUERY_URL -> src b = MR_WIDGET_URL -> settles a = settles b ->
  status a = LoadFired.
Proof.
  intros Hs. destruct (loader_invariant_reachable _ _ fresh_page_invariant Hs) as (_ & _ & Ho).
  apply Ho.
Qed.

(** A widget script element is appended only in a step after which [window.$]
    is set: either it was set before, or the step is the load event of a jQuery
    element. *)
Lemma widget_script_needs_jquery (w w' : World) :
  step picker w w' ->
  count_scripts MR_WIDGET_URL (body w) < count_scripts MR_WIDGET_URL (body w') ->
  truthy_dollar (dollar w') = true
  /\ (truthy_dollar (dollar w) = true
      \/ exists i p, body w !! i = Some (mkScript JQUERY_URL p InFlight) /\ w' = fireLoad i w).
Proof.
  intros H. destruct H as [w|m w|m pr w|w|args w|z w|i w|i w].
  - unfold injectCSS. destruct (mr_widget_style w); simpl; lia.
  - unfold loadScripts, new_promise, loadMRWidget, resolve, appendChild. simpl.
    destruct (__MR_WIDGET_SCRIPTS_LOADED__ w); destruct (truthy_dollar (dollar w)) eqn:Hd;
      simpl; rewrite ?settle_body; simpl; rewrite ?count_scripts_app;
      try (change (count_scripts MR_WIDGET_URL
                     [mkScript JQUERY_URL (length (promises w)) InFlight]) with 0);
      try lia.
    intros _. split; [exact Hd | left; reflexivity].
  - destruct (initWidget_loader_frame picker m pr w) as (-> & _). lia.
  - unfold clear_zone. destruct (Zone_Widget w); simpl; lia.
  - simpl. lia.
  - simpl. lia.
  - unfold fireLoad. destruct (body w !! i) as [[u p st]|] eqn:Hi; [|lia].
    destruct st; [|lia|lia].
    destruct (mark_script_found i _ LoadFired w Hi) as [Hb Hp]. simpl in Hb.
    destruct u; unfold onload, execute_script, loadMRWidget, resolve, appendChild; simpl.
    + intros _. split; [|right; exists i, p; split; [exact Hi|]].
      * destruct (__MR_WIDGET_SCRIPTS_LOADED__ (mark_script i LoadFired w)); simpl;
          [|reflexivity].
        destruct (settle_frame p Fulfilled
                    (set_dollar DollarFunction
                       (emit (EvScriptLoad i) (mark_script i LoadFired w))))
          as (_ & _ & _ & ->).
        reflexivity.
      * unfold fireLoad. rewrite Hi. reflexivity.
    + rewrite settle_body. simpl. rewrite Hb.
      rewrite (count_scripts_marked _ _ _ _ LoadFired Hi). lia.
  - unfold fireError. destruct (body w !! i) as [[u p st]|] eqn:Hi; [|lia].
    destruct st; [|lia|lia].
    destruct (mark_script_found i _ ErrorFired w Hi) as [Hb Hp]. simpl in Hb.
    destruct u; unfold onerror, reject; simpl; rewrite settle_body; simpl; rewrite Hb;
      rewrite (count_scripts_marked _ _ _ _ ErrorFired Hi); lia.
Qed.

End Executions.

(** ** createShipment *)

Section ShipmentValidation.

Variables ShipContextSchema ShipmentSchema ShipOutputOptionsSchema : JsVal -> completion JsVal.
Variable generateXML : JsVal -> completion jsstring.
Variable endpoint : HttpRequest -> completion JsVal.

Lemma credentials_missing_on_placeholder (ctx : JsVal) :
  get ctx "Login" = Normal (VStr LOGIN_PLACEHOLDER)
  \/ get ctx "Password" = Normal (VStr PASSWORD_PLACEHOLDER) ->
  credentials_missing ctx = Normal true.
Proof.
  unfold credentials_missing, bind. intros [H|H].
  - rewrite H. reflexivity.
  - destruct ctx; try discriminate H; simpl in *;
      try (injection H as H; discriminate H).
    destruct (strict_eq_str _ _); [reflexivity|].
    injection H as ->. reflexivity.
Qed.

(** C10. Schema validation of the context, the shipment and the output
    options, and the check of the [Login]/[Password] placeholders, all come
    before the HTTP request: when any of them fails, [createShipment] throws
    and no request has been issued; conversely a request is issued only after
    all of them passed. *)
Theorem createShipment_validates_before_request (p : ShipParams) :
  ((exists e, ShipContextSchema (context p) = Throw e)
   \/ (exists e, ShipmentSchema (shipment p) = Throw e)
   \/ (exists e, ShipOutputOptionsSchema (outputOptions p) = Throw e)
   \/ get (context p) "Login" = Normal (VStr LOGIN_PLACEHOLDER)
   \/ get (context p) "Password" = Normal (VStr PASSWORD_PLACEHOLDER) ->
   exists e, createShipment ShipContextSchema ShipmentSchema ShipOutputOptionsSchema
               generateXML endpoint p = (Throw e, []))
  /\ (snd (createShipment ShipContextSchema ShipmentSchema ShipOutputOptionsSchema
             generateXML endpoint p) <> [] ->
      (exists v, ShipContextSchema (context p) = Normal v)
      /\ (exists v, ShipmentSchema (shipment p) = Normal v)
      /\ (exists v, ShipOutputOptionsSchema (outputOptions p) = Normal v)
      /\ credentials_missing (context p) = Normal false).
Proof.
  unfold createShipment. split.
  - intros H.
    destruct (ShipContextSchema (context p)) as [v1|e1]; [|eexists; reflexivity].
    destruct (ShipmentSchema (shipment p)) as [v2|e2]; [|eexists; reflexivity].
    destruct (ShipOutputOptionsSchema (outputOptions p)) as [v3|e3]; [|eexists; reflexivity].
    destruct H as [[e H]|[[e H]|[[e H]|H]]]; try discriminate H.
    rewrite credentials_missing_on_placeholder by exact H.
    eexists; reflexivity.
  - destruct (ShipContextSchema (context p)) as [v1|e1]; [|intros H; exfalso; apply H; reflexivity].
    destruct (ShipmentSchema (shipment p)) as [v2|e2]; [|intros H; exfalso; apply H; reflexivity].
    destruct (ShipOutputOptionsSchema (outputOptions p)) as [v3|e3];
      [|intros H; exfalso; apply H; reflexivity].
    destruct (credentials_missing (context p)) as [[|]|e4];
      try (intros H; exfalso; apply H; reflexivity).
    intros _. repeat split; eexists; reflexivity.
Qed.

End ShipmentValidation.

Lemma createShipment_validates_before_request_witness :
  (exists e, createShipment accept_all accept_all accept_all constant_xml silent_endpoint
               placeholder_params = (Throw e, []))
  /\ credentials_missing (context filled_params) = Normal false.
Proof.
  split.
  - apply (proj1 (createShipment_validates_before_request accept_all accept_all accept_all
                    constant_xml silent_endpoint placeholder_params)).
    right. right. right. left. vm_compute. reflexivity.
  - apply (proj2 (createShipment_validates_before_request accept_all accept_all accept_all
                    constant_xml silent_endpoint filled_params)).
    vm_compute. discriminate.
Defined.

(* ===================================================================== *)
(** * Further properties of the modelled code *)
(* ===================================================================== *)

Ltac unfold_world :=
  unfold injectCSS, loadScripts, initWidget, clear_previous, clear_zone, fireLoad, fireError,
    onload, onerror, execute_script, mark_script, loadMRWidget, resolve, reject, settle,
    appendChild, new_promise in *.

Ltac crush_world :=
  unfold_world; simpl in *; repeat (case_match; simpl in *; simplify_eq); simpl in *.

Lemma world_ext (w1 w2 : World) :
  in_browser w1 = in_browser w2 -> dollar w1 = dollar w2 ->
  __MR_WIDGET_SCRIPTS_LOADED__ w1 = __MR_WIDGET_SCRIPTS_LOADED__ w2 ->
  __MR_WIDGET_INITIALIZED__ w1 = __MR_WIDGET_INITIALIZED__ w2 ->
  mr_widget_style w1 = mr_widget_style w2 -> body w1 = body w2 ->
  Zone_Widget w1 = Zone_Widget w2 -> promises w1 = promises w2 ->
  console w1 = console w2 -> trace w1 = trace w2 -> w1 = w2.
Proof. destruct w1, w2. simpl. intros. subst. reflexivity. Qed.

Ltac world_eq :=
  apply world_ext; simpl; rewrite <- ?app_assoc; simpl; try reflexivity.

Ltac solve_length :=
  first [ lia
        | rewrite length_app; simpl; lia
        | rewrite length_insert; lia
        | rewrite length_insert, length_app; simpl; lia
        | rewrite length_app, length_insert; simpl; lia ].

(** ** The global flags along executions *)

Section FlagsAlongExecutions.

Variable picker : MRWidgetConfig -> World -> completion unit * option jsstring.

Lemma step_monotone (w w' : World) :
  step picker w w' ->
  (__MR_WIDGET_SCRIPTS_LOADED__ w = true -> __MR_WIDGET_SCRIPTS_LOADED__ w' = true)
  /\ (__MR_WIDGET_INITIALIZED__ w = true -> __MR_WIDGET_INITIALIZED__ w' = true)
  /\ (truthy_dollar (dollar w) = true -> truthy_dollar (dollar w') = true)
  /\ in_browser w' = in_browser w
  /\ length (promises w) <= length (promises w')
  /\ length (body w) <= length (body w').
Proof.
  intros H. destruct H; crush_world; repeat split; intros; try congruence; solve_length.
Qed.

Lemma steps_monotone (w w' : World) :
  steps picker w w' ->
  (__MR_WIDGET_SCRIPTS_LOADED__ w = true -> __MR_WIDGET_SCRIPTS_LOADED__ w' = true)
  /\ (__MR_WIDGET_INITIALIZED__ w = true -> __MR_WIDGET_INITIALIZED__ w' = true)
  /\ (truthy_dollar (dollar w) = true -> truthy_dollar (dollar w') = true)
  /\ in_browser w' = in_browser w
  /\ length (promises w) <= length (promises w')
  /\ length (body w) <= length (body w').
Proof.
  intros Hs. induction Hs as [w|w1 w2 w3 Hs IH Hstep].
  - repeat split; auto.
  - destruct IH as (I1 & I2 & I3 & I4 & I5 & I6).
    destruct (step_monotone _ _ Hstep) as (S1 & S2 & S3 & S4 & S5 & S6).
    repeat split; auto; try congruence; lia.
Qed.

(** X1. Along every execution the two global flags and [window.$] are never
    reset once set (no step, unmount cleanup included, clears them), the
    browser flag is constant, and promises and script elements are never
    removed. *)
Theorem global_flags_never_reset (w w' : World) :
  steps picker w w' ->
  (__MR_WIDGET_SCRIPTS_LOADED__ w = true -> __MR_WIDGET_SCRIPTS_LOADED__ w' = true)
  /\ (__MR_WIDGET_INITIALIZED__ w = true -> __MR_WIDGET_INITIALIZED__ w' = true)
  /\ (truthy_dollar (dollar w) = true -> truthy_dollar (dollar w') = true)
  /\ in_browser w' = in_browser w
  /\ length (promises w) <= length (promises w')
  /\ length (body w) <= length (body w').
Proof. apply steps_monotone. Qed.

Lemma step_loaded_no_append (w w' : World) :
  __MR_WIDGET_SCRIPTS_LOADED__ w = true -> truthy_dollar (dollar w) = true ->
  step picker w w' -> length (body w') = length (body w).
Proof.
  intros Hl Hd H. destruct H as [w|m w|m pr w|w|args w|z w|i w|i w].
  - unfold injectCSS. destruct (mr_widget_style w); reflexivity.
  - unfold loadScripts, new_promise, resolve. simpl. rewrite Hl, Hd. simpl.
    rewrite settle_body. reflexivity.
  - destruct (initWidget_loader_frame picker m pr w) as (-> & _). reflexivity.
  - unfold clear_zone. destruct (Zone_Widget w); reflexivity.
  - reflexivity.
  - reflexivity.
  - unfold fireLoad. destruct (body w !! i) as [[u p st]|] eqn:Hi; [|reflexivity].
    destruct st; [|reflexivity|reflexivity].
    destruct (mark_script_found i _ LoadFired w Hi) as [Hb Hp]. simpl in Hb.
    assert (Hf : __MR_WIDGET_SCRIPTS_LOADED__ (mark_script i LoadFired w) = true)
      by (unfold mark_script; rewrite Hi; exact Hl).
    destruct u; unfold onload, execute_script, loadMRWidget, resolve; simpl.
    + rewrite Hf, settle_body. simpl. rewrite Hb. apply length_insert.
    + rewrite settle_body. simpl. rewrite Hb. apply length_insert.
  - unfold fireError. destruct (body w !! i) as [[u p st]|] eqn:Hi; [|reflexivity].
    destruct st; [|reflexivity|reflexivity].
    destruct (mark_script_found i _ ErrorFired w Hi) as [Hb Hp]. simpl in Hb.
    destruct u; unfold onerror, reject; simpl; rewrite settle_body; simpl; rewrite Hb;
      apply length_insert.
Qed.

(** X2. Once both scripts are loaded ([__MR_WIDGET_SCRIPTS_LOADED__] set and
    [window.$] set), no execution appends another script element: whatever
    mounts, prop changes, unmounts and late script events follow, the number of
    script elements in the body stays the same. *)
Theorem loaded_page_never_appends (w w' : World) :
  __MR_WIDGET_SCRIPTS_LOADED__ w = true -> truthy_dollar (dollar w) = true ->
  steps picker w w' -> length (body w') = length (body w).
Proof.
  intros Hl Hd Hs. induction Hs as [w|w1 w2 w3 Hs IH Hstep]; [reflexivity|].
  destruct (steps_monotone w1 w2 Hs) as (F1 & _ & F3 & _).
  rewrite <- (IH Hl Hd). apply step_loaded_no_append; auto.
Qed.

End FlagsAlongExecutions.

Lemma global_flags_never_reset_witness :
  __MR_WIDGET_INITIALIZED__ (snd (unmountComponent (fst first_attached) (snd first_attached)))
  = true.
Proof.
  apply (proj1 (proj2 (global_flags_never_reset rendering_picker (snd first_attached)
                         (snd (unmountComponent (fst first_attached) (snd first_attached)))
                         (unmountComponent_steps rendering_picker _ _)))).
  vm_compute. reflexivity.
Defined.

Lemma loaded_page_never_appends_witness :
  length (body (snd (mountComponent 2 default_props loaded_page))) = length (body loaded_page).
Proof.
  apply (loaded_page_never_appends rendering_picker loaded_page).
  - vm_compute. reflexivity.
  - vm_compute. reflexivity.
  - apply mountComponent_steps.
Defined.

(** ** One call of [loadScripts] and the events of its script elements *)

Lemma lookup_last_appended {A : Type} (l : list A) (x : A) :
  (l ++ [x]) !! length l = Some x.
Proof. rewrite lookup_app_r by lia. rewrite Nat.sub_diag. reflexivity. Qed.

Lemma insert_last_appended {A : Type} (l : list A) (x y : A) :
  <[length l := y]> (l ++ [x]) = l ++ [y].
Proof. rewrite insert_app_r_alt by lia. rewrite Nat.sub_diag. reflexivity. Qed.

Lemma loadScripts_fresh_call (m : nat) (w : World) :
  dollar w = DollarUndefined ->
  loadScripts m w
  = (length (promises w),
     appendChild (mkScript JQUERY_URL (length (promises w)) InFlight)
       (emit (EvLoadScripts m (length (promises w)))
          (set_promises (promises w ++ [Pending]) w))).
Proof.
  intros Hd. unfold loadScripts, new_promise. simpl. rewrite Hd. simpl.
  rewrite andb_false_r. reflexivity.
Qed.

Lemma fireLoad_at (i : nat) (w : World) (u : script_src) (p : nat) :
  body w !! i = Some (mkScript u p InFlight) ->
  fireLoad i w
  = onload (mkScript u p InFlight)
      (execute_script u
         (emit (EvScriptLoad i) (set_body (<[i := mkScript u p LoadFired]> (body w)) w))).
Proof. intros H. unfold fireLoad, mark_script. rewrite H. reflexivity. Qed.

Lemma fireError_at (i : nat) (w : World) (u : script_src) (p : nat) :
  body w !! i = Some (mkScript u p InFlight) ->
  fireError i w
  = onerror (mkScript u p InFlight)
      (emit (EvScriptError i) (set_body (<[i := mkScript u p ErrorFired]> (body w)) w)).
Proof. intros H. unfold fireError, mark_script. rewrite H. reflexivity. Qed.

Lemma settle_last_pending (l : list promise_state) (st : promise_state) (w : World) :
  promises w = l ++ [Pending] ->
  settle (length l) st w = set_promises (l ++ [st]) w.
Proof.
  intros H. unfold settle. rewrite H, lookup_last_appended, insert_last_appended. reflexivity.
Qed.

Lemma jquery_loaded_after_fresh_call (m : nat) (w : World) :
  dollar w = DollarUndefined -> __MR_WIDGET_SCRIPTS_LOADED__ w = false ->
  fireLoad (length (body w)) (snd (loadScripts m w))
  = mkWorld (in_browser w) DollarFunction false (__MR_WIDGET_INITIALIZED__ w)
      (mr_widget_style w)
      (body w ++ [mkScript JQUERY_URL (length (promises w)) LoadFired;
                  mkScript MR_WIDGET_URL (length (promises w)) InFlight])
      (Zone_Widget w) (promises w ++ [Pending]) (console w)
      (trace w ++ [EvLoadScripts m (length (promises w)); EvAppendScript JQUERY_URL;
                   EvScriptLoad (length (body w)); EvAppendScript MR_WIDGET_URL]).
Proof.
  intros Hd Hl. rewrite (loadScripts_fresh_call m w Hd). simpl snd.
  rewrite (fireLoad_at _ _ JQUERY_URL (length (promises w)))
    by (unfold appendChild; simpl; apply lookup_last_appended).
  unfold appendChild, onload, execute_script, loadMRWidget. simpl.
  rewrite Hl. unfold appendChild. simpl.
  rewrite insert_last_appended. world_eq. exact Hl.
Qed.

(** X3. A single call on a page without [window.$] and without the loaded flag,
    followed by the load event of its jQuery element and then of its widget
    element: exactly one element per script is appended, in that order, the
    call's promise is fulfilled, the flag is set and [window.$] is a
    function. *)
Theorem single_call_loads_both_scripts (m : nat) (w : World) :
  dollar w = DollarUndefined -> __MR_WIDGET_SCRIPTS_LOADED__ w = false ->
  fst (loadScripts m w) = length (promises w)
  /\ body (fireLoad (S (length (body w))) (fireLoad (length (body w)) (snd (loadScripts m w))))
     = body w ++ [mkScript JQUERY_URL (length (promises w)) LoadFired;
                  mkScript MR_WIDGET_URL (length (promises w)) LoadFired]
  /\ promises (fireLoad (S (length (body w)))
                 (fireLoad (length (body w)) (snd (loadScripts m w))))
     = promises w ++ [Fulfilled]
  /\ __MR_WIDGET_SCRIPTS_LOADED__
       (fireLoad (S (length (body w))) (fireLoad (length (body w)) (snd (loadScripts m w))))
     = true
  /\ dollar (fireLoad (S (length (body w))) (fireLoad (length (body w)) (snd (loadScripts m w))))
     = DollarFunction.
Proof.
  intros Hd Hl.
  split; [rewrite (loadScripts_fresh_call m w Hd); reflexivity|].
  assert (E : fireLoad (S (length (body w)))
                (fireLoad (length (body w)) (snd (loadScripts m w)))
              = mkWorld (in_browser w) DollarFunction true (__MR_WIDGET_INITIALIZED__ w)
                  (mr_widget_style w)
                  (body w ++ [mkScript JQUERY_URL (length (promises w)) LoadFired;
                              mkScript MR_WIDGET_URL (length (promises w)) LoadFired])
                  (Zone_Widget w) (promises w ++ [Fulfilled]) (console w)
                  (trace w ++ [EvLoadScripts m (length (promises w));
                               EvAppendScript JQUERY_URL; EvScriptLoad (length (body w));
                               EvAppendScript MR_WIDGET_URL;
                               EvScriptLoad (S (length (body w)))])).
  { rewrite (jquery_loaded_after_fresh_call m w Hd Hl).
    rewrite (fireLoad_at _ _ MR_WIDGET_URL (length (promises w))).
    2:{ cbn [body].
        change [mkScript JQUERY_URL (length (promises w)) LoadFired;
                mkScript MR_WIDGET_URL (length (promises w)) InFlight]
          with ([mkScript JQUERY_URL (length (promises w)) LoadFired]
                ++ [mkScript MR_WIDGET_URL (length (promises w)) InFlight]).
        rewrite app_assoc.
        replace (S (length (body w)))
          with (length (body w ++ [mkScript JQUERY_URL (length (promises w)) LoadFired]))
          by (rewrite length_app; simpl; lia).
        apply lookup_last_appended. }
    unfold onload, execute_script, resolve. cbn [src settles].
    rewrite (settle_last_pending (promises w)) by reflexivity.
    apply world_ext; simpl; try reflexivity.
    - change [mkScript JQUERY_URL (length (promises w)) LoadFired;
              mkScript MR_WIDGET_URL (length (promises w)) InFlight]
        with ([mkScript JQUERY_URL (length (promises w)) LoadFired]
              ++ [mkScript MR_WIDGET_URL (length (promises w)) InFlight]).
      rewrite app_assoc.
      replace (S (length (body w)))
        with (length (body w ++ [mkScript JQUERY_URL (length (promises w)) LoadFired]))
        by (rewrite length_app; simpl; lia).
      rewrite insert_last_appended, <- app_assoc. reflexivity.
    - rewrite <- app_assoc. reflexivity. }
  rewrite E. cbn. split; [reflexivity|]. split; [reflexivity|]. split; reflexivity.
Qed.

Lemma single_call_loads_both_scripts_witness :
  promises (fireLoad 1 (fireLoad 0 (snd (loadScripts 1 fresh_page)))) = [Fulfilled].
Proof.
  apply (proj1 (proj2 (proj2 (single_call_loads_both_scripts 1 fresh_page eq_refl eq_refl)))).
Defined.

(** X4. When the jQuery element of a call fails, the call's promise is rejected
    with "Failed to load jQuery", no widget element is appended, the flag and
    [window.$] stay as they were; and a later call starts over with a new
    jQuery element. *)
Theorem jquery_failure_rejects_and_retries (m m' : nat) (w : World) :
  dollar w = DollarUndefined ->
  body (fireError (length (body w)) (snd (loadScripts m w)))
  = body w ++ [mkScript JQUERY_URL (length (promises w)) ErrorFired]
  /\ promises (fireError (length (body w)) (snd (loadScripts m w)))
     = promises w ++ [Rejected (JsError MSG_JQUERY_FAILED)]
  /\ __MR_WIDGET_SCRIPTS_LOADED__ (fireError (length (body w)) (snd (loadScripts m w)))
     = __MR_WIDGET_SCRIPTS_LOADED__ w
  /\ dollar (fireError (length (body w)) (snd (loadScripts m w))) = DollarUndefined
  /\ body (snd (loadScripts m' (fireError (length (body w)) (snd (loadScripts m w)))))
     = body w ++ [mkScript JQUERY_URL (length (promises w)) ErrorFired;
                  mkScript JQUERY_URL (S (length (promises w))) InFlight].
Proof.
  intros Hd. rewrite (loadScripts_fresh_call m w Hd). simpl snd.
  assert (E : fireError (length (body w))
                (appendChild (mkScript JQUERY_URL (length (promises w)) InFlight)
                   (emit (EvLoadScripts m (length (promises w)))
                      (set_promises (promises w ++ [Pending]) w)))
              = mkWorld (in_browser w) DollarUndefined (__MR_WIDGET_SCRIPTS_LOADED__ w)
                  (__MR_WIDGET_INITIALIZED__ w) (mr_widget_style w)
                  (body w ++ [mkScript JQUERY_URL (length (promises w)) ErrorFired])
                  (Zone_Widget w)
                  (promises w ++ [Rejected (JsError MSG_JQUERY_FAILED)])
                  (console w)
                  (trace w ++ [EvLoadScripts m (length (promises w))]
                   ++ [EvAppendScript JQUERY_URL] ++ [EvScriptError (length (body w))])).
  { rewrite (fireError_at _ _ JQUERY_URL (length (promises w)))
      by (unfold appendChild; simpl; apply lookup_last_appended).
    unfold appendChild, onerror, reject. simpl.
    rewrite (settle_last_pending (promises w)) by reflexivity.
    apply world_ext; simpl; try reflexivity.
    - exact Hd.
    - apply insert_last_appended.
    - rewrite <- !app_assoc. reflexivity. }
  rewrite E. cbn [body promises __MR_WIDGET_SCRIPTS_LOADED__ dollar].
  split; [reflexivity|]. split; [reflexivity|]. split; [reflexivity|]. split; [reflexivity|].
  rewrite loadScripts_fresh_call by reflexivity. cbn.
  rewrite <- app_assoc, length_app. cbn.
  replace (length (promises w) + 1) with (S (length (promises w))) by lia. reflexivity.
Qed.

Lemma jquery_failure_rejects_and_retries_witness :
  promises (fireError 0 (snd (loadScripts 1 fresh_page)))
  = [Rejected (JsError MSG_JQUERY_FAILED)].
Proof.
  apply (proj1 (proj2 (jquery_failure_rejects_and_retries 1 2 fresh_page eq_refl))).
Defined.

(** X5. When jQuery has loaded but the widget element of a call fails, the
    promise is rejected with "Failed to load Mondial Relay widget" and the flag
    stays unset; a later call does not load jQuery again: it appends a widget
    element only. *)
Theorem widget_failure_rejects_and_retry_skips_jquery (m m' : nat) (w : World) :
  dollar w = DollarUndefined -> __MR_WIDGET_SCRIPTS_LOADED__ w = false ->
  body (fireError (S (length (body w))) (fireLoad (length (body w)) (snd (loadScripts m w))))
  = body w ++ [mkScript JQUERY_URL (length (promises w)) LoadFired;
               mkScript MR_WIDGET_URL (length (promises w)) ErrorFired]
  /\ promises (fireError (S (length (body w)))
                 (fireLoad (length (body w)) (snd (loadScripts m w))))
     = promises w ++ [Rejected (JsError MSG_MR_FAILED)]
  /\ __MR_WIDGET_SCRIPTS_LOADED__
       (fireError (S (length (body w))) (fireLoad (length (body w)) (snd (loadScripts m w))))
     = false
  /\ body (snd (loadScripts m'
                  (fireError (S (length (body w)))
                     (fireLoad (length (body w)) (snd (loadScripts m w))))))
     = body w ++ [mkScript JQUERY_URL (length (promises w)) LoadFired;
                  mkScript MR_WIDGET_URL (length (promises w)) ErrorFired;
                  mkScript MR_WIDGET_URL (S (length (promises w))) InFlight].
Proof.
  intros Hd Hl. rewrite (loadScripts_fresh_call m w Hd). simpl snd.
  assert (E : fireError (S (length (body w)))
                (fireLoad (length (body w))
                   (appendChild (mkScript JQUERY_URL (length (promises w)) InFlight)
                      (emit (EvLoadScripts m (length (promises w)))
                         (set_promises (promises w ++ [Pending]) w))))
              = mkWorld (in_browser w) DollarFunction false
                  (__MR_WIDGET_INITIALIZED__ w) (mr_widget_style w)
                  (body w ++ [mkScript JQUERY_URL (length (promises w)) LoadFired;
                              mkScript MR_WIDGET_URL (length (promises w)) ErrorFired])
                  (Zone_Widget w)
                  (promises w ++ [Rejected (JsError MSG_MR_FAILED)])
                  (console w)
                  (trace w ++ [EvLoadScripts m (length (promises w));
                               EvAppendScript JQUERY_URL; EvScriptLoad (length (body w));
                               EvAppendScript MR_WIDGET_URL;
                               EvScriptError (S (length (body w)))])).
  { change (appendChild (mkScript JQUERY_URL (length (promises w)) InFlight)
              (emit (EvLoadScripts m (length (promises w)))
                 (set_promises (promises w ++ [Pending]) w)))
      with (snd (length (promises w),
                 appendChild (mkScript JQUERY_URL (length (promises w)) InFlight)
                   (emit (EvLoadScripts m (length (promises w)))
                      (set_promises (promises w ++ [Pending]) w)))).
    rewrite <- (loadScripts_fresh_call m w Hd).
    rewrite (jquery_loaded_after_fresh_call m w Hd Hl).
    rewrite (fireError_at _ _ MR_WIDGET_URL (length (promises w))).
    2:{ simpl.
        change [mkScript JQUERY_URL (length (promises w)) LoadFired;
                mkScript MR_WIDGET_URL (length (promises w)) InFlight]
          with ([mkScript JQUERY_URL (length (promises w)) LoadFired]
                ++ [mkScript MR_WIDGET_URL (length (promises w)) InFlight]).
        rewrite app_assoc.
        replace (S (length (body w)))
          with (length (body w ++ [mkScript JQUERY_URL (length (promises w)) LoadFired]))
          by (rewrite length_app; simpl; lia).
        apply lookup_last_appended. }
    unfold onerror, reject. cbn [src settles].
    rewrite (settle_last_pending (promises w)) by reflexivity.
    apply world_ext; simpl; try reflexivity.
    - change [mkScript JQUERY_URL (length (promises w)) LoadFired;
              mkScript MR_WIDGET_URL (length (promises w)) InFlight]
        with ([mkScript JQUERY_URL (length (promises w)) LoadFired]
              ++ [mkScript MR_WIDGET_URL (length (promises w)) InFlight]).
      rewrite app_assoc.
      replace (S (length (body w)))
        with (length (body w ++ [mkScript JQUERY_URL (length (promises w)) LoadFired]))
        by (rewrite length_app; simpl; lia).
      rewrite insert_last_appended, <- app_assoc. reflexivity.
    - rewrite <- app_assoc. reflexivity. }
  rewrite E. cbn [body promises __MR_WIDGET_SCRIPTS_LOADED__ dollar].
  split; [reflexivity|]. split; [reflexivity|]. split; [reflexivity|].
  unfold loadScripts, new_promise, loadMRWidget, appendChild. cbn.
  rewrite <- app_assoc, length_app. cbn.
  replace (length (promises w) + 1) with (S (length (promises w))) by lia. reflexivity.
Qed.

Lemma widget_failure_rejects_and_retry_skips_jquery_witness :
  promises (fireError 1 (fireLoad 0 (snd (loadScripts 1 fresh_page))))
  = [Rejected (JsError MSG_MR_FAILED)].
Proof.
  apply (proj1 (proj2 (widget_failure_rejects_and_retry_skips_jquery 1 2 fresh_page
                         eq_refl eq_refl))).
Defined.

(** ** Soundness of the load state along executions *)

Lemma settle_effect (p : nat) (st : promise_state) (w : World) :
  dollar (settle p st w) = dollar w
  /\ __MR_WIDGET_SCRIPTS_LOADED__ (settle p st w) = __MR_WIDGET_SCRIPTS_LOADED__ w
  /\ body (settle p st w) = body w
  /\ (forall q y, promises (settle p st w) !! q = Some y ->
                  promises w !! q = Some y \/ y = st).
Proof.
  unfold settle. destruct (promises w !! p) as [[| |e]|]; simpl; repeat split; auto.
  intros q y H. apply list_lookup_insert_Some in H as [(_ & <- & _)|(_ & H)]; auto.
Qed.

Lemma loaded_script_survives (l : list script) (i j : nat) (a x y : script) :
  l !! i = Some x -> status x = LoadFired ->
  l !! j = Some y -> status y = InFlight ->
  <[j := a]> l !! i = Some x.
Proof.
  intros Hi Hx Hj Hy. rewrite list_lookup_insert_ne; [exact Hi|].
  intros ->. rewrite Hi in Hj. injection Hj as ->. congruence.
Qed.

Section LoadStateSound.

Variable picker : MRWidgetConfig -> World -> completion unit * option jsstring.

Lemma step_load_change (w w' : World) : step picker w w' -> load_change w w'.
Proof.
  intros H. destruct H as [w|m w|m pr w|w|args w|z w|i w|i w].
  - apply lc_quiet; unfold injectCSS; destruct (mr_widget_style w); reflexivity.
  - unfold loadScripts, new_promise, loadMRWidget, resolve, appendChild. simpl.
    destruct (__MR_WIDGET_SCRIPTS_LOADED__ w) eqn:Hl;
      destruct (truthy_dollar (dollar w)) eqn:Hd; simpl.
    + rewrite (settle_last_pending (promises w)) by reflexivity.
      apply (lc_call _ _ [] Fulfilled); simpl; rewrite ?app_nil_r; auto 10.
    + apply (lc_call _ _ [mkScript JQUERY_URL (length (promises w)) InFlight] Pending);
        simpl; auto 10.
    + apply (lc_call _ _ [mkScript MR_WIDGET_URL (length (promises w)) InFlight] Pending);
        simpl; auto 10.
    + apply (lc_call _ _ [mkScript JQUERY_URL (length (promises w)) InFlight] Pending);
        simpl; auto 10.
  - destruct (initWidget_loader_frame picker m pr w) as (Hb & Hp & Hd & Hl).
    apply lc_quiet; assumption.
  - apply lc_quiet; unfold clear_zone; destruct (Zone_Widget w); reflexivity.
  - apply lc_quiet; reflexivity.
  - apply lc_quiet; reflexivity.
  - unfold fireLoad. destruct (body w !! i) as [[u p st]|] eqn:Hi;
      [|apply lc_quiet; reflexivity].
    destruct st; [|apply lc_quiet; reflexivity|apply lc_quiet; reflexivity].
    destruct (mark_script_found i _ LoadFired w Hi) as [Hb Hp]. simpl in Hb.
    assert (Hf : __MR_WIDGET_SCRIPTS_LOADED__ (mark_script i LoadFired w)
                 = __MR_WIDGET_SCRIPTS_LOADED__ w)
      by (unfold mark_script; rewrite Hi; reflexivity).
    assert (Hdl : dollar (mark_script i LoadFired w) = dollar w)
      by (unfold mark_script; rewrite Hi; reflexivity).
    destruct u; unfold onload, execute_script, loadMRWidget, resolve, appendChild; simpl.
    + rewrite Hf. destruct (__MR_WIDGET_SCRIPTS_LOADED__ w) eqn:Hl.
      * match goal with |- load_change _ (settle ?q ?s ?w0) =>
          destruct (settle_effect q s w0) as (E1 & E2 & E3 & _) end.
        apply (lc_jquery_loaded _ _ i p); [exact Hi | rewrite E1; reflexivity
                                          | rewrite E2; simpl; congruence |].
        left. split; [exact Hl|]. split; [rewrite E3; simpl; exact Hb|].
        unfold settle. simpl. rewrite Hp. destruct (promises w !! p) as [[| |]|]; simpl;
          rewrite ?Hp; reflexivity.
      * apply (lc_jquery_loaded _ _ i p); [exact Hi | reflexivity | simpl; congruence |].
        right. split; [exact Hl|]. simpl. rewrite Hb, Hp. split; reflexivity.
    + match goal with |- load_change _ (settle ?q ?s ?w0) =>
        destruct (settle_effect q s w0) as (E1 & E2 & E3 & _) end.
      apply (lc_widget_loaded _ _ i p); [exact Hi | rewrite E1; simpl; exact Hdl
                                        | rewrite E2; reflexivity
                                        | rewrite E3; simpl; exact Hb |].
      unfold settle. simpl. rewrite Hp. destruct (promises w !! p) as [[| |]|]; simpl;
        rewrite ?Hp; reflexivity.
  - unfold fireError. destruct (body w !! i) as [[u p st]|] eqn:Hi;
      [|apply lc_quiet; reflexivity].
    destruct st; [|apply lc_quiet; reflexivity|apply lc_quiet; reflexivity].
    destruct (mark_script_found i _ ErrorFired w Hi) as [Hb Hp]. simpl in Hb.
    assert (Hf : __MR_WIDGET_SCRIPTS_LOADED__ (mark_script i ErrorFired w)
                 = __MR_WIDGET_SCRIPTS_LOADED__ w)
      by (unfold mark_script; rewrite Hi; reflexivity).
    assert (Hdl : dollar (mark_script i ErrorFired w) = dollar w)
      by (unfold mark_script; rewrite Hi; reflexivity).
    assert (E : onerror (mkScript u p InFlight)
                  (emit (EvScriptError i) (mark_script i ErrorFired w))
                = settle p (Rejected (load_failure u))
                    (emit (EvScriptError i) (mark_script i ErrorFired w)))
      by (destruct u; reflexivity).
    rewrite E.
    match goal with |- load_change _ (settle ?q ?s ?w0) =>
      destruct (settle_effect q s w0) as (E1 & E2 & E3 & _) end.
    apply (lc_failed _ _ i u p); [exact Hi | rewrite E1; simpl; exact Hdl
                                 | rewrite E2; simpl; exact Hf
                                 | rewrite E3; simpl; exact Hb |].
    unfold settle. simpl. rewrite Hp. destruct (promises w !! p) as [[| |]|]; simpl;
      rewrite ?Hp; reflexivity.
Qed.

Lemma load_change_sound (w w' : World) :
  load_state_sound w -> load_change w w' -> load_state_sound w'.
Proof.
  intros (A & B & C & D) H. unfold load_state_sound.
  destruct H as [Hd Hl Hb Hp|added st Hd Hl Hb Hp Hcase|i p Hi Hd Hl Hcase
                |i p Hi Hd Hl Hb Hp|i u p Hi Hd Hl Hb Hp].
  - rewrite Hd, Hl, Hb, Hp. auto.
  - rewrite Hd, Hl, Hb, Hp.
    assert (HB : __MR_WIDGET_SCRIPTS_LOADED__ w = true ->
                 exists i p, (body w ++ added) !! i = Some (mkScript MR_WIDGET_URL p LoadFired)).
    { intros Ht. destruct (B Ht) as (i & p & Hi). exists i, p.
      apply lookup_app_l_Some. exact Hi. }
    destruct Hcase as [(-> & -> & Ht & Hdt)|[(-> & -> & Hf & Hdt)|(-> & -> & Hdf)]].
    + rewrite app_nil_r. repeat split; auto; intros;
        match goal with
        | H : (_ ++ [_]) !! _ = Some _ |- _ =>
            apply lookup_app_Some in H as [H|[_ H]];
            [eauto | apply list_lookup_singleton_Some in H as [_ H]; discriminate H]
        end.
    + repeat split; auto; intros;
        match goal with
        | H : (_ ++ [_]) !! _ = Some _ |- _ =>
            apply lookup_app_Some in H as [H|[_ H]];
            [eauto | apply list_lookup_singleton_Some in H as [_ H]; discriminate H]
        end.
    + repeat split; auto.
      * intros j sc H Hs. apply lookup_appended in H as [H|[_ ->]]; [eauto | discriminate Hs].
      * intros q H. apply lookup_app_Some in H as [H|[_ H]]; [eauto|].
        apply list_lookup_singleton_Some in H as [_ H]. discriminate H.
      * intros q e H. apply lookup_app_Some in H as [H|[_ H]]; [eauto|].
        apply list_lookup_singleton_Some in H as [_ H]. discriminate H.
  - rewrite Hd, Hl. destruct (settle_effect p Fulfilled w) as (_ & _ & _ & Hs).
    destruct Hcase as [(Ht & Hb & Hp)|(Hf & Hb & Hp)]; rewrite Hb, Hp.
    + repeat split; auto.
      * intros _. destruct (B Ht) as (i0 & p0 & H0). exists i0, p0.
        eapply loaded_script_survives; [exact H0 | reflexivity | exact Hi | reflexivity].
      * intros q e H. apply Hs in H as [H|H]; [eauto | discriminate H].
    + repeat split; auto. intros Ht. congruence.
  - rewrite Hd, Hl, Hb, Hp. destruct (settle_effect p Fulfilled w) as (_ & _ & _ & Hs).
    repeat split; auto.
    + intros j sc H Hsrc. exact (A i _ Hi eq_refl).
    + intros _. exists i, p. apply list_lookup_insert_eq.
      apply lookup_lt_Some in Hi. exact Hi.
    + intros q e H. apply Hs in H as [H|H]; [eauto | discriminate H].
  - rewrite Hd, Hl, Hb, Hp.
    destruct (settle_effect p (Rejected (load_failure u)) w) as (_ & _ & _ & Hs).
    repeat split.
    + intros j sc H Hsrc.
      apply list_lookup_insert_Some in H as [(-> & <- & _)|(_ & H)].
      * simpl in Hsrc. exact (A j _ Hi Hsrc).
      * eauto.
    + intros Ht. destruct (B Ht) as (i0 & p0 & H0). exists i0, p0.
      eapply loaded_script_survives; [exact H0 | reflexivity | exact Hi | reflexivity].
    + intros q H. apply Hs in H as [H|H]; [eauto | discriminate H].
    + intros q e H. apply Hs in H as [H|H]; [eauto|].
      injection H as ->. destruct u; auto.
Qed.

Lemma steps_load_state_sound (w0 w : World) :
  load_state_sound w0 -> steps picker w0 w -> load_state_sound w.
Proof.
  intros H0 Hs. induction Hs as [w|w1 w2 w3 Hs IH Hstep]; [exact H0|].
  eapply load_change_sound; [apply IH, H0 | apply step_load_change, Hstep].
Qed.

(** X6. In every execution that starts from a page with a sound load state (a
    fresh page in particular), a fulfilled [loadScripts] promise means that the
    resources are really there: [__MR_WIDGET_SCRIPTS_LOADED__] is set,
    [window.$] is set, and some widget script element has fired its load
    event.  So [initWidget], which runs after the [await], never runs before
    the widget script has loaded. *)
Theorem fulfilled_promise_means_loaded (w0 w : World) (p : nat) :
  load_state_sound w0 -> steps picker w0 w ->
  promises w !! p = Some Fulfilled ->
  __MR_WIDGET_SCRIPTS_LOADED__ w = true
  /\ truthy_dollar (dollar w) = true
  /\ exists i q, body w !! i = Some (mkScript MR_WIDGET_URL q LoadFired).
Proof.
  intros H0 Hs Hp.
  destruct (steps_load_state_sound w0 w H0 Hs) as (A & B & C & _).
  pose proof (C p Hp) as Hl. destruct (B Hl) as (i & q & Hi).
  split; [exact Hl|]. split; [|exists i, q; exact Hi].
  exact (A i _ Hi eq_refl).
Qed.


End LoadStateSound.

Lemma fresh_page_load_state_sound : load_state_sound fresh_page.
Proof.
  unfold load_state_sound. simpl. repeat split; intros; discriminate.
Qed.

Lemma fulfilled_promise_means_loaded_witness :
  __MR_WIDGET_SCRIPTS_LOADED__ (snd first_attached) = true
  /\ truthy_dollar (dollar (snd first_attached)) = true
  /\ exists i q, body (snd first_attached) !! i = Some (mkScript MR_WIDGET_URL q LoadFired).
Proof.
  apply (fulfilled_promise_means_loaded rendering_picker fresh_page (snd first_attached) 0
           fresh_page_load_state_sound).
  - unfold first_attached.
    pose proof (mountComponent_steps rendering_picker 1 default_props fresh_page) as H1.
    destruct (mountComponent 1 default_props fresh_page) as [s w1]. simpl in H1.
    eapply steps_trans; [|apply settleSession_steps].
    eapply steps_snoc; [|apply step_fireLoad].
    eapply steps_snoc; [|apply step_fireLoad].
    exact H1.
  - vm_compute. reflexivity.
Defined.


(** ** What the widget is called with, and attaching *)

Lemma normalizeBrandId_length (x y : jsstring) :
  normalizeBrandId x = Normal y -> length y = 8.
Proof.
  unfold normalizeBrandId.
  destruct (negb (truthy_string x)); [discriminate|].
  destruct (Nat.ltb_spec 8 (length (trim x))) as [|H8]; [discriminate|].
  destruct (Nat.eqb (length (trim x)) 0); [discriminate|].
  rewrite padEnd_spaces by exact H8. intros E. injection E as <-.
  apply padded_length, H8.
Qed.

Lemma settle_trace (p : nat) (st : promise_state) (w : World) :
  trace (settle p st w) = trace w.
Proof. apply settle_frame. Qed.


Section Attaching.

Variable picker : MRWidgetConfig -> World -> completion unit * option jsstring.

Lemma step_trace (w w' : World) :
  step picker w w' ->
  exists evs, trace w' = trace w ++ evs
              /\ forall cfg, In (EvPickerCall cfg) evs ->
                             length (Brand cfg) = 8 /\ Target cfg = js "#Target_Widget".
Proof.
  intros H. destruct H as [w|m w|m pr w|w|args w|z w|i w|i w].
  - exists []. rewrite app_nil_r. split; [apply injectCSS_frame | intros cfg []].
  - unfold loadScripts, new_promise, loadMRWidget, resolve, appendChild. simpl.
    destruct (__MR_WIDGET_SCRIPTS_LOADED__ w); destruct (truthy_dollar (dollar w)); simpl;
      rewrite ?settle_trace; simpl; rewrite <- ?app_assoc;
      eexists; (split; [reflexivity|]); simpl; intros cfg Hin;
      repeat (destruct Hin as [Hin|Hin]; [discriminate Hin|]); destruct Hin.
  - destruct (clear_previous_frame w) as (_ & _ & Ht & _).
    unfold initWidget.
    destruct (negb (truthy_dollar (dollar w)) || negb (is_function (dollar w))).
    { exists []. rewrite app_nil_r. split; [reflexivity | intros cfg []]. }
    destruct (normalizeBrandId (the_brandIdAPI pr)) as [b|e] eqn:Hn.
    2:{ exists []. rewrite app_nil_r. simpl. split; [exact Ht | intros cfg []]. }
    pose proof (normalizeBrandId_length _ _ Hn) as Hlen.
    destruct (picker _ _) as [[u|e] z]; simpl; rewrite Ht, <- ?app_assoc;
      eexists; (split; [reflexivity|]); simpl; intros cfg Hin.
    + destruct Hin as [Hin|[Hin|[]]]; [|discriminate Hin].
      injection Hin as <-. split; [exact Hlen | reflexivity].
    + destruct Hin as [Hin|[]]. injection Hin as <-. split; [exact Hlen | reflexivity].
  - exists []. rewrite app_nil_r. split; [apply clear_zone_frame | intros cfg []].
  - exists []. rewrite app_nil_r. split; [reflexivity | intros cfg []].
  - exists []. rewrite app_nil_r. split; [reflexivity | intros cfg []].
  - unfold fireLoad. destruct (body w !! i) as [[u p st]|] eqn:Hi.
    2:{ exists []. rewrite app_nil_r. split; [reflexivity | intros cfg []]. }
    destruct st.
    2,3: exists []; rewrite app_nil_r; split; [reflexivity | intros cfg []].
    assert (Hm : trace (mark_script i LoadFired w) = trace w)
      by (unfold mark_script; rewrite Hi; reflexivity).
    assert (Hf : __MR_WIDGET_SCRIPTS_LOADED__ (mark_script i LoadFired w)
                 = __MR_WIDGET_SCRIPTS_LOADED__ w)
      by (unfold mark_script; rewrite Hi; reflexivity).
    destruct u; unfold onload, execute_script, loadMRWidget, resolve, appendChild; simpl.
    + rewrite Hf. destruct (__MR_WIDGET_SCRIPTS_LOADED__ w); simpl;
        rewrite ?settle_trace; simpl; rewrite Hm, <- ?app_assoc;
        eexists; (split; [reflexivity|]); simpl; intros cfg Hin;
        repeat (destruct Hin as [Hin|Hin]; [discriminate Hin|]); destruct Hin.
    + rewrite settle_trace. simpl. rewrite Hm.
      eexists; (split; [reflexivity|]); simpl; intros cfg Hin.
      destruct Hin as [Hin|[]]. discriminate Hin.
  - unfold fireError. destruct (body w !! i) as [[u p st]|] eqn:Hi.
    2:{ exists []. rewrite app_nil_r. split; [reflexivity | intros cfg []]. }
    destruct st.
    2,3: exists []; rewrite app_nil_r; split; [reflexivity | intros cfg []].
    assert (Hm : trace (mark_script i ErrorFired w) = trace w)
      by (unfold mark_script; rewrite Hi; reflexivity).
    destruct u; unfold onerror, reject; simpl; rewrite settle_trace; simpl; rewrite Hm;
      eexists; (split; [reflexivity|]); simpl; intros cfg Hin;
      (destruct Hin as [Hin|[]]; discriminate Hin).
Qed.

(** X8. In every execution from a page whose trace holds only well-formed
    widget calls (a fresh page in particular), every call of
    [MR_ParcelShopPicker] made by [initWidget] carries a brand of exactly 8
    code units and the target selector "#Target_Widget": the widget is never
    called with an identifier that was not normalised. *)
Theorem widget_always_gets_normalized_brand (w0 w : World) :
  picker_calls_well_formed w0 -> steps picker w0 w -> picker_calls_well_formed w.
Proof.
  intros H0 Hs. induction Hs as [w|w1 w2 w3 Hs IH Hstep]; [exact H0|].
  destruct (step_trace _ _ Hstep) as (evs & Ht & Hevs).
  intros cfg Hin. rewrite Ht in Hin. apply in_app_or in Hin as [Hin|Hin].
  - apply (IH H0), Hin.
  - apply Hevs, Hin.
Qed.


End Attaching.

Lemma fresh_page_calls_well_formed : picker_calls_well_formed fresh_page.
Proof. intros cfg []. Qed.

Lemma widget_always_gets_normalized_brand_witness :
  picker_calls_well_formed (snd first_attached).
Proof.
  apply (widget_always_gets_normalized_brand rendering_picker fresh_page
           (snd first_attached) fresh_page_calls_well_formed).
  unfold first_attached.
  pose proof (mountComponent_steps rendering_picker 1 default_props fresh_page) as H1.
  destruct (mountComponent 1 default_props fresh_page) as [s w1]. simpl in H1.
  eapply steps_trans; [|apply settleSession_steps].
  eapply steps_snoc; [|apply step_fireLoad].
  eapply steps_snoc; [|apply step_fireLoad].
  exact H1.
Defined.


(** ** Mounting, failing and rendering *)

Lemma console_lines_world (lines : list jsstring) (w : World) :
  in_browser (fold_left (fun w l => console_error [CStr l] w) lines w) = in_browser w
  /\ promises (fold_left (fun w l => console_error [CStr l] w) lines w) = promises w
  /\ body (fold_left (fun w l => console_error [CStr l] w) lines w) = body w
  /\ dollar (fold_left (fun w l => console_error [CStr l] w) lines w) = dollar w
  /\ __MR_WIDGET_SCRIPTS_LOADED__ (fold_left (fun w l => console_error [CStr l] w) lines w)
     = __MR_WIDGET_SCRIPTS_LOADED__ w
  /\ Zone_Widget (fold_left (fun w l => console_error [CStr l] w) lines w) = Zone_Widget w
  /\ trace (fold_left (fun w l => console_error [CStr l] w) lines w) = trace w.
Proof.
  revert w. induction lines as [|l lines IH]; intros w; simpl; [repeat split|].
  destruct (IH (console_error [CStr l] w)) as (-> & -> & -> & -> & -> & -> & ->).
  repeat split.
Qed.

Lemma loadScripts_promise (m : nat) (w : World) :
  fst (loadScripts m w) = length (promises w)
  /\ mr_widget_style (snd (loadScripts m w)) = mr_widget_style w
  /\ in_browser (snd (loadScripts m w)) = in_browser w
  /\ Zone_Widget (snd (loadScripts m w)) = Zone_Widget w.
Proof.
  unfold loadScripts, new_promise, loadMRWidget, resolve, settle, appendChild. simpl.
  destruct (__MR_WIDGET_SCRIPTS_LOADED__ w); destruct (truthy_dollar (dollar w)); simpl;
    try (destruct ((promises w ++ [Pending]) !! length (promises w)) as [[| |]|]);
    simpl; repeat split.
Qed.

(** X10. A brand identifier that does not normalise stops the component at
    validation: in a browser, mounting records the normalisation message as
    the session's error and logs it; the session is not ready, nothing is
    loaded or awaited and no cleanup is registered; the component renders the
    error panel with that message; and unmounting such a session changes
    nothing. *)
Theorem mount_with_invalid_brand (id : nat) (pr : Props) (w : World) (e : exn) :
  isBrowser w = true -> normalizeBrandId (the_brandIdAPI pr) = Throw e ->
  mountComponent id pr w
  = (mkSession id pr false (Some (error_message e (js "Unknown error"))) false false [],
     console_error [CStr (error_message e (js "Unknown error"))] w)
  /\ render (fst (mountComponent id pr w)) (snd (mountComponent id pr w))
     = RenderErrorPanel (error_message e (js "Unknown error"))
  /\ unmountComponent (fst (mountComponent id pr w)) (snd (mountComponent id pr w))
     = mountComponent id pr w.
Proof.
  intros Hb Hn.
  assert (E : mountComponent id pr w
              = (mkSession id pr false (Some (error_message e (js "Unknown error")))
                   false false [],
                 console_error [CStr (error_message e (js "Unknown error"))] w)).
  { unfold mountComponent, validateEffect. rewrite Hb, Hn. simpl.
    unfold initEffect. simpl. rewrite orb_true_r. simpl.
    unfold rerunInitEffect. simpl. unfold initEffect. simpl. rewrite orb_true_r.
    reflexivity. }
  rewrite E. split; [reflexivity|]. split; [|reflexivity].
  unfold render. simpl. unfold isBrowser in Hb. rewrite Hb. simpl.
  rewrite (normalizeBrandId_error_message _ _ Hn). reflexivity.
Qed.

Lemma mount_with_invalid_brand_witness :
  render (fst (mountComponent 1 (mkProps None None (Some (js "TOOLONGID")) None None None None)
                 fresh_page))
         (snd (mountComponent 1 (mkProps None None (Some (js "TOOLONGID")) None None None None)
                 fresh_page))
  = RenderErrorPanel (MSG_BRAND_TOO_LONG (js "TOOLONGID")).
Proof.
  apply (proj1 (proj2 (mount_with_invalid_brand 1
                         (mkProps None None (Some (js "TOOLONGID")) None None None None)
                         fresh_page (JsError (MSG_BRAND_TOO_LONG (js "TOOLONGID")))
                         eq_refl eq_refl))).
Defined.

(** X11. A valid brand identifier, whatever the delivery mode: in a browser,
    mounting makes the session ready without error, sets [widgetInitialized],
    injects the style, starts the loading chain exactly once and awaits exactly
    the promise it created, registers the cleanup, and renders the zone. *)
Theorem mount_with_valid_brand (id : nat) (pr : Props) (w : World) (b : jsstring) :
  isBrowser w = true -> normalizeBrandId (the_brandIdAPI pr) = Normal b ->
  isReady (fst (mountComponent id pr w)) = true
  /\ error (fst (mountComponent id pr w)) = None
  /\ widgetInitialized (fst (mountComponent id pr w)) = true
  /\ hasCleanup (fst (mountComponent id pr w)) = true
  /\ awaiting (fst (mountComponent id pr w)) = [(length (promises w), pr)]
  /\ chain_starts id (trace (snd (mountComponent id pr w))) = S (chain_starts id (trace w))
  /\ mr_widget_style (snd (mountComponent id pr w)) = true
  /\ render (fst (mountComponent id pr w)) (snd (mountComponent id pr w)) = RenderWidget.
Proof.
  intros Hb Hn. unfold mountComponent, validateEffect. rewrite Hb, Hn. simpl negb. cbv iota.
  set (w1 := fold_left (fun w l => console_error [CStr l] w)
               (validateDeliveryMode (Some (the_deliveryMode pr))) w).
  destruct (console_lines_world (validateDeliveryMode (Some (the_deliveryMode pr))) w)
    as (Hb1 & Hp1 & _ & _ & _ & _ & Ht1).
  fold w1 in Hb1, Hp1, Ht1.
  assert (E0 : initEffect (mkSession id pr false None false false []) w1
               = (mkSession id pr false None false false [], w1)).
  { unfold initEffect. simpl. rewrite orb_true_r. reflexivity. }
  rewrite E0. simpl applyUpdate.
  unfold rerunInitEffect. simpl.
  unfold initEffect. simpl. unfold isBrowser in *. rewrite Hb1, Hb. simpl.
  unfold initializeWidget. simpl.
  destruct (loadScripts_promise id (injectCSS w1)) as (Hf & Hst & Hbr & _).
  destruct (loadScripts_starts_chain id (injectCSS w1)) as [Hc _].
  destruct (injectCSS_frame w1) as [Hti Hbi].
  destruct (loadScripts id (injectCSS w1)) as [p w2]. simpl in *.
  subst p.
  assert (Hpi : promises (injectCSS w1) = promises w1)
    by (unfold injectCSS; destruct (mr_widget_style w1); reflexivity).
  assert (Hsi : mr_widget_style (injectCSS w1) = true)
    by (unfold injectCSS; destruct (mr_widget_style w1) eqn:Hs; [exact Hs | reflexivity]).
  rewrite Hpi, Hp1. repeat split.
  - rewrite Hc, Hti, Ht1. reflexivity.
  - rewrite Hst. exact Hsi.
  - unfold render. simpl. unfold isBrowser. rewrite Hbr, Hbi, Hb1, Hb. reflexivity.
Qed.

Lemma mount_with_valid_brand_witness :
  awaiting (fst (mountComponent 1 zzz_props fresh_page)) = [(0, zzz_props)].
Proof.
  apply (proj1 (proj2 (proj2 (proj2 (proj2
           (mount_with_valid_brand 1 zzz_props fresh_page (js "BDTEST  ")
              eq_refl eq_refl)))))).
Defined.

(** X12. Outside a browser the component is inert: mounting, changing props
    and unmounting leave the world exactly as it is (no style, no script
    element, no promise, no console line), the session never becomes ready,
    and the component renders nothing. *)
Theorem server_side_is_inert (w : World) :
  isBrowser w = false ->
  (forall id pr, snd (mountComponent id pr w) = w
                 /\ isReady (fst (mountComponent id pr w)) = false
                 /\ hasCleanup (fst (mountComponent id pr w)) = false)
  /\ (forall pr' s, snd (changeProps pr' s w) = w)
  /\ (forall s, unmountComponent s w = (s, w))
  /\ (forall s, render s w = RenderNull).
Proof.
  intros Hb.
  assert (Hi : forall s, initEffect s w = (set_hasCleanup false s, w))
    by (intros s; apply initEffect_blocked; rewrite Hb; reflexivity).
  assert (Hc : forall s, effectCleanup s w = (s, w))
    by (intros s; unfold effectCleanup; rewrite Hb; reflexivity).
  assert (Hv : forall pr, validateEffect pr w = (NoUpdate, w))
    by (intros pr; unfold validateEffect; rewrite Hb; reflexivity).
  split; [|split; [|split]].
  - intros id pr. unfold mountComponent. rewrite Hv, Hi. simpl. repeat split.
  - intros pr' s. unfold changeProps.
    destruct (deps2_changed (props s) pr'); destruct (hasCleanup (set_props pr' s));
      destruct (deps1_changed (props s) pr'); cbn [andb];
      rewrite ?Hc; cbv iota beta; rewrite ?Hv; cbv iota beta; rewrite ?Hi; reflexivity.
  - intros s. unfold unmountComponent. rewrite Hc. destruct (hasCleanup s); reflexivity.
  - intros s. unfold render. rewrite Hb. reflexivity.
Qed.

Lemma server_side_is_inert_witness :
  snd (mountComponent 1 default_props
         (mkWorld false DollarUndefined false false false [] None [] [] []))
  = mkWorld false DollarUndefined false false false [] None [] [] [].
Proof.
  apply (proj1 (server_side_is_inert
                  (mkWorld false DollarUndefined false false false [] None [] [] [])
                  eq_refl)).
Defined.

Section Failing.

Variable picker : MRWidgetConfig -> World -> completion unit * option jsstring.

(** After the [catch] block, the render caused by [setError] runs the cleanup
    of the effect (when one is registered) and the new run is stopped by the
    guard. *)
Lemma catch_enters_error (e : exn) (s : Session) (w : World) :
  isBrowser w = true -> error s = None ->
  truthy_string (error_message e (js "Failed to initialize widget")) = true ->
  error (fst (rerunInitEffect (fst (initializeWidget_catch e s w))
                (snd (initializeWidget_catch e s w))))
  = Some (error_message e (js "Failed to initialize widget"))
  /\ widgetInitialized (fst (rerunInitEffect (fst (initializeWidget_catch e s w))
                               (snd (initializeWidget_catch e s w)))) = false
  /\ hasCleanup (fst (rerunInitEffect (fst (initializeWidget_catch e s w))
                        (snd (initializeWidget_catch e s w)))) = false
  /\ body (snd (rerunInitEffect (fst (initializeWidget_catch e s w))
                  (snd (initializeWidget_catch e s w)))) = body w
  /\ promises (snd (rerunInitEffect (fst (initializeWidget_catch e s w))
                      (snd (initializeWidget_catch e s w)))) = promises w
  /\ trace (snd (rerunInitEffect (fst (initializeWidget_catch e s w))
                   (snd (initializeWidget_catch e s w)))) = trace w
  /\ render (fst (rerunInitEffect (fst (initializeWidget_catch e s w))
                    (snd (initializeWidget_catch e s w))))
            (snd (rerunInitEffect (fst (initializeWidget_catch e s w))
                    (snd (initializeWidget_catch e s w))))
     = RenderErrorPanel (error_message e (js "Failed to initialize widget")).
Proof.
  intros Hb He Hm. unfold initializeWidget_catch. simpl.
  unfold rerunInitEffect, effectCleanup. simpl. unfold isBrowser in *. rewrite Hb.
  destruct (hasCleanup s); simpl.
  - rewrite initEffect_blocked by (simpl; rewrite Hm; apply orb_true_r). simpl.
    unfold clear_zone. simpl. destruct (Zone_Widget w); simpl; repeat split;
      unfold render, isBrowser; simpl; rewrite Hb, Hm; reflexivity.
  - rewrite initEffect_blocked by (simpl; rewrite Hm; apply orb_true_r). simpl.
    repeat split. unfold render, isBrowser. simpl. rewrite Hb, Hm. reflexivity.
Qed.

(** X13. A failed script load is surfaced: when the awaited promise has been
    rejected with an error of non-empty message, a session without error ends
    in the error state with that message, its [widgetInitialized] flag reset
    and no cleanup registered, renders the error panel, and neither appends a
    script element nor starts another chain. *)
Theorem load_failure_enters_error (s : Session) (p : nat) (pr : Props) (w : World) (e : exn) :
  isBrowser w = true -> error s = None ->
  promises w !! p = Some (Rejected e) ->
  truthy_string (error_message e (js "Failed to initialize widget")) = true ->
  error (fst (settleSession picker s p pr w))
  = Some (error_message e (js "Failed to initialize widget"))
  /\ widgetInitialized (fst (settleSession picker s p pr w)) = false
  /\ hasCleanup (fst (settleSession picker s p pr w)) = false
  /\ body (snd (settleSession picker s p pr w)) = body w
  /\ promises (snd (settleSession picker s p pr w)) = promises w
  /\ trace (snd (settleSession picker s p pr w)) = trace w
  /\ render (fst (settleSession picker s p pr w)) (snd (settleSession picker s p pr w))
     = RenderErrorPanel (error_message e (js "Failed to initialize widget")).
Proof.
  intros Hb He Hp Hm.
  assert (E : settleSession picker s p pr w
              = rerunInitEffect (fst (initializeWidget_catch e s w))
                  (snd (initializeWidget_catch e s w))).
  { unfold settleSession, initializeWidget_resume. rewrite Hp.
    unfold initializeWidget_catch. simpl. rewrite He.
    rewrite bool_decide_eq_false_2 by discriminate. reflexivity. }
  rewrite E. apply catch_enters_error; assumption.
Qed.

(** X14. A failed attach is surfaced in the same way: when the promise is
    fulfilled but [initWidget] throws an error of non-empty message (the widget
    call threw), the session ends in the error state with that message, its
    flag reset and no cleanup registered, and renders the error panel. *)
Theorem attach_failure_enters_error (s : Session) (p : nat) (pr : Props) (w w1 : World)
    (e : exn) :
  isBrowser w = true -> error s = None ->
  promises w !! p = Some Fulfilled ->
  initWidget picker (mount s) pr w = (Throw e, w1) ->
  truthy_string (error_message e (js "Failed to initialize widget")) = true ->
  error (fst (settleSession picker s p pr w))
  = Some (error_message e (js "Failed to initialize widget"))
  /\ widgetInitialized (fst (settleSession picker s p pr w)) = false
  /\ hasCleanup (fst (settleSession picker s p pr w)) = false
  /\ body (snd (settleSession picker s p pr w)) = body w
  /\ render (fst (settleSession picker s p pr w)) (snd (settleSession picker s p pr w))
     = RenderErrorPanel (error_message e (js "Failed to initialize widget")).
Proof.
  intros Hb He Hp Hi Hm.
  assert (Hb1 : isBrowser w1 = true).
  { destruct (step_monotone picker w w1) as (_ & _ & _ & H & _).
    - replace w1 with (snd (initWidget picker (mount s) pr w)) by (rewrite Hi; reflexivity).
      apply step_initWidget.
    - unfold isBrowser. rewrite H. exact Hb. }
  assert (Hbody : body w1 = body w).
  { destruct (initWidget_loader_frame picker (mount s) pr w) as (H & _).
    rewrite Hi in H. exact H. }
  assert (E : settleSession picker s p pr w
              = rerunInitEffect (fst (initializeWidget_catch e s w1))
                  (snd (initializeWidget_catch e s w1))).
  { unfold settleSession, initializeWidget_resume. rewrite Hp, Hi.
    unfold initializeWidget_catch. simpl. rewrite He.
    rewrite bool_decide_eq_false_2 by discriminate. reflexivity. }
  rewrite E.
  destruct (catch_enters_error e s w1 Hb1 He Hm) as (H1 & H2 & H3 & H4 & _ & _ & H7).
  rewrite H4. repeat split; assumption.
Qed.

End Failing.

Lemma load_failure_enters_error_witness :
  error (fst (settleSession rendering_picker
                (fst (mountComponent 1 default_props fresh_page)) 0 default_props
                (fireError 0 (snd (mountComponent 1 default_props fresh_page)))))
  = Some MSG_JQUERY_FAILED.
Proof.
  apply (proj1 (load_failure_enters_error rendering_picker
                  (fst (mountComponent 1 default_props fresh_page)) 0 default_props
                  (fireError 0 (snd (mountComponent 1 default_props fresh_page)))
                  (JsError MSG_JQUERY_FAILED) eq_refl eq_refl eq_refl eq_refl)).
Defined.

Lemma attach_failure_enters_error_witness :
  hasCleanup (fst (settleSession throwing_picker
                     (fst (mountComponent 1 default_props loaded_page)) 1 default_props
                     (snd (mountComponent 1 default_props loaded_page))))
  = false.
Proof.
  refine (proj1 (proj2 (proj2
            (attach_failure_enters_error throwing_picker
               (fst (mountComponent 1 default_props loaded_page)) 1 default_props
               (snd (mountComponent 1 default_props loaded_page))
               (snd (initWidget throwing_picker 1 default_props
                       (snd (mountComponent 1 default_props loaded_page))))
               (JsError (js "MR_ParcelShopPicker is not a function"))
               _ _ _ _ _)))); vm_compute; reflexivity.
Defined.

(** X15. Remounting is free once the scripts are loaded: in a browser, on a
    page with [__MR_WIDGET_SCRIPTS_LOADED__] and [window.$] set, mounting a
    component with a valid brand appends no script element, and the promise it
    awaits is fulfilled already. *)
Theorem mount_on_loaded_page (id : nat) (pr : Props) (w : World) (b : jsstring) :
  isBrowser w = true -> normalizeBrandId (the_brandIdAPI pr) = Normal b ->
  __MR_WIDGET_SCRIPTS_LOADED__ w = true -> truthy_dollar (dollar w) = true ->
  body (snd (mountComponent id pr w)) = body w
  /\ promises (snd (mountComponent id pr w)) = promises w ++ [Fulfilled]
  /\ awaiting (fst (mountComponent id pr w)) = [(length (promises w), pr)].
Proof.
  intros Hb Hn Hl Hd. unfold mountComponent, validateEffect. rewrite Hb, Hn.
  simpl negb. cbv iota.
  set (w1 := fold_left (fun w l => console_error [CStr l] w)
               (validateDeliveryMode (Some (the_deliveryMode pr))) w).
  destruct (console_lines_world (validateDeliveryMode (Some (the_deliveryMode pr))) w)
    as (Hb1 & Hp1 & Hbd1 & Hd1 & Hl1 & _ & _).
  fold w1 in Hb1, Hp1, Hbd1, Hd1, Hl1.
  assert (E0 : initEffect (mkSession id pr false None false false []) w1
               = (mkSession id pr false None false false [], w1)).
  { unfold initEffect. simpl. rewrite orb_true_r. reflexivity. }
  rewrite E0. simpl applyUpdate.
  unfold rerunInitEffect. simpl.
  unfold initEffect. simpl. unfold isBrowser in *. rewrite Hb1, Hb. simpl.
  unfold initializeWidget. simpl.
  assert (Hi : promises (injectCSS w1) = promises w /\ body (injectCSS w1) = body w
               /\ __MR_WIDGET_SCRIPTS_LOADED__ (injectCSS w1) = true
               /\ truthy_dollar (dollar (injectCSS w1)) = true).
  { unfold injectCSS. destruct (mr_widget_style w1); simpl;
      rewrite ?Hp1, ?Hbd1, ?Hl1, ?Hd1; auto. }
  destruct Hi as (Hpi & Hbi & Hli & Hdi).
  destruct (loadScripts_after_load id (injectCSS w1) Hli Hdi) as [Hbody Hprom].
  destruct (loadScripts_promise id (injectCSS w1)) as (Hf & _).
  destruct (loadScripts id (injectCSS w1)) as [p w2]. simpl in *. subst p.
  rewrite Hbody, Hprom, Hbi, Hpi. repeat split.
Qed.

Lemma mount_on_loaded_page_witness :
  body (snd (mountComponent 2 default_props loaded_page)) = body loaded_page.
Proof.
  apply (proj1 (mount_on_loaded_page 2 default_props loaded_page (js "BDTEST  ")
                  eq_refl eq_refl eq_refl eq_refl)).
Defined.

(** ** Brand identifiers and surrounding white space *)

Lemma trimStart_blank (s : jsstring) : blank s -> trimStart s = [].
Proof.
  unfold blank. induction s as [|c s IH]; simpl; [reflexivity|].
  intros H. apply andb_true_iff in H as [Hc Hs]. rewrite Hc. apply IH, Hs.
Qed.

Lemma blank_rev (s : jsstring) : blank s -> blank (rev s).
Proof.
  unfold blank. rewrite !forallb_forall. intros H c Hc. apply H, in_rev, Hc.
Qed.

Lemma trimStart_app_blank (x b : jsstring) :
  blank b -> trimStart (x ++ b) = match trimStart x with [] => [] | _ => trimStart x ++ b end.
Proof.
  intros Hb. induction x as [|c x IH]; simpl.
  - apply trimStart_blank, Hb.
  - destruct (is_white_space c); [exact IH | reflexivity].
Qed.

Lemma trimEnd_app_blank (y b : jsstring) : blank b -> trimEnd (y ++ b) = trimEnd y.
Proof.
  intros Hb. unfold trimEnd. rewrite rev_app_distr.
  rewrite trimStart_skips_blanks; [reflexivity | apply blank_rev, Hb].
Qed.

Lemma trim_surrounded (a x b : jsstring) :
  blank a -> blank b -> trim (a ++ x ++ b) = trim x.
Proof.
  intros Ha Hb. unfold trim.
  rewrite trimStart_skips_blanks by exact Ha.
  rewrite trimStart_app_blank by exact Hb.
  destruct (trimStart x) eqn:Hx; [reflexivity|].
  rewrite <- Hx. apply trimEnd_app_blank, Hb.
Qed.

(** X16. White space around a brand identifier is irrelevant: for a non-empty
    identifier [x], surrounding it with any white space (spaces, tabs, line
    terminators, no-break spaces, ...) gives the same result, value or error,
    as [x] itself. *)
Theorem normalizeBrandId_ignores_surrounding_blanks (a x b : jsstring) :
  blank a -> blank b -> x <> [] ->
  normalizeBrandId (a ++ x ++ b) = normalizeBrandId x.
Proof.
  intros Ha Hb Hx. unfold normalizeBrandId.
  rewrite (trim_surrounded a x b Ha Hb).
  assert (T1 : truthy_string (a ++ x ++ b) = true).
  { destruct a; simpl; [|reflexivity]. destruct x; [congruence | reflexivity]. }
  assert (T2 : truthy_string x = true) by (destruct x; [congruence | reflexivity]).
  rewrite T1, T2. reflexivity.
Qed.

Lemma normalizeBrandId_ignores_surrounding_blanks_witness :
  normalizeBrandId ([9; 32]%N ++ js "BDTEST" ++ [160; 10]%N) = normalizeBrandId (js "BDTEST").
Proof.
  apply normalizeBrandId_ignores_surrounding_blanks.
  - vm_compute. reflexivity.
  - vm_compute. reflexivity.
  - vm_compute. discriminate.
Defined.

(** X17. Normalisation loses nothing: when [normalizeBrandId x] succeeds with
    [y], then [y] has 8 code units, begins with the trimmed identifier, and
    trimming [y] gives the trimmed identifier back. *)
Theorem normalizeBrandId_keeps_identifier (x y : jsstring) :
  normalizeBrandId x = Normal y ->
  length y = 8
  /\ firstn (length (trim x)) y = trim x
  /\ trim y = trim x.
Proof.
  intros H. split; [eapply normalizeBrandId_length, H|].
  revert H. unfold normalizeBrandId.
  destruct (negb (truthy_string x)); [discriminate|].
  destruct (Nat.ltb_spec 8 (length (trim x))) as [|H8]; [discriminate|].
  destruct (Nat.eqb_spec (length (trim x)) 0) as [|H0]; [discriminate|].
  rewrite padEnd_spaces by exact H8. intros E. injection E as <-.
  split; [apply take_app_length|].
  destruct (trim_clean x) as [Hs He].
  apply trim_padded; [|exact Hs|exact He].
  intros E. apply H0. rewrite E. reflexivity.
Qed.

Lemma normalizeBrandId_keeps_identifier_witness :
  trim (js "BDTEST  ") = trim (js " BDTEST").
Proof.
  apply (proj2 (proj2 (normalizeBrandId_keeps_identifier (js " BDTEST") (js "BDTEST  ")
                         eq_refl))).
Defined.

(** ** The selection callback *)

Lemma jsstring_eqb_refl (k : jsstring) : jsstring_eqb k k = true.
Proof. unfold jsstring_eqb. apply bool_decide_eq_true_2. reflexivity. Qed.

Lemma jsstring_eqb_ne (k k' : jsstring) : k <> k' -> jsstring_eqb k k' = false.
Proof. intros H. unfold jsstring_eqb. apply bool_decide_eq_false_2. exact H. Qed.

Lemma lookup_set_same (k : jsstring) (v : JsVal) (fields : list (jsstring * JsVal)) :
  lookup_field k (set_field k v fields) = v.
Proof.
  induction fields as [|[k' v'] rest IH]; simpl.
  - rewrite jsstring_eqb_refl. reflexivity.
  - destruct (jsstring_eqb k k') eqn:E; simpl; rewrite E; [reflexivity | exact IH].
Qed.

Lemma lookup_set_other (k k0 : jsstring) (v : JsVal) (fields : list (jsstring * JsVal)) :
  k0 <> k -> lookup_field k0 (set_field k v fields) = lookup_field k0 fields.
Proof.
  intros Hne. induction fields as [|[k' v'] rest IH]; simpl.
  - rewrite jsstring_eqb_ne by exact Hne. reflexivity.
  - destruct (jsstring_eqb k k') eqn:E; simpl.
    + apply bool_decide_eq_true_1 in E. subst k'.
      rewrite jsstring_eqb_ne by exact Hne. reflexivity.
    + destruct (jsstring_eqb k0 k'); [reflexivity | exact IH].
Qed.

Lemma lookup_absent (k : jsstring) (fields : list (jsstring * JsVal)) :
  ~ In k (map fst fields) -> lookup_field k fields = VUndefined.
Proof.
  induction fields as [|[k' v'] rest IH]; simpl; [reflexivity|].
  intros H. rewrite jsstring_eqb_ne by (intros ->; apply H; left; reflexivity).
  apply IH. intros Hin. apply H. right. exact Hin.
Qed.

Lemma jsstring_in_dec (k : jsstring) (l : list jsstring) : {In k l} + {~ In k l}.
Proof. apply in_dec. intros a b. exact (decide (a = b)). Qed.

Lemma lookup_spread (fields acc : list (jsstring * JsVal)) (k : jsstring) :
  distinct_keys fields ->
  (In k (map fst fields) -> lookup_field k (spread (VObj fields) acc) = lookup_field k fields)
  /\ (~ In k (map fst fields) ->
      lookup_field k (spread (VObj fields) acc) = lookup_field k acc).
Proof.
  unfold distinct_keys, spread. revert acc.
  induction fields as [|[k0 v0] rest IH]; intros acc Hd; simpl.
  - split; [intros [] | reflexivity].
  - simpl in Hd. apply List.NoDup_cons_iff in Hd as [Hk0 Hd].
    destruct (IH (set_field k0 v0 acc) Hd) as [I1 I2].
    destruct (decide (k = k0)) as [->|Hne].
    + rewrite jsstring_eqb_refl. split.
      * intros _. rewrite (I2 Hk0). apply lookup_set_same.
      * intros H. exfalso. apply H. left. reflexivity.
    + rewrite (jsstring_eqb_ne k k0 Hne). split.
      * intros [E|Hin]; [exfalso; apply Hne; symmetry; exact E | apply I1, Hin].
      * intros H. rewrite I2 by (intros Hin; apply H; right; exact Hin).
        apply lookup_set_other. exact Hne.
Qed.

(** X18. What the host's [onParcelShopSelected] receives: the property
    [ParcelShopID] is the value of the target input, or the empty string when
    the ref is not set (whatever the widget passed under that key), and every
    other property of the widget's data is forwarded unchanged. *)
Theorem selection_payload_fields (fields : list (jsstring * JsVal)) (current : option jsstring) :
  distinct_keys fields ->
  get (selectionPayload (VObj fields) current) "ParcelShopID"
  = Normal (VStr (match current with Some v => v | None => [] end))
  /\ (forall k : string, js k <> js "ParcelShopID" ->
        get (selectionPayload (VObj fields) current) k = get (VObj fields) k).
Proof.
  intros Hd. unfold selectionPayload, prop, get. split.
  - rewrite lookup_set_same. destruct current; reflexivity.
  - intros k Hk. rewrite lookup_set_other by exact Hk.
    destruct (lookup_spread fields [] (js k) Hd) as [I1 I2].
    destruct (jsstring_in_dec (js k) (map fst fields)) as [Hin|Hnin].
    + rewrite (I1 Hin). reflexivity.
    + rewrite (I2 Hnin), (lookup_absent _ _ Hnin). reflexivity.
Qed.

Lemma selection_payload_fields_witness :
  get (selectionPayload (VObj [(js "ID", VStr (js "012345")); (js "Ville", VStr (js "LILLE"))])
         (Some (js "FR-012345")))
      "ParcelShopID"
  = Normal (VStr (js "FR-012345")).
Proof.
  apply (proj1 (selection_payload_fields
                  [(js "ID", VStr (js "012345")); (js "Ville", VStr (js "LILLE"))]
                  (Some (js "FR-012345")) ltac:(vm_compute; repeat constructor;
                                                 simpl; intuition discriminate))).
Defined.

(** ** Requests and responses of createShipment *)

Lemma is_error_status_object (e : JsVal) :
  is_error_status e = Normal true -> truthy e = true.
Proof.
  unfold is_error_status, bind, get. destruct e; simpl; try discriminate; reflexivity.
Qed.

Lemma find_status_result (items : list JsVal) (v : JsVal) :
  find_status items = Normal v ->
  (v = VUndefined /\ Forall (fun e => is_error_status e = Normal false) items)
  \/ (truthy v = true /\ In v items /\ is_error_status v = Normal true).
Proof.
  induction items as [|e rest IH]; simpl.
  - intros E. injection E as <-. left. split; [reflexivity | constructor].
  - unfold bind. destruct (is_error_status e) as [[|]|x] eqn:He; [| |discriminate].
    + intros E. injection E as <-. right.
      split; [apply is_error_status_object, He|]. split; [left; reflexivity | exact He].
    + intros E. destruct (IH E) as [[-> Hall]|(Ht & Hin & Hs)].
      * left. split; [reflexivity | constructor; assumption].
      * right. split; [exact Ht|]. split; [right; exact Hin | exact Hs].
Qed.


(** X19. [createShipment] never returns a result for a response that lists an
    error: when the response handling returns normally, the raw response it
    returns is the response's [data], and no entry of [data.statusListField]
    has a [levelField] containing "error" (in any letter case). *)
Theorem readResponse_success_has_no_error_status (response : JsVal)
    (r : CreateShipmentResponse) :
  readResponse response = Normal r ->
  get response "data" = Normal (rawResponse r)
  /\ (forall items, get (rawResponse r) "statusListField" = Normal (VArr items) ->
        Forall (fun e => is_error_status e = Normal false) items).
Proof.
  unfold readResponse, bind.
  destruct (get response "data") as [data|x] eqn:Hdata; [|discriminate].
  destruct (get data "statusListField") as [statusList|x] eqn:Hlist; [|discriminate].
  set (found := match statusList with
                | VUndefined | VNull => Normal VUndefined
                | VArr items => find_status items
                | _ => Throw TYPE_ERROR
                end).
  destruct found as [ev|x] eqn:Hev; [|discriminate].
  destruct (truthy ev) eqn:Ht.
  { destruct (get ev "messageField"); discriminate. }
  destruct (get data "shipmentsListField") as [shipments|x]; [|discriminate].
  destruct (first_item shipments) as [first|x]; [|discriminate].
  destruct (get first "shipmentNumberField") as [number|x]; [|discriminate].
  destruct (get first "labelListField") as [labelList|x]; [|discriminate].
  destruct (get labelList "labelField") as [label|x]; [|discriminate].
  destruct (get label "outputField") as [link|x]; [|discriminate].
  intros E. injection E as <-. simpl. split; [reflexivity|].
  intros items Hi. rewrite Hlist in Hi. injection Hi as ->. subst found.
  destruct (find_status_result items ev Hev) as [[_ Hall]|(Ht' & _)].
  - exact Hall.
  - rewrite Ht' in Ht. discriminate Ht.
Qed.

Lemma readResponse_success_has_no_error_status_witness :
  get (VObj [(js "data",
              VObj [(js "shipmentsListField",
                     VArr [VObj [(js "shipmentNumberField", VStr (js "31236189"));
                                 (js "labelListField",
                                  VObj [(js "labelField",
                                         VObj [(js "outputField", VStr (js "url"))])])]])])])
      "data"
  = Normal (VObj [(js "shipmentsListField",
                   VArr [VObj [(js "shipmentNumberField", VStr (js "31236189"));
                               (js "labelListField",
                                VObj [(js "labelField",
                                       VObj [(js "outputField", VStr (js "url"))])])]])]).
Proof.
  refine (proj1 (readResponse_success_has_no_error_status _
                   (mkResponse (VStr (js "31236189")) (VStr (js "url"))
                      (VObj [(js "shipmentsListField",
                              VArr [VObj [(js "shipmentNumberField", VStr (js "31236189"));
                                          (js "labelListField",
                                           VObj [(js "labelField",
                                                  VObj [(js "outputField",
                                                         VStr (js "url"))])])]])])) _)).
  vm_compute. reflexivity.
Defined.



Section Requests.

Variables ShipContextSchema ShipmentSchema ShipOutputOptionsSchema : JsVal -> completion JsVal.
Variable generateXML : JsVal -> completion jsstring.
Variable endpoint : HttpRequest -> completion JsVal.

(** X21. One call issues at most one HTTP request.  When it issues one, the
    request goes to the chosen URL with content type "application/xml", its
    body is the XML generated from the request data, and the outcome of the
    call is the endpoint's failure or the handling of its response. *)
Theorem createShipment_issues_one_request (p : ShipParams) :
  length (snd (createShipment ShipContextSchema ShipmentSchema ShipOutputOptionsSchema
                 generateXML endpoint p)) <= 1
  /\ (forall r,
        In r (snd (createShipment ShipContextSchema ShipmentSchema ShipOutputOptionsSchema
                     generateXML endpoint p)) ->
        url r = API_URL p /\ content_type r = js "application/xml"
        /\ (exists data, requestData (context p) (shipment p) (outputOptions p) = Normal data
                         /\ generateXML data = Normal (payload r))
        /\ fst (createShipment ShipContextSchema ShipmentSchema ShipOutputOptionsSchema
                  generateXML endpoint p)
           = match endpoint r with
             | Normal response => readResponse response
             | Throw e => Throw e
             end).
Proof.
  unfold createShipment.
  destruct (ShipContextSchema (context p)); [|split; [simpl; lia | intros r []]].
  destruct (ShipmentSchema (shipment p)); [|split; [simpl; lia | intros r []]].
  destruct (ShipOutputOptionsSchema (outputOptions p)); [|split; [simpl; lia | intros r []]].
  destruct (credentials_missing (context p)) as [[|]|];
    [split; [simpl; lia | intros r []] | | split; [simpl; lia | intros r []]].
  destruct (requestData (context p) (shipment p) (outputOptions p)) as [data|];
    [|split; [simpl; lia | intros r []]].
  destruct (generateXML data) as [xml|] eqn:Hx; [|split; [simpl; lia | intros r []]].
  destruct (endpoint (mkRequest (API_URL p) xml (js "application/xml"))) eqn:He; simpl;
    (split; [lia|]); intros r [<-|[]]; simpl; rewrite He;
    (split; [reflexivity|]); (split; [reflexivity|]);
    (split; [exists data; split; [reflexivity | exact Hx] | reflexivity]).
Qed.

End Requests.

Lemma createShipment_issues_one_request_witness :
  url (mkRequest V2_URL (js "<xml/>") (js "application/xml")) = API_URL filled_params.
Proof.
  apply (proj2 (createShipment_issues_one_request accept_all accept_all accept_all
                  constant_xml silent_endpoint filled_params)).
  vm_compute. left. reflexivity.
Defined.

Lemma or_else_truthy (a b : JsVal) : truthy b = true -> truthy (or_else a b) = true.
Proof. intros H. unfold or_else. destruct (truthy a) eqn:Ha; assumption. Qed.

(** X22. What is sent for the context and the output options: [Login],
    [Password] and [CustomerId] are the caller's values unchanged; [Culture],
    [VersionAPI], [OutputFormat] and [OutputType] are the caller's values when
    truthy and otherwise the defaults "fr-FR", "1.0", "A4" and "PdfUrl", so
    none of the four is ever sent empty or missing. *)
Theorem requestData_context_and_defaults (ctx shp out data : JsVal) :
  requestData ctx shp out = Normal data ->
  at_path ["ShipmentCreationRequest"; "Context"; "Login"]%string data = get ctx "Login"
  /\ at_path ["ShipmentCreationRequest"; "Context"; "Password"]%string data
     = get ctx "Password"
  /\ at_path ["ShipmentCreationRequest"; "Context"; "CustomerId"]%string data
     = get ctx "CustomerId"
  /\ at_path ["ShipmentCreationRequest"; "Context"; "Culture"]%string data
     = bind (get ctx "Culture") (fun c => Normal (or_else c (VStr (js "fr-FR"))))
  /\ at_path ["ShipmentCreationRequest"; "Context"; "VersionAPI"]%string data
     = bind (get ctx "VersionAPI") (fun c => Normal (or_else c (VStr (js "1.0"))))
  /\ at_path ["ShipmentCreationRequest"; "OutputOptions"; "OutputFormat"]%string data
     = bind (get_opt out "OutputFormat") (fun c => Normal (or_else c (VStr (js "A4"))))
  /\ at_path ["ShipmentCreationRequest"; "OutputOptions"; "OutputType"]%string data
     = bind (get_opt out "OutputType") (fun c => Normal (or_else c (VStr (js "PdfUrl"))))
  /\ (forall k v, In k ["Culture"; "VersionAPI"]%string ->
        at_path ["ShipmentCreationRequest"; "Context"; k]%string data = Normal v ->
        truthy v = true)
  /\ (forall k v, In k ["OutputFormat"; "OutputType"]%string ->
        at_path ["ShipmentCreationRequest"; "OutputOptions"; k]%string data = Normal v ->
        truthy v = true).
Proof.
  unfold requestData, bind.
  repeat match goal with
         | |- context [match get ?a ?k with Normal _ => _ | Throw _ => _ end] =>
             let E := fresh "E" in
             destruct (get a k) eqn:E; [|discriminate]
         | |- context [match get_opt ?a ?k with Normal _ => _ | Throw _ => _ end] =>
             let E := fresh "E" in
             destruct (get_opt a k) eqn:E; [|discriminate]
         end.
  intros H. injection H as <-.
  repeat split; try (vm_compute; reflexivity).
  - intros k v [<-|[<-|[]]] Hv; vm_compute in Hv; injection Hv as <-;
      apply or_else_truthy; reflexivity.
  - intros k v [<-|[<-|[]]] Hv; vm_compute in Hv; injection Hv as <-;
      apply or_else_truthy; reflexivity.
Qed.

Lemma requestData_context_and_defaults_witness :
  at_path ["ShipmentCreationRequest"; "Context"; "Culture"]%string
    (match requestData (context filled_params) (shipment filled_params)
             (outputOptions filled_params) with
     | Normal data => data
     | Throw _ => VUndefined
     end)
  = Normal (VStr (js "fr-FR")).
Proof.
  refine (eq_trans
            (proj1 (proj2 (proj2 (proj2
               (requestData_context_and_defaults (context filled_params)
                  (shipment filled_params) (outputOptions filled_params) _ _)))))
            _).
  - vm_compute. reflexivity.
  - vm_compute. reflexivity.
Defined.





(** X24. The request always has a destination: the URL is never empty; a
    non-empty [apiUrl] is used as given whatever [apiVersion] says; and without
    one the URL is one of the two built-in endpoints, the V1 endpoint exactly
    when [apiVersion] is 'V1'. *)
Theorem API_URL_choice (p : ShipParams) :
  API_URL p <> []
  /\ (forall u, apiUrl p = Some u -> u <> [] -> API_URL p = u)
  /\ (apiUrl p = None \/ apiUrl p = Some [] ->
      API_URL p = (if bool_decide (apiVersion p = Some (js "V1")) then V1_URL else V2_URL)).
Proof.
  unfold API_URL. destruct (apiUrl p) as [[|c u]|].
  - split; [|split].
    + destruct (jsstring_eqb _ _); vm_compute; discriminate.
    + intros u E Hu. injection E as <-. contradiction Hu. reflexivity.
    + intros _. destruct (apiVersion p) as [v|]; simpl.
      * unfold jsstring_eqb. destruct (decide (v = js "V1")) as [->|Hv].
        -- rewrite !bool_decide_eq_true_2 by reflexivity. reflexivity.
        -- rewrite !bool_decide_eq_false_2; [reflexivity | congruence | exact Hv].
      * reflexivity.
  - split; [discriminate|]. split.
    + intros u' E _. injection E as <-. reflexivity.
    + intros [E|E]; discriminate E.
  - split; [|split].
    + destruct (jsstring_eqb _ _); vm_compute; discriminate.
    + intros u E. discriminate E.
    + intros _. destruct (apiVersion p) as [v|]; simpl.
      * unfold jsstring_eqb. destruct (decide (v = js "V1")) as [->|Hv].
        -- rewrite !bool_decide_eq_true_2 by reflexivity. reflexivity.
        -- rewrite !bool_decide_eq_false_2; [reflexivity | congruence | exact Hv].
      * reflexivity.
Qed.

Lemma API_URL_choice_witness :
  API_URL (mkShipParams VUndefined VUndefined VUndefined (Some (js "V1"))
             (Some (js "https://example.test/ship")))
  = js "https://example.test/ship".
Proof.
  apply (proj1 (proj2 (API_URL_choice
                         (mkShipParams VUndefined VUndefined VUndefined (Some (js "V1"))
                            (Some (js "https://example.test/ship")))))).
  - reflexivity.
  - vm_compute. discriminate.
Defined.
